(** * GPU telemetry core of evanOS: a shallow embedding of
      [src/core/gpu_monitor.cpp] and [include/core/gpu_monitor.h]

    The vendor library (NVML) is foreign code.  It is modelled by what the
    program can observe of it: which entry points [dlsym] resolves and what
    each entry point answers (return code and out-parameters) for given
    arguments; the answers of one loaded library are functions of the
    arguments.  Every call that leaves the program (loading or closing the
    library, a call through a resolved function pointer) is appended to an
    event log, and a call through a null function pointer is a fault.

    Layout: the C types, [GPUInfo], the library, the effects, then one
    module per class of gpu_monitor.h; module [Spec] holds the behaviour the
    specification describes and [Samples] concrete machines; the lemmas
    follow, grouped by operation, with one theorem per claim C1-C10. *)

From Stdlib Require Import ZArith List String Bool Lia QArith Sorted.
From Stdlib Require Import Floats.SpecFloat.
Import ListNotations.

Local Open Scope Z_scope.

(* ================================================================== *)
(** ** C scalar types used by the monitor *)

Module CTypes.

(** [unsigned int] is 32 bits wide: a conversion to it keeps the value
    modulo 2^32. *)
Definition UINT_MODULUS : Z := 2 ^ 32.

Definition to_unsigned_int (z : Z) : Z := z mod UINT_MODULUS.

(** [float] is IEEE-754 binary32: 24 bits of precision, emax = 128. *)
Definition float : Type := spec_float.

Definition prec32 : Z := 24.
Definition emax32 : Z := 128.

(** [static_cast<float>(u)] for an unsigned integer [u]: round to nearest,
    ties to even. *)
Definition float_of_uint (u : Z) : float :=
  binary_normalize prec32 emax32 u 0 false.

(** The literals [0.0f] and [1000.0f]. *)
Definition float_zero : float := S754_zero false.
Definition float_1000 : float := float_of_uint 1000.

(** [x / y] on [float]. *)
Definition float_div (x y : float) : float := SFdiv prec32 emax32 x y.

(** The rational number a finite [float] denotes. *)
Definition float_to_Q (f : float) : option Q :=
  match f with
  | S754_zero _ => Some 0%Q
  | S754_finite s m e =>
      let q := (inject_Z (Zpos m) * Qpower 2 e)%Q in
      Some (if s then Qopp q else q)
  | _ => None
  end.

End CTypes.
Import CTypes.

(* ================================================================== *)
(** ** GPUInfo (gpu_monitor.h) *)

Record GPUInfo : Type := mkGPUInfo {
  name : string;
  vendor : string;
  driver_version : string;
  memory_total : Z;      (* unsigned int, MB *)
  memory_used : Z;
  memory_free : Z;
  utilization : float;
  temperature : float;
  power_usage : float;
  clock_core : float;
  clock_memory : float
}.

Definition set_name (g : GPUInfo) (v : string) : GPUInfo :=
  mkGPUInfo v (vendor g) (driver_version g) (memory_total g) (memory_used g)
    (memory_free g) (utilization g) (temperature g) (power_usage g)
    (clock_core g) (clock_memory g).
Definition set_vendor (g : GPUInfo) (v : string) : GPUInfo :=
  mkGPUInfo (name g) v (driver_version g) (memory_total g) (memory_used g)
    (memory_free g) (utilization g) (temperature g) (power_usage g)
    (clock_core g) (clock_memory g).
Definition set_driver_version (g : GPUInfo) (v : string) : GPUInfo :=
  mkGPUInfo (name g) (vendor g) v (memory_total g) (memory_used g)
    (memory_free g) (utilization g) (temperature g) (power_usage g)
    (clock_core g) (clock_memory g).
Definition set_memory_total (g : GPUInfo) (v : Z) : GPUInfo :=
  mkGPUInfo (name g) (vendor g) (driver_version g) v (memory_used g)
    (memory_free g) (utilization g) (temperature g) (power_usage g)
    (clock_core g) (clock_memory g).
Definition set_memory_used (g : GPUInfo) (v : Z) : GPUInfo :=
  mkGPUInfo (name g) (vendor g) (driver_version g) (memory_total g) v
    (memory_free g) (utilization g) (temperature g) (power_usage g)
    (clock_core g) (clock_memory g).
Definition set_memory_free (g : GPUInfo) (v : Z) : GPUInfo :=
  mkGPUInfo (name g) (vendor g) (driver_version g) (memory_total g)
    (memory_used g) v (utilization g) (temperature g) (power_usage g)
    (clock_core g) (clock_memory g).
Definition set_utilization (g : GPUInfo) (v : float) : GPUInfo :=
  mkGPUInfo (name g) (vendor g) (driver_version g) (memory_total g)
    (memory_used g) (memory_free g) v (temperature g) (power_usage g)
    (clock_core g) (clock_memory g).
Definition set_temperature (g : GPUInfo) (v : float) : GPUInfo :=
  mkGPUInfo (name g) (vendor g) (driver_version g) (memory_total g)
    (memory_used g) (memory_free g) (utilization g) v (power_usage g)
    (clock_core g) (clock_memory g).
Definition set_power_usage (g : GPUInfo) (v : float) : GPUInfo :=
  mkGPUInfo (name g) (vendor g) (driver_version g) (memory_total g)
    (memory_used g) (memory_free g) (utilization g) (temperature g) v
    (clock_core g) (clock_memory g).
Definition set_clock_core (g : GPUInfo) (v : float) : GPUInfo :=
  mkGPUInfo (name g) (vendor g) (driver_version g) (memory_total g)
    (memory_used g) (memory_free g) (utilization g) (temperature g)
    (power_usage g) v (clock_memory g).
Definition set_clock_memory (g : GPUInfo) (v : float) : GPUInfo :=
  mkGPUInfo (name g) (vendor g) (driver_version g) (memory_total g)
    (memory_used g) (memory_free g) (utilization g) (temperature g)
    (power_usage g) (clock_core g) v.

(* ================================================================== *)
(** ** The vendor library as the program sees it *)

Module Nvml.

(** The eleven entry points [NVIDIA_GPUMonitor::initialize] asks for. *)
Inductive Symbol : Type :=
| nvmlInit
| nvmlShutdown
| nvmlDeviceGetCount
| nvmlDeviceGetHandleByIndex
| nvmlDeviceGetName
| nvmlDeviceGetMemoryInfo
| nvmlDeviceGetUtilizationRates
| nvmlDeviceGetTemperature
| nvmlDeviceGetPowerUsage
| nvmlDeviceGetClockInfo
| nvmlSystemGetDriverVersion.

Definition required_symbols : list Symbol :=
  [nvmlInit; nvmlShutdown; nvmlDeviceGetCount; nvmlDeviceGetHandleByIndex;
   nvmlDeviceGetName; nvmlDeviceGetMemoryInfo; nvmlDeviceGetUtilizationRates;
   nvmlDeviceGetTemperature; nvmlDeviceGetPowerUsage; nvmlDeviceGetClockInfo;
   nvmlSystemGetDriverVersion].

(** The local structs the queries hand to the library. *)
Record NVMLMemoryInfo : Type := mkMemoryInfo {
  total : Z;   (* unsigned long long, bytes *)
  free : Z;
  used : Z
}.

Record NVMLUtilizationRates : Type := mkUtilization {
  gpu : Z;     (* unsigned int *)
  memory : Z
}.

(** The function-pointer types of gpu_monitor.h.  A call yields the [int]
    return code and what the callee stored through its out-pointer; a
    [void*] device is the pointer value. *)
Definition nvmlInit_t : Type := unit -> Z.
Definition nvmlShutdown_t : Type := unit -> Z.
(* the count cell belongs to the monitor object, so its old content is an
   input: a callee that stores nothing answers the old content *)
Definition nvmlDeviceGetCount_t : Type := Z -> Z * Z.
Definition nvmlDeviceGetHandleByIndex_t : Type := Z -> Z * Z.
Definition nvmlDeviceGetName_t : Type := Z -> Z -> Z * string.
Definition nvmlDeviceGetMemoryInfo_t : Type := Z -> Z * NVMLMemoryInfo.
Definition nvmlDeviceGetUtilizationRates_t : Type :=
  Z -> Z * NVMLUtilizationRates.
Definition nvmlDeviceGetTemperature_t : Type := Z -> Z -> Z * Z.
Definition nvmlDeviceGetPowerUsage_t : Type := Z -> Z * Z.
Definition nvmlDeviceGetClockInfo_t : Type := Z -> Z -> Z * Z.
Definition nvmlSystemGetDriverVersion_t : Type := Z -> Z * string.

(** A loaded library: for each name, what [dlsym] / [GetProcAddress]
    returns ([None] is the null pointer). *)
Record Library : Type := mkLibrary {
  sym_nvmlInit : option nvmlInit_t;
  sym_nvmlShutdown : option nvmlShutdown_t;
  sym_nvmlDeviceGetCount : option nvmlDeviceGetCount_t;
  sym_nvmlDeviceGetHandleByIndex : option nvmlDeviceGetHandleByIndex_t;
  sym_nvmlDeviceGetName : option nvmlDeviceGetName_t;
  sym_nvmlDeviceGetMemoryInfo : option nvmlDeviceGetMemoryInfo_t;
  sym_nvmlDeviceGetUtilizationRates :
    option nvmlDeviceGetUtilizationRates_t;
  sym_nvmlDeviceGetTemperature : option nvmlDeviceGetTemperature_t;
  sym_nvmlDeviceGetPowerUsage : option nvmlDeviceGetPowerUsage_t;
  sym_nvmlDeviceGetClockInfo : option nvmlDeviceGetClockInfo_t;
  sym_nvmlSystemGetDriverVersion : option nvmlSystemGetDriverVersion_t
}.

Definition is_some {A : Type} (o : option A) : bool :=
  match o with Some _ => true | None => false end.

(** Does the library export the entry point? *)
Definition resolves (lib : Library) (sym : Symbol) : bool :=
  match sym with
  | nvmlInit => is_some (sym_nvmlInit lib)
  | nvmlShutdown => is_some (sym_nvmlShutdown lib)
  | nvmlDeviceGetCount => is_some (sym_nvmlDeviceGetCount lib)
  | nvmlDeviceGetHandleByIndex => is_some (sym_nvmlDeviceGetHandleByIndex lib)
  | nvmlDeviceGetName => is_some (sym_nvmlDeviceGetName lib)
  | nvmlDeviceGetMemoryInfo => is_some (sym_nvmlDeviceGetMemoryInfo lib)
  | nvmlDeviceGetUtilizationRates =>
      is_some (sym_nvmlDeviceGetUtilizationRates lib)
  | nvmlDeviceGetTemperature => is_some (sym_nvmlDeviceGetTemperature lib)
  | nvmlDeviceGetPowerUsage => is_some (sym_nvmlDeviceGetPowerUsage lib)
  | nvmlDeviceGetClockInfo => is_some (sym_nvmlDeviceGetClockInfo lib)
  | nvmlSystemGetDriverVersion =>
      is_some (sym_nvmlSystemGetDriverVersion lib)
  end.

(** The two build configurations of the [#ifdef _WIN32] blocks. *)
Inductive Platform : Type := Win32 | Posix.

(** The machine the program runs on: [load path] is the result of
    [LoadLibrary] / [dlopen] on that path. *)
Record Host : Type := mkHost {
  platform : Platform;
  load : string -> option Library
}.

End Nvml.

(* ================================================================== *)
(** ** Effects: the event log and faults *)

Inductive Event : Type :=
| EvLoad (path : string)        (* LoadLibrary / dlopen returned a handle *)
| EvFree                        (* FreeLibrary / dlclose *)
| EvCall (sym : Nvml.Symbol).   (* call through a resolved function pointer *)

Definition Log : Type := list Event.

(** A computation reads the log so far and either faults ([None]) or
    returns a value with the extended log. *)
Definition M (A : Type) : Type := Log -> option (A * Log).

Definition ret {A : Type} (a : A) : M A := fun tr => Some (a, tr).

Definition bind {A B : Type} (m : M A) (k : A -> M B) : M B :=
  fun tr => match m tr with
            | Some (a, tr') => k a tr'
            | None => None
            end.

Definition emit (e : Event) : M unit := fun tr => Some (tt, tr ++ [e]).

Definition fault {A : Type} : M A := fun _ => None.

Declare Scope monad_scope.
Delimit Scope monad_scope with monad.
Notation "x <- m ;; k" := (bind m (fun x => k))
  (at level 61, m at next level, right associativity) : monad_scope.
Notation "' p <- m ;; k" := (bind m (fun x => let p := x in k))
  (at level 61, p pattern, m at next level, right associativity) : monad_scope.
Notation "m ;;; k" := (bind m (fun _ => k))
  (at level 61, right associativity) : monad_scope.
Local Open Scope monad_scope.

(** A call through the function pointer [fp], which [sym] names. *)
Definition invoke {F : Type} (sym : Nvml.Symbol) (fp : option F) : M F :=
  match fp with
  | Some f => emit (EvCall sym) ;;; ret f
  | None => fault
  end.

(** [for (unsigned int i = from; i < from + n; ++i) body] over a loop
    state. *)
Fixpoint for_loop {S : Type} (n : nat) (i : Z) (body : Z -> S -> M S)
    (st : S) : M S :=
  match n with
  | O => ret st
  | Datatypes.S n' => st' <- body i st ;; for_loop n' (i + 1) body st'
  end.

(** [std::vector::empty]. *)
Definition empty {A : Type} (v : list A) : bool :=
  match v with
  | [] => true
  | _ :: _ => false
  end.

(** [GPUInfo gpu_info;] : the strings start empty; the numeric members are
    left without a value by the declaration (they are all assigned before
    the record is pushed, see [query_device_overwrites]). *)
Definition GPUInfo_declared : GPUInfo :=
  mkGPUInfo "" "" "" 0 0 0 float_zero float_zero float_zero float_zero
    float_zero.

(* ================================================================== *)
(** ** NVIDIA_GPUMonitor *)

Module NVIDIA_GPUMonitor.

Import Nvml.

Record t : Type := mk {
  nvml_lib : option Library;            (* void*, None is nullptr *)
  nvmlInit : option nvmlInit_t;
  nvmlShutdown : option nvmlShutdown_t;
  nvmlDeviceGetCount : option nvmlDeviceGetCount_t;
  nvmlDeviceGetHandleByIndex : option nvmlDeviceGetHandleByIndex_t;
  nvmlDeviceGetName : option nvmlDeviceGetName_t;
  nvmlDeviceGetMemoryInfo : option nvmlDeviceGetMemoryInfo_t;
  nvmlDeviceGetUtilizationRates : option nvmlDeviceGetUtilizationRates_t;
  nvmlDeviceGetTemperature : option nvmlDeviceGetTemperature_t;
  nvmlDeviceGetPowerUsage : option nvmlDeviceGetPowerUsage_t;
  nvmlDeviceGetClockInfo : option nvmlDeviceGetClockInfo_t;
  nvmlSystemGetDriverVersion : option nvmlSystemGetDriverVersion_t;
  is_initialized : bool;
  device_count : Z                      (* unsigned int *)
}.

Definition set_nvml_lib (this : t) (h : option Library) : t :=
  mk h (nvmlInit this) (nvmlShutdown this) (nvmlDeviceGetCount this)
    (nvmlDeviceGetHandleByIndex this) (nvmlDeviceGetName this)
    (nvmlDeviceGetMemoryInfo this) (nvmlDeviceGetUtilizationRates this)
    (nvmlDeviceGetTemperature this) (nvmlDeviceGetPowerUsage this)
    (nvmlDeviceGetClockInfo this) (nvmlSystemGetDriverVersion this)
    (is_initialized this) (device_count this).

(** The eleven assignments [nvmlX = (nvmlX_t)dlsym(nvml_lib, "nvmlX")]. *)
Definition set_function_pointers (this : t) (lib : Library) : t :=
  mk (nvml_lib this)
    (sym_nvmlInit lib) (sym_nvmlShutdown lib) (sym_nvmlDeviceGetCount lib)
    (sym_nvmlDeviceGetHandleByIndex lib) (sym_nvmlDeviceGetName lib)
    (sym_nvmlDeviceGetMemoryInfo lib)
    (sym_nvmlDeviceGetUtilizationRates lib)
    (sym_nvmlDeviceGetTemperature lib) (sym_nvmlDeviceGetPowerUsage lib)
    (sym_nvmlDeviceGetClockInfo lib) (sym_nvmlSystemGetDriverVersion lib)
    (is_initialized this) (device_count this).

Definition set_is_initialized (this : t) (b : bool) : t :=
  mk (nvml_lib this) (nvmlInit this) (nvmlShutdown this)
    (nvmlDeviceGetCount this) (nvmlDeviceGetHandleByIndex this)
    (nvmlDeviceGetName this) (nvmlDeviceGetMemoryInfo this)
    (nvmlDeviceGetUtilizationRates this) (nvmlDeviceGetTemperature this)
    (nvmlDeviceGetPowerUsage this) (nvmlDeviceGetClockInfo this)
    (nvmlSystemGetDriverVersion this) b (device_count this).

Definition set_device_count (this : t) (n : Z) : t :=
  mk (nvml_lib this) (nvmlInit this) (nvmlShutdown this)
    (nvmlDeviceGetCount this) (nvmlDeviceGetHandleByIndex this)
    (nvmlDeviceGetName this) (nvmlDeviceGetMemoryInfo this)
    (nvmlDeviceGetUtilizationRates this) (nvmlDeviceGetTemperature this)
    (nvmlDeviceGetPowerUsage this) (nvmlDeviceGetClockInfo this)
    (nvmlSystemGetDriverVersion this) (is_initialized this) n.

(** The constructor: library handle and all pointers null, not
    initialised, no devices. *)
Definition constructor : t :=
  mk None None None None None None None None None None None None false 0.

(** [LoadLibrary(path)] / [dlopen(path, RTLD_LAZY)]. *)
Definition load_library (host : Host) (path : string)
    : M (option Library) :=
  match load host path with
  | Some lib => emit (EvLoad path) ;;; ret (Some lib)
  | None => ret None
  end.

(** The test of lines 146-149: some pointer is null. *)
Definition some_pointer_null (this : t) : bool :=
  negb (is_some (nvmlInit this)) || negb (is_some (nvmlShutdown this))
  || negb (is_some (nvmlDeviceGetCount this))
  || negb (is_some (nvmlDeviceGetHandleByIndex this))
  || negb (is_some (nvmlDeviceGetName this))
  || negb (is_some (nvmlDeviceGetMemoryInfo this))
  || negb (is_some (nvmlDeviceGetUtilizationRates this))
  || negb (is_some (nvmlDeviceGetTemperature this))
  || negb (is_some (nvmlDeviceGetPowerUsage this))
  || negb (is_some (nvmlDeviceGetClockInfo this))
  || negb (is_some (nvmlSystemGetDriverVersion this)).

(** Lines 101-116: the assignments to [nvml_lib].  Each [return false]
    of that block is taken with [nvml_lib] null; [initialize] takes it
    right after the block. *)
Definition load_nvml (host : Host) (this : t) : M t :=
  match platform host with
  | Win32 =>
      h <- load_library host "nvidia-ml.dll" ;;
      let this := set_nvml_lib this h in
      if is_some h then ret this
      else
        h <- load_library host "C:\Windows\System32\nvidia-ml.dll" ;;
        ret (set_nvml_lib this h)
  | Posix =>
      h <- load_library host "libnvidia-ml.so.1" ;;
      ret (set_nvml_lib this h)
  end.

(** Lines 118-165: what [initialize] does once [nvml_lib] holds the
    handle of [lib]. *)
Definition start (this : t) (lib : Library) : M (bool * t) :=
  (* resolve the entry points *)
  let this := set_function_pointers this lib in
  if some_pointer_null this then ret (false, this)
  else
    f <- invoke Nvml.nvmlInit (nvmlInit this) ;;
    if negb (f tt =? 0) then ret (false, this)
    else
      f <- invoke Nvml.nvmlDeviceGetCount (nvmlDeviceGetCount this) ;;
      let '(rc, count) := f (device_count this) in
      let this := set_device_count this count in
      if negb (rc =? 0) then
        f <- invoke Nvml.nvmlShutdown (nvmlShutdown this) ;;
        let _ := f tt in
        ret (false, this)
      else ret (true, set_is_initialized this true).

Definition initialize (host : Host) (this : t) : M (bool * t) :=
  this <- load_nvml host this ;;
  match nvml_lib this with
  | None => ret (false, this)
  | Some lib => start this lib
  end.

(** [(1024 * 1024)] *)
Definition BYTES_PER_MB : Z := 1024 * 1024.

(** [static_cast<unsigned int>(bytes / (1024 * 1024))] on an
    [unsigned long long]. *)
Definition to_megabytes (bytes : Z) : Z :=
  to_unsigned_int (bytes / BYTES_PER_MB).

(** [static_cast<float>(power_usage) / 1000.0f] *)
Definition to_watts (milliwatts : Z) : float :=
  float_div (float_of_uint milliwatts) float_1000.

(** [sizeof(name)], [sizeof(driver_version)] for [char[256]]. *)
Definition BUFFER_SIZE : Z := 256.

(** The statements both [getGPUInfo] (at index 0, ending in
    [return false] / [return true]) and the loop body of [getAllGPUInfo]
    (at index [i], ending in [continue] / [push_back]) run on [gpu_info].
    The boolean tells whether the end of the statements was reached. *)
Definition query_device (this : t) (i : Z) (gpu_info : GPUInfo)
    : M (bool * GPUInfo) :=
  (* device handle *)
  f <- invoke Nvml.nvmlDeviceGetHandleByIndex
         (nvmlDeviceGetHandleByIndex this) ;;
  let '(rc, device) := f i in
  if negb (rc =? 0) then ret (false, gpu_info) else
  (* name *)
  f <- invoke Nvml.nvmlDeviceGetName (nvmlDeviceGetName this) ;;
  let '(rc, name) := f device BUFFER_SIZE in
  if negb (rc =? 0) then ret (false, gpu_info) else
  let gpu_info := set_name gpu_info name in
  let gpu_info := set_vendor gpu_info "NVIDIA" in
  (* driver version *)
  f <- invoke Nvml.nvmlSystemGetDriverVersion
         (nvmlSystemGetDriverVersion this) ;;
  let '(rc, version) := f BUFFER_SIZE in
  let gpu_info :=
    if negb (rc =? 0) then set_driver_version gpu_info "Unknown"
    else set_driver_version gpu_info version in
  (* memory *)
  f <- invoke Nvml.nvmlDeviceGetMemoryInfo (nvmlDeviceGetMemoryInfo this) ;;
  let '(rc, memory_info) := f device in
  if negb (rc =? 0) then ret (false, gpu_info) else
  let gpu_info := set_memory_total gpu_info (to_megabytes (total memory_info)) in
  let gpu_info := set_memory_used gpu_info (to_megabytes (used memory_info)) in
  let gpu_info := set_memory_free gpu_info (to_megabytes (free memory_info)) in
  (* utilization *)
  f <- invoke Nvml.nvmlDeviceGetUtilizationRates
         (nvmlDeviceGetUtilizationRates this) ;;
  let '(rc, utilization) := f device in
  if negb (rc =? 0) then ret (false, gpu_info) else
  let gpu_info := set_utilization gpu_info (float_of_uint (gpu utilization)) in
  (* temperature *)
  f <- invoke Nvml.nvmlDeviceGetTemperature
         (nvmlDeviceGetTemperature this) ;;
  let '(rc, temp) := f device 0 in
  if negb (rc =? 0) then ret (false, gpu_info) else
  let gpu_info := set_temperature gpu_info (float_of_uint temp) in
  (* power *)
  f <- invoke Nvml.nvmlDeviceGetPowerUsage (nvmlDeviceGetPowerUsage this) ;;
  let '(rc, power) := f device in
  let gpu_info :=
    if negb (rc =? 0) then set_power_usage gpu_info float_zero
    else set_power_usage gpu_info (to_watts power) in
  (* core clock *)
  f <- invoke Nvml.nvmlDeviceGetClockInfo (nvmlDeviceGetClockInfo this) ;;
  let '(rc, clock) := f device 0 in
  let gpu_info :=
    if negb (rc =? 0) then set_clock_core gpu_info float_zero
    else set_clock_core gpu_info (float_of_uint clock) in
  (* memory clock *)
  f <- invoke Nvml.nvmlDeviceGetClockInfo (nvmlDeviceGetClockInfo this) ;;
  let '(rc, clock) := f device 1 in
  let gpu_info :=
    if negb (rc =? 0) then set_clock_memory gpu_info float_zero
    else set_clock_memory gpu_info (float_of_uint clock) in
  ret (true, gpu_info).

Definition getGPUInfo (this : t) (gpu_info : GPUInfo) : M (bool * GPUInfo) :=
  if negb (is_initialized this) || (device_count this =? 0)
  then ret (false, gpu_info)
  else query_device this 0 gpu_info.

(** One iteration of the sweep: a fresh record, filled and pushed when
    every statement up to [push_back] was reached. *)
Definition sweep_body (this : t) (i : Z) (gpu_info_list : list GPUInfo)
    : M (list GPUInfo) :=
  '(reached, gpu_info) <- query_device this i GPUInfo_declared ;;
  if reached then ret (gpu_info_list ++ [gpu_info]) else ret gpu_info_list.

Definition getAllGPUInfo (this : t) (gpu_info_list : list GPUInfo)
    : M (bool * list GPUInfo) :=
  if negb (is_initialized this) || (device_count this =? 0)
  then ret (false, gpu_info_list)
  else
    gpu_info_list <-
      for_loop (Z.to_nat (device_count this)) 0 (sweep_body this)
        gpu_info_list ;;
    ret (negb (empty gpu_info_list), gpu_info_list).

Definition cleanup (this : t) : M t :=
  (if is_initialized this && is_some (nvmlShutdown this) then
     f <- invoke Nvml.nvmlShutdown (nvmlShutdown this) ;;
     let _ := f tt in ret tt
   else ret tt) ;;;
  this <-
    (if is_some (nvml_lib this) then
       emit EvFree ;;; ret (set_nvml_lib this None)
     else ret this) ;;
  let this := set_is_initialized this false in
  let this := set_device_count this 0 in
  ret this.

(** The destructor runs [cleanup]; the object is gone afterwards. *)
Definition destructor (this : t) : M unit :=
  cleanup this ;;; ret tt.

End NVIDIA_GPUMonitor.

(* ================================================================== *)
(** ** AMD_GPUMonitor and Intel_GPUMonitor *)

Module AMD_GPUMonitor.

Record t : Type := mk { is_initialized : bool }.

Definition constructor : t := mk false.

Definition initialize (this : t) : M (bool * t) := ret (false, this).

Definition getGPUInfo (this : t) (gpu_info : GPUInfo) : M (bool * GPUInfo) :=
  ret (false, gpu_info).

Definition getAllGPUInfo (this : t) (gpu_info_list : list GPUInfo)
    : M (bool * list GPUInfo) :=
  ret (false, gpu_info_list).

Definition cleanup (this : t) : M t := ret (mk false).

Definition destructor (this : t) : M unit := cleanup this ;;; ret tt.

End AMD_GPUMonitor.

Module Intel_GPUMonitor.

Record t : Type := mk { is_initialized : bool }.

Definition constructor : t := mk false.

Definition initialize (this : t) : M (bool * t) := ret (false, this).

Definition getGPUInfo (this : t) (gpu_info : GPUInfo) : M (bool * GPUInfo) :=
  ret (false, gpu_info).

Definition getAllGPUInfo (this : t) (gpu_info_list : list GPUInfo)
    : M (bool * list GPUInfo) :=
  ret (false, gpu_info_list).

Definition cleanup (this : t) : M t := ret (mk false).

Definition destructor (this : t) : M unit := cleanup this ;;; ret tt.

End Intel_GPUMonitor.

(* ================================================================== *)
(** ** IGPUMonitor: the objects a [IGPUMonitor*] can point to *)

Module IGPUMonitor.

Inductive t : Type :=
| Nvidia (m : NVIDIA_GPUMonitor.t)
| AMD (m : AMD_GPUMonitor.t)
| Intel (m : Intel_GPUMonitor.t).

Definition getAllGPUInfo (monitor : t) (gpu_info_list : list GPUInfo)
    : M (bool * list GPUInfo) :=
  match monitor with
  | Nvidia m => NVIDIA_GPUMonitor.getAllGPUInfo m gpu_info_list
  | AMD m => AMD_GPUMonitor.getAllGPUInfo m gpu_info_list
  | Intel m => Intel_GPUMonitor.getAllGPUInfo m gpu_info_list
  end.

Definition cleanup (monitor : t) : M t :=
  match monitor with
  | Nvidia m => m' <- NVIDIA_GPUMonitor.cleanup m ;; ret (Nvidia m')
  | AMD m => m' <- AMD_GPUMonitor.cleanup m ;; ret (AMD m')
  | Intel m => m' <- Intel_GPUMonitor.cleanup m ;; ret (Intel m')
  end.

(** [delete monitor] through the virtual destructor. *)
Definition delete (monitor : t) : M unit :=
  match monitor with
  | Nvidia m => NVIDIA_GPUMonitor.destructor m
  | AMD m => AMD_GPUMonitor.destructor m
  | Intel m => Intel_GPUMonitor.destructor m
  end.

Definition getVendorName (monitor : t) : string :=
  match monitor with
  | Nvidia _ => "NVIDIA"
  | AMD _ => "AMD"
  | Intel _ => "Intel"
  end.

End IGPUMonitor.

(** [for (auto x : v) body] over a loop state. *)
Fixpoint for_each {A S : Type} (v : list A) (body : A -> S -> M S) (st : S)
    : M S :=
  match v with
  | [] => ret st
  | x :: v' => st' <- body x st ;; for_each v' body st'
  end.

(* ================================================================== *)
(** ** GPUMonitorManager *)

Module GPUMonitorManager.

Record t : Type := mk {
  gpu_monitors : list IGPUMonitor.t;
  is_initialized : bool
}.

Definition constructor : t := mk [] false.

Definition initialize (host : Nvml.Host) (this : t) : M (bool * t) :=
  let gpu_monitors := gpu_monitors this in
  '(ok, nvidia_monitor) <-
     NVIDIA_GPUMonitor.initialize host NVIDIA_GPUMonitor.constructor ;;
  gpu_monitors <-
    (if ok then ret (gpu_monitors ++ [IGPUMonitor.Nvidia nvidia_monitor])
     else IGPUMonitor.delete (IGPUMonitor.Nvidia nvidia_monitor) ;;;
          ret gpu_monitors) ;;
  '(ok, amd_monitor) <-
     AMD_GPUMonitor.initialize AMD_GPUMonitor.constructor ;;
  gpu_monitors <-
    (if ok then ret (gpu_monitors ++ [IGPUMonitor.AMD amd_monitor])
     else IGPUMonitor.delete (IGPUMonitor.AMD amd_monitor) ;;;
          ret gpu_monitors) ;;
  '(ok, intel_monitor) <-
     Intel_GPUMonitor.initialize Intel_GPUMonitor.constructor ;;
  gpu_monitors <-
    (if ok then ret (gpu_monitors ++ [IGPUMonitor.Intel intel_monitor])
     else IGPUMonitor.delete (IGPUMonitor.Intel intel_monitor) ;;;
          ret gpu_monitors) ;;
  let is_initialized := negb (empty gpu_monitors) in
  ret (is_initialized, mk gpu_monitors is_initialized).

Definition getGPUMonitors (this : t) : list IGPUMonitor.t :=
  gpu_monitors this.

(** The body of the loop of [getAllGPUInfo]. *)
Definition collect (monitor : IGPUMonitor.t) (gpu_info_list : list GPUInfo)
    : M (list GPUInfo) :=
  let temp_list := [] in
  '(ok, temp_list) <- IGPUMonitor.getAllGPUInfo monitor temp_list ;;
  if ok then ret (gpu_info_list ++ temp_list) else ret gpu_info_list.

Definition getAllGPUInfo (this : t) (gpu_info_list : list GPUInfo)
    : M (bool * list GPUInfo) :=
  if negb (is_initialized this) then ret (false, gpu_info_list)
  else
    gpu_info_list <- for_each (gpu_monitors this) collect gpu_info_list ;;
    ret (negb (empty gpu_info_list), gpu_info_list).

(** The body of the loop of [cleanup]. *)
Definition release (monitor : IGPUMonitor.t) (_ : unit) : M unit :=
  monitor <- IGPUMonitor.cleanup monitor ;;
  IGPUMonitor.delete monitor.

Definition cleanup (this : t) : M t :=
  for_each (gpu_monitors this) release tt ;;;
  ret (mk [] false).

Definition destructor (this : t) : M unit := cleanup this ;;; ret tt.

End GPUMonitorManager.

(* ================================================================== *)
(** ** ConsoleUI: the two GPU displays of console_ui.cpp *)

(** What is inserted into [std::cout]: a string, an [unsigned int], a
    [float], or [std::endl].  How [operator<<] lays a number out in
    characters is not modelled; the item carries the number. *)
Inductive Out : Type :=
| OutText (s : string)
| OutUInt (n : Z)
| OutFloat (f : float)
| Endl.

Module ConsoleUI.

(** The loop body of [displayGPUInfo] (lines 96-104). *)
Definition print_gpu_info (cout : list Out) (gpu_info : GPUInfo) : list Out :=
  cout ++
  [OutText "GPU名称: "; OutText (name gpu_info); Endl;
   OutText "厂商: "; OutText (vendor gpu_info); Endl;
   OutText "驱动版本: "; OutText (driver_version gpu_info); Endl;
   OutText "总显存: "; OutUInt (memory_total gpu_info); OutText " MB"; Endl;
   OutText "已用显存: "; OutUInt (memory_used gpu_info); OutText " MB"; Endl;
   OutText "使用率: "; OutFloat (utilization gpu_info); OutText "%"; Endl;
   OutText "温度: "; OutFloat (temperature gpu_info); OutText "°C"; Endl;
   OutText "功耗: "; OutFloat (power_usage gpu_info); OutText " W"; Endl;
   Endl].

(** The loop body of [displayAdvancedGPUInfo] (lines 140-155). *)
Definition print_advanced_gpu_info (cout : list Out) (gpu_info : GPUInfo)
    : list Out :=
  cout ++
  [OutText "=== 高级GPU信息 ==="; Endl;
   OutText "GPU名称: "; OutText (name gpu_info); Endl;
   OutText "厂商: "; OutText (vendor gpu_info); Endl;
   OutText "驱动版本: "; OutText (driver_version gpu_info); Endl;
   OutText "显存信息: "; Endl;
   OutText "  总显存: "; OutUInt (memory_total gpu_info); OutText " MB"; Endl;
   OutText "  已用显存: "; OutUInt (memory_used gpu_info); OutText " MB"; Endl;
   OutText "  可用显存: "; OutUInt (memory_free gpu_info); OutText " MB"; Endl;
   OutText "性能信息: "; Endl;
   OutText "  使用率: "; OutFloat (utilization gpu_info); OutText "%"; Endl;
   OutText "  温度: "; OutFloat (temperature gpu_info); OutText "°C"; Endl;
   OutText "  功耗: "; OutFloat (power_usage gpu_info); OutText " W"; Endl;
   OutText "频率信息: "; Endl;
   OutText "  核心频率: "; OutFloat (clock_core gpu_info); OutText " MHz"; Endl;
   OutText "  显存频率: "; OutFloat (clock_memory gpu_info); OutText " MHz";
   Endl;
   Endl].

(** The statements [displayGPUInfo] and [displayAdvancedGPUInfo] share;
    they differ in the loop body [print] only.  The local manager is
    destroyed when the function returns. *)
Definition display (print : list Out -> GPUInfo -> list Out)
    (host : Nvml.Host) (cout : list Out) : M (list Out) :=
  let gpu_manager := GPUMonitorManager.constructor in
  '(ok, gpu_manager) <- GPUMonitorManager.initialize host gpu_manager ;;
  '(cout, gpu_manager) <-
    (if ok then
       let gpu_info_list := [] in
       '(found, gpu_info_list) <-
          GPUMonitorManager.getAllGPUInfo gpu_manager gpu_info_list ;;
       let cout :=
         if found then fold_left print gpu_info_list cout
         else cout ++ [OutText "无法获取GPU信息"; Endl] in
       gpu_manager <- GPUMonitorManager.cleanup gpu_manager ;;
       ret (cout, gpu_manager)
     else ret (cout ++ [OutText "无法初始化GPU监控"; Endl], gpu_manager)) ;;
  GPUMonitorManager.destructor gpu_manager ;;;
  ret cout.

Definition displayGPUInfo : Nvml.Host -> list Out -> M (list Out) :=
  display print_gpu_info.

Definition displayAdvancedGPUInfo : Nvml.Host -> list Out -> M (list Out) :=
  display print_advanced_gpu_info.

End ConsoleUI.

(* ================================================================== *)
(** ** The behaviour the specification describes

    Definitions written from the specification's words, to be compared
    with the functions above. *)

Module Spec.

Import Nvml.

(** A function table whose eleven entry points all resolved. *)
Record Api : Type := mkApi {
  api_nvmlInit : nvmlInit_t;
  api_nvmlShutdown : nvmlShutdown_t;
  api_nvmlDeviceGetCount : nvmlDeviceGetCount_t;
  api_nvmlDeviceGetHandleByIndex : nvmlDeviceGetHandleByIndex_t;
  api_nvmlDeviceGetName : nvmlDeviceGetName_t;
  api_nvmlDeviceGetMemoryInfo : nvmlDeviceGetMemoryInfo_t;
  api_nvmlDeviceGetUtilizationRates : nvmlDeviceGetUtilizationRates_t;
  api_nvmlDeviceGetTemperature : nvmlDeviceGetTemperature_t;
  api_nvmlDeviceGetPowerUsage : nvmlDeviceGetPowerUsage_t;
  api_nvmlDeviceGetClockInfo : nvmlDeviceGetClockInfo_t;
  api_nvmlSystemGetDriverVersion : nvmlSystemGetDriverVersion_t
}.

(** The library that exports exactly that table. *)
Definition library_of (api : Api) : Library :=
  mkLibrary
    (Some (api_nvmlInit api)) (Some (api_nvmlShutdown api))
    (Some (api_nvmlDeviceGetCount api))
    (Some (api_nvmlDeviceGetHandleByIndex api))
    (Some (api_nvmlDeviceGetName api))
    (Some (api_nvmlDeviceGetMemoryInfo api))
    (Some (api_nvmlDeviceGetUtilizationRates api))
    (Some (api_nvmlDeviceGetTemperature api))
    (Some (api_nvmlDeviceGetPowerUsage api))
    (Some (api_nvmlDeviceGetClockInfo api))
    (Some (api_nvmlSystemGetDriverVersion api)).

(** The backend's pointers are the entries of [api]. *)
Definition bound_to (this : NVIDIA_GPUMonitor.t) (api : Api) : Prop :=
  NVIDIA_GPUMonitor.nvmlInit this = Some (api_nvmlInit api)
  /\ NVIDIA_GPUMonitor.nvmlShutdown this = Some (api_nvmlShutdown api)
  /\ NVIDIA_GPUMonitor.nvmlDeviceGetCount this
     = Some (api_nvmlDeviceGetCount api)
  /\ NVIDIA_GPUMonitor.nvmlDeviceGetHandleByIndex this
     = Some (api_nvmlDeviceGetHandleByIndex api)
  /\ NVIDIA_GPUMonitor.nvmlDeviceGetName this
     = Some (api_nvmlDeviceGetName api)
  /\ NVIDIA_GPUMonitor.nvmlDeviceGetMemoryInfo this
     = Some (api_nvmlDeviceGetMemoryInfo api)
  /\ NVIDIA_GPUMonitor.nvmlDeviceGetUtilizationRates this
     = Some (api_nvmlDeviceGetUtilizationRates api)
  /\ NVIDIA_GPUMonitor.nvmlDeviceGetTemperature this
     = Some (api_nvmlDeviceGetTemperature api)
  /\ NVIDIA_GPUMonitor.nvmlDeviceGetPowerUsage this
     = Some (api_nvmlDeviceGetPowerUsage api)
  /\ NVIDIA_GPUMonitor.nvmlDeviceGetClockInfo this
     = Some (api_nvmlDeviceGetClockInfo api)
  /\ NVIDIA_GPUMonitor.nvmlSystemGetDriverVersion this
     = Some (api_nvmlSystemGetDriverVersion api).

(** A query succeeds when its return code is 0. *)
Definition succeeded (rc : Z) : bool := rc =? 0.

(** Step 1: handle enumeration for index [i], and the handle it gives. *)
Definition handle_ok (api : Api) (i : Z) : bool :=
  succeeded (fst (api_nvmlDeviceGetHandleByIndex api i)).
Definition device (api : Api) (i : Z) : Z :=
  snd (api_nvmlDeviceGetHandleByIndex api i).

(** Steps 2, 4, 5, 6: the core fetches for index [i]. *)
Definition name_ok (api : Api) (i : Z) : bool :=
  succeeded (fst (api_nvmlDeviceGetName api (device api i) 256)).
Definition memory_ok (api : Api) (i : Z) : bool :=
  succeeded (fst (api_nvmlDeviceGetMemoryInfo api (device api i))).
Definition utilization_ok (api : Api) (i : Z) : bool :=
  succeeded (fst (api_nvmlDeviceGetUtilizationRates api (device api i))).
Definition temperature_ok (api : Api) (i : Z) : bool :=
  succeeded (fst (api_nvmlDeviceGetTemperature api (device api i) 0)).

(** Steps 3, 7, 8: the best-effort fetches. *)
Definition driver_ok (api : Api) : bool :=
  succeeded (fst (api_nvmlSystemGetDriverVersion api 256)).
Definition power_ok (api : Api) (i : Z) : bool :=
  succeeded (fst (api_nvmlDeviceGetPowerUsage api (device api i))).
Definition clock_ok (api : Api) (i : Z) (domain : Z) : bool :=
  succeeded (fst (api_nvmlDeviceGetClockInfo api (device api i) domain)).

(** "A record is emitted only if steps 1-6 all succeed." *)
Definition emitted (api : Api) (i : Z) : bool :=
  handle_ok api i && name_ok api i && memory_ok api i
  && utilization_ok api i && temperature_ok api i.

(** Steps 2, 4, 5, 6 together: what is left to succeed once the handle
    is there. *)
Definition other_core_ok (api : Api) (i : Z) : bool :=
  name_ok api i && memory_ok api i && utilization_ok api i
  && temperature_ok api i.


(** The record for index [i], with the documented defaults. *)
Definition snapshot (mb : Z -> Z) (api : Api) (i : Z) : GPUInfo :=
  let d := device api i in
  let mem := snd (api_nvmlDeviceGetMemoryInfo api d) in
  {| name := snd (api_nvmlDeviceGetName api d 256);
     vendor := "NVIDIA";
     driver_version :=
       if driver_ok api then snd (api_nvmlSystemGetDriverVersion api 256)
       else "Unknown";
     memory_total := mb (total mem);
     memory_used := mb (used mem);
     memory_free := mb (free mem);
     utilization :=
       float_of_uint (gpu (snd (api_nvmlDeviceGetUtilizationRates api d)));
     temperature :=
       float_of_uint (snd (api_nvmlDeviceGetTemperature api d 0));
     power_usage :=
       if power_ok api i
       then float_div
              (float_of_uint (snd (api_nvmlDeviceGetPowerUsage api d)))
              float_1000
       else float_zero;
     clock_core :=
       if clock_ok api i 0
       then float_of_uint (snd (api_nvmlDeviceGetClockInfo api d 0))
       else float_zero;
     clock_memory :=
       if clock_ok api i 1
       then float_of_uint (snd (api_nvmlDeviceGetClockInfo api d 1))
       else float_zero |}.

(** The indices [0, device_count) in ascending order. *)
Fixpoint indices_from (n : nat) (i : Z) : list Z :=
  match n with
  | O => []
  | S n' => i :: indices_from n' (i + 1)
  end.
Definition indices (device_count : Z) : list Z :=
  indices_from (Z.to_nat device_count) 0.

(** "queryAll() returns the concatenation of all successfully emitted
    records, preserving ascending index order." *)
Definition records (mb : Z -> Z) (api : Api) (device_count : Z)
    : list GPUInfo :=
  map (snapshot mb api) (filter (emitted api) (indices device_count)).

(** The candidate the loader settles on: the platform's default name,
    then (on Windows) the fixed fallback path. *)
Definition located (host : Host) : option (string * Library) :=
  match platform host with
  | Win32 =>
      match load host "nvidia-ml.dll" with
      | Some lib => Some ("nvidia-ml.dll"%string, lib)
      | None =>
          match load host "C:\Windows\System32\nvidia-ml.dll" with
          | Some lib => Some ("C:\Windows\System32\nvidia-ml.dll"%string, lib)
          | None => None
          end
      end
  | Posix =>
      match load host "libnvidia-ml.so.1" with
      | Some lib => Some ("libnvidia-ml.so.1"%string, lib)
      | None => None
      end
  end.

(** The lifecycle state [Uninitialized]. *)
Definition Uninitialized (this : NVIDIA_GPUMonitor.t) : Prop :=
  NVIDIA_GPUMonitor.nvml_lib this = None
  /\ NVIDIA_GPUMonitor.is_initialized this = false
  /\ NVIDIA_GPUMonitor.device_count this = 0.

(** A backend that never successfully initialized: built by the
    constructor and only ever taken through failed [initialize] calls and
    [cleanup] calls (the queries do not change the object). *)
Inductive never_initialized : NVIDIA_GPUMonitor.t -> Prop :=
| ni_constructor : never_initialized NVIDIA_GPUMonitor.constructor
| ni_initialize host this this' tr tr' :
    never_initialized this ->
    NVIDIA_GPUMonitor.initialize host this tr = Some ((false, this'), tr') ->
    never_initialized this'
| ni_cleanup this this' tr tr' :
    never_initialized this ->
    NVIDIA_GPUMonitor.cleanup this tr = Some (this', tr') ->
    never_initialized this'.

(** Events of one kind in a log. *)
Definition is_load (e : Event) : bool :=
  match e with EvLoad _ => true | _ => false end.
Definition is_free (e : Event) : bool :=
  match e with EvFree => true | _ => false end.
Definition is_call (e : Event) : bool :=
  match e with EvCall _ => true | _ => false end.

(** Library references opened and not yet closed. *)
Definition open_handles (tr : Log) : Z :=
  Z.of_nat (List.length (filter is_load tr))
  - Z.of_nat (List.length (filter is_free tr)).

(** What loading adds to the log. *)
Definition load_events (host : Host) : Log :=
  match located host with
  | Some (path, _) => [EvLoad path]
  | None => []
  end.

(** "No function table is retained": every pointer member is null. *)
Definition table_discarded (this : NVIDIA_GPUMonitor.t) : bool :=
  negb (is_some (NVIDIA_GPUMonitor.nvmlInit this))
  && negb (is_some (NVIDIA_GPUMonitor.nvmlShutdown this))
  && negb (is_some (NVIDIA_GPUMonitor.nvmlDeviceGetCount this))
  && negb (is_some (NVIDIA_GPUMonitor.nvmlDeviceGetHandleByIndex this))
  && negb (is_some (NVIDIA_GPUMonitor.nvmlDeviceGetName this))
  && negb (is_some (NVIDIA_GPUMonitor.nvmlDeviceGetMemoryInfo this))
  && negb (is_some (NVIDIA_GPUMonitor.nvmlDeviceGetUtilizationRates this))
  && negb (is_some (NVIDIA_GPUMonitor.nvmlDeviceGetTemperature this))
  && negb (is_some (NVIDIA_GPUMonitor.nvmlDeviceGetPowerUsage this))
  && negb (is_some (NVIDIA_GPUMonitor.nvmlDeviceGetClockInfo this))
  && negb (is_some (NVIDIA_GPUMonitor.nvmlSystemGetDriverVersion this)).

(** The guard both Nvidia queries start with lets the call through. *)
Definition ready (this : NVIDIA_GPUMonitor.t) : bool :=
  NVIDIA_GPUMonitor.is_initialized this
  && negb (NVIDIA_GPUMonitor.device_count this =? 0).

(** The records one [getAllGPUInfo] call of the Nvidia backend
    produces. *)
Definition produced (this : NVIDIA_GPUMonitor.t) (api : Api)
    : list GPUInfo :=
  if ready this
  then records NVIDIA_GPUMonitor.to_megabytes api
         (NVIDIA_GPUMonitor.device_count this)
  else [].

(** The conversion of [k] whole watts, read as [1000 * k] milliwatts, gives
    the number [k] itself. *)
Definition whole_watt_exact (k : Z) : bool :=
  match float_to_Q (NVIDIA_GPUMonitor.to_watts (1000 * k)) with
  | Some q => Qeq_bool q (inject_Z k)
  | None => false
  end.

(** A backend whose flag, when set, is backed by a complete table. *)
Definition usable (monitor : IGPUMonitor.t) : Prop :=
  match monitor with
  | IGPUMonitor.Nvidia m =>
      NVIDIA_GPUMonitor.is_initialized m = true -> exists api, bound_to m api
  | IGPUMonitor.AMD _ => True
  | IGPUMonitor.Intel _ => True
  end.

End Spec.

(* ================================================================== *)
(** ** Concrete machines, used to run the model *)

Module Samples.

Import Nvml.

Definition device_name (d : Z) : string :=
  if d =? 100 then "GPU 0" else if d =? 101 then "GPU 1" else "GPU 2".

(** A driver with [count] devices whose handle enumeration answers
    [handle_rc i] for index [i], and where every other query succeeds:
    [total_bytes] of memory, [milliwatts] of power draw. *)
Definition api (count : Z) (handle_rc : Z -> Z) (total_bytes milliwatts : Z)
    : Spec.Api :=
  Spec.mkApi
    (fun _ => 0)
    (fun _ => 0)
    (fun _ => (0, count))
    (fun i => (handle_rc i, 100 + i))
    (fun d _ => (0, device_name d))
    (fun _ => (0, mkMemoryInfo total_bytes (total_bytes / 4)
                    (total_bytes - total_bytes / 4)))
    (fun _ => (0, mkUtilization 50 25))
    (fun _ _ => (0, 60))
    (fun _ => (0, milliwatts))
    (fun _ domain => (0, if domain =? 0 then 1500 else 7000))
    (fun _ => (0, "535.104.05"%string)).

Definition GiB : Z := 1073741824.

(** Three devices, the handle of index 1 cannot be enumerated. *)
Definition api_three : Spec.Api :=
  api 3 (fun i => if i =? 1 then 999 else 0) GiB 125000.

(** One device whose handle cannot be enumerated. *)
Definition api_lost : Spec.Api := api 1 (fun _ => 999) GiB 125000.


(** A complete library whose [nvmlInit] reports an error. *)
Definition api_init_fails : Spec.Api :=
  let a := api_three in
  Spec.mkApi (fun _ => 1) (Spec.api_nvmlShutdown a)
    (Spec.api_nvmlDeviceGetCount a) (Spec.api_nvmlDeviceGetHandleByIndex a)
    (Spec.api_nvmlDeviceGetName a) (Spec.api_nvmlDeviceGetMemoryInfo a)
    (Spec.api_nvmlDeviceGetUtilizationRates a)
    (Spec.api_nvmlDeviceGetTemperature a) (Spec.api_nvmlDeviceGetPowerUsage a)
    (Spec.api_nvmlDeviceGetClockInfo a) (Spec.api_nvmlSystemGetDriverVersion a).

(** A complete library whose [nvmlDeviceGetCount] reports an error and
    stores nothing. *)
Definition api_count_fails : Spec.Api :=
  let a := api_three in
  Spec.mkApi (Spec.api_nvmlInit a) (Spec.api_nvmlShutdown a)
    (fun old => (1, old)) (Spec.api_nvmlDeviceGetHandleByIndex a)
    (Spec.api_nvmlDeviceGetName a) (Spec.api_nvmlDeviceGetMemoryInfo a)
    (Spec.api_nvmlDeviceGetUtilizationRates a)
    (Spec.api_nvmlDeviceGetTemperature a) (Spec.api_nvmlDeviceGetPowerUsage a)
    (Spec.api_nvmlDeviceGetClockInfo a) (Spec.api_nvmlSystemGetDriverVersion a).

(** Ten of the eleven entry points: no [nvmlSystemGetDriverVersion]. *)
Definition library_ten_of_eleven : Library :=
  let lib := Spec.library_of api_three in
  mkLibrary (sym_nvmlInit lib) (sym_nvmlShutdown lib)
    (sym_nvmlDeviceGetCount lib) (sym_nvmlDeviceGetHandleByIndex lib)
    (sym_nvmlDeviceGetName lib) (sym_nvmlDeviceGetMemoryInfo lib)
    (sym_nvmlDeviceGetUtilizationRates lib)
    (sym_nvmlDeviceGetTemperature lib) (sym_nvmlDeviceGetPowerUsage lib)
    (sym_nvmlDeviceGetClockInfo lib) None.

(** A Linux machine on which [libnvidia-ml.so.1] is [lib], if any. *)
Definition posix_host (lib : option Library) : Host :=
  mkHost Posix
    (fun path => if String.eqb path "libnvidia-ml.so.1" then lib else None).

(** A Windows machine with the library only at the fallback path. *)
Definition win32_host (lib : option Library) : Host :=
  mkHost Win32
    (fun path =>
       if String.eqb path "C:\Windows\System32\nvidia-ml.dll" then lib
       else None).

(** The backend after a successful [initialize] against [a]. *)
Definition ready_monitor (a : Spec.Api) : NVIDIA_GPUMonitor.t :=
  let lib := Spec.library_of a in
  NVIDIA_GPUMonitor.set_is_initialized
    (NVIDIA_GPUMonitor.set_device_count
       (NVIDIA_GPUMonitor.set_function_pointers
          (NVIDIA_GPUMonitor.set_nvml_lib NVIDIA_GPUMonitor.constructor
             (Some lib))
          lib)
       (snd (Spec.api_nvmlDeviceGetCount a 0)))
    true.

(** Two healthy devices. *)
Definition api_two : Spec.Api := api 2 (fun _ => 0) GiB 125000.

(** Two devices; the handle of index 0 is there but its memory cannot be
    read. *)
Definition api_memory_fails : Spec.Api :=
  let a := api_two in
  Spec.mkApi (Spec.api_nvmlInit a) (Spec.api_nvmlShutdown a)
    (Spec.api_nvmlDeviceGetCount a) (Spec.api_nvmlDeviceGetHandleByIndex a)
    (Spec.api_nvmlDeviceGetName a)
    (fun d => if d =? 100 then (1, mkMemoryInfo 0 0 0)
              else Spec.api_nvmlDeviceGetMemoryInfo a d)
    (Spec.api_nvmlDeviceGetUtilizationRates a)
    (Spec.api_nvmlDeviceGetTemperature a) (Spec.api_nvmlDeviceGetPowerUsage a)
    (Spec.api_nvmlDeviceGetClockInfo a) (Spec.api_nvmlSystemGetDriverVersion a).

(** One device on which every core fetch succeeds while the driver
    version, the power and the memory clock cannot be read (the core clock
    can). *)
Definition api_degraded : Spec.Api :=
  let a := api 1 (fun _ => 0) GiB 125000 in
  Spec.mkApi (Spec.api_nvmlInit a) (Spec.api_nvmlShutdown a)
    (Spec.api_nvmlDeviceGetCount a) (Spec.api_nvmlDeviceGetHandleByIndex a)
    (Spec.api_nvmlDeviceGetName a) (Spec.api_nvmlDeviceGetMemoryInfo a)
    (Spec.api_nvmlDeviceGetUtilizationRates a)
    (Spec.api_nvmlDeviceGetTemperature a)
    (fun _ => (3, 0))
    (fun _ domain => if domain =? 0 then (0, 1500) else (3, 0))
    (fun _ => (3, ""%string)).

(** A record a caller may already hold. *)
Definition earlier_record : GPUInfo :=
  mkGPUInfo "GPU 9" "NVIDIA" "1.0" 1 1 0 float_zero float_zero float_zero
    float_zero float_zero.

End Samples.

(* ================================================================== *)
(** ** Descriptions of what the code does, used by the further results *)

Module Expect.

Import Nvml Spec.

(** The complete table a library exports, if it exports all eleven entry
    points. *)
Definition api_of (lib : Library) : option Api :=
  match sym_nvmlInit lib, sym_nvmlShutdown lib, sym_nvmlDeviceGetCount lib,
        sym_nvmlDeviceGetHandleByIndex lib, sym_nvmlDeviceGetName lib,
        sym_nvmlDeviceGetMemoryInfo lib,
        sym_nvmlDeviceGetUtilizationRates lib,
        sym_nvmlDeviceGetTemperature lib, sym_nvmlDeviceGetPowerUsage lib,
        sym_nvmlDeviceGetClockInfo lib, sym_nvmlSystemGetDriverVersion lib
  with
  | Some a, Some b, Some c, Some d, Some e, Some f, Some g, Some h, Some i,
    Some j, Some k => Some (mkApi a b c d e f g h i j k)
  | _, _, _, _, _, _, _, _, _, _, _ => None
  end.

(** The complete table a backend holds in its pointer members, if all
    eleven are set. *)
Definition table (this : NVIDIA_GPUMonitor.t) : option Api :=
  api_of
    (mkLibrary
       (NVIDIA_GPUMonitor.nvmlInit this) (NVIDIA_GPUMonitor.nvmlShutdown this)
       (NVIDIA_GPUMonitor.nvmlDeviceGetCount this)
       (NVIDIA_GPUMonitor.nvmlDeviceGetHandleByIndex this)
       (NVIDIA_GPUMonitor.nvmlDeviceGetName this)
       (NVIDIA_GPUMonitor.nvmlDeviceGetMemoryInfo this)
       (NVIDIA_GPUMonitor.nvmlDeviceGetUtilizationRates this)
       (NVIDIA_GPUMonitor.nvmlDeviceGetTemperature this)
       (NVIDIA_GPUMonitor.nvmlDeviceGetPowerUsage this)
       (NVIDIA_GPUMonitor.nvmlDeviceGetClockInfo this)
       (NVIDIA_GPUMonitor.nvmlSystemGetDriverVersion this)).

(** The backend [this] turns into when [initialize] succeeds with the
    library [lib] and the device count [count]. *)
Definition initialized (this : NVIDIA_GPUMonitor.t) (lib : Library)
    (count : Z) : NVIDIA_GPUMonitor.t :=
  NVIDIA_GPUMonitor.set_is_initialized
    (NVIDIA_GPUMonitor.set_device_count
       (NVIDIA_GPUMonitor.set_function_pointers
          (NVIDIA_GPUMonitor.set_nvml_lib this (Some lib)) lib)
       count)
    true.

(** The machine offers a working Nvidia driver to a backend whose count
    member holds [old_count]: a candidate loads, it exports the eleven
    entry points, [nvmlInit] and [nvmlDeviceGetCount] answer 0.  The result
    is the library, its table and the count it reports. *)
Definition available (old_count : Z) (host : Host)
    : option (string * Library * Api * Z) :=
  match located host with
  | Some (path, lib) =>
      match api_of lib with
      | Some api =>
          if api_nvmlInit api tt =? 0 then
            let '(rc, count) := api_nvmlDeviceGetCount api old_count in
            if rc =? 0 then Some (path, lib, api, count) else None
          else None
      | None => None
      end
  | None => None
  end.

(** Calls of one entry point in a log. *)
Definition is_handle_call (e : Event) : bool :=
  match e with
  | EvCall Nvml.nvmlDeviceGetHandleByIndex => true
  | _ => false
  end.
Definition is_shutdown_call (e : Event) : bool :=
  match e with
  | EvCall Nvml.nvmlShutdown => true
  | _ => false
  end.

(** The library calls of one iteration of the sweep, in order. *)
Definition device_calls (api : Api) (i : Z) : Log :=
  EvCall Nvml.nvmlDeviceGetHandleByIndex ::
  if handle_ok api i then
    EvCall Nvml.nvmlDeviceGetName ::
    if name_ok api i then
      EvCall Nvml.nvmlSystemGetDriverVersion ::
      EvCall Nvml.nvmlDeviceGetMemoryInfo ::
      if memory_ok api i then
        EvCall Nvml.nvmlDeviceGetUtilizationRates ::
        if utilization_ok api i then
          EvCall Nvml.nvmlDeviceGetTemperature ::
          if temperature_ok api i then
            [EvCall Nvml.nvmlDeviceGetPowerUsage;
             EvCall Nvml.nvmlDeviceGetClockInfo;
             EvCall Nvml.nvmlDeviceGetClockInfo]
          else []
        else []
      else []
    else []
  else [].

(** The library calls of one [getAllGPUInfo] of the Nvidia backend. *)
Definition sweep_calls (this : NVIDIA_GPUMonitor.t) (api : Api) : Log :=
  if ready this
  then flat_map (device_calls api)
         (indices (NVIDIA_GPUMonitor.device_count this))
  else [].

(** The records and the calls one retained backend contributes to the
    manager's [getAllGPUInfo]. *)
Definition monitor_records (monitor : IGPUMonitor.t) : list GPUInfo :=
  match monitor with
  | IGPUMonitor.Nvidia m =>
      match table m with
      | Some api => produced m api
      | None => []
      end
  | _ => []
  end.
Definition monitor_calls (monitor : IGPUMonitor.t) : Log :=
  match monitor with
  | IGPUMonitor.Nvidia m =>
      match table m with
      | Some api => sweep_calls m api
      | None => []
      end
  | _ => []
  end.

(** The backend still holds a library handle; [cleanup] will call
    [nvmlShutdown] on it. *)
Definition holds_library (monitor : IGPUMonitor.t) : bool :=
  match monitor with
  | IGPUMonitor.Nvidia m => is_some (NVIDIA_GPUMonitor.nvml_lib m)
  | _ => false
  end.
Definition shuts_down (monitor : IGPUMonitor.t) : bool :=
  match monitor with
  | IGPUMonitor.Nvidia m =>
      NVIDIA_GPUMonitor.is_initialized m
      && is_some (NVIDIA_GPUMonitor.nvmlShutdown m)
  | _ => false
  end.

(** What [cleanup] followed by [delete] adds to the log for one backend. *)
Definition release_events (monitor : IGPUMonitor.t) : Log :=
  (if shuts_down monitor then [EvCall Nvml.nvmlShutdown] else [])
  ++ (if holds_library monitor then [EvFree] else []).

(** An Nvidia backend in working order: flagged, with a complete table and
    an open library handle. *)
Definition working (monitor : IGPUMonitor.t) : Prop :=
  match monitor with
  | IGPUMonitor.Nvidia m =>
      NVIDIA_GPUMonitor.is_initialized m = true
      /\ (exists api, bound_to m api)
      /\ NVIDIA_GPUMonitor.nvml_lib m <> None
  | _ => False
  end.

(** The managers a program can get to: from the constructor through
    [initialize] on any machine and [cleanup], in any order
    ([getAllGPUInfo] and [getGPUMonitors] do not change the manager). *)
Inductive reachable : GPUMonitorManager.t -> Prop :=
| reach_constructor : reachable GPUMonitorManager.constructor
| reach_initialize host this tr ok this' tr' :
    reachable this ->
    GPUMonitorManager.initialize host this tr = Some ((ok, this'), tr') ->
    reachable this'
| reach_cleanup this tr this' tr' :
    reachable this ->
    GPUMonitorManager.cleanup this tr = Some (this', tr') ->
    reachable this'.

(** A program run on a manager, log included: from the constructor with
    the log [tr0], through [initialize] on any machine, [getAllGPUInfo] on
    any list and [cleanup], in any order; [manager_run tr0 this tr] is the
    manager and the log the run ends with. *)
Inductive manager_run (tr0 : Log) : GPUMonitorManager.t -> Log -> Prop :=
| run_constructor : manager_run tr0 GPUMonitorManager.constructor tr0
| run_initialize host this tr ok this' tr' :
    manager_run tr0 this tr ->
    GPUMonitorManager.initialize host this tr = Some ((ok, this'), tr') ->
    manager_run tr0 this' tr'
| run_getAllGPUInfo this tr l r out tr' :
    manager_run tr0 this tr ->
    GPUMonitorManager.getAllGPUInfo this l tr = Some ((r, out), tr') ->
    manager_run tr0 this tr'
| run_cleanup this tr this' tr' :
    manager_run tr0 this tr ->
    GPUMonitorManager.cleanup this tr = Some (this', tr') ->
    manager_run tr0 this' tr'.

(** What a display writes on a machine: the message of a failed
    initialisation, the message of an empty result, or one block per
    record. *)
Definition shown (print : list Out -> GPUInfo -> list Out) (host : Host)
    : list Out :=
  match available 0 host with
  | None => [OutText "无法初始化GPU监控"; Endl]
  | Some (_, _, api, count) =>
      let found :=
        if count =? 0 then []
        else records NVIDIA_GPUMonitor.to_megabytes api count in
      if empty found then [OutText "无法获取GPU信息"; Endl]
      else flat_map (print []) found
  end.

End Expect.

(* ================================================================== *)
(** ** Running the model: equations for each operation *)

Local Ltac run := cbv [bind ret emit invoke fault].

Section NvidiaEquations.

Import Nvml NVIDIA_GPUMonitor Spec.

Lemma load_library_spec host path tr :
  load_library host path tr
  = Some (load host path,
          tr ++ match load host path with
                | Some _ => [EvLoad path]
                | None => []
                end).
Proof.
  unfold load_library. destruct (load host path); run; [reflexivity|].
  now rewrite app_nil_r.
Qed.

Lemma load_nvml_spec host this tr :
  load_nvml host this tr
  = Some (set_nvml_lib this (option_map snd (located host)),
          tr ++ load_events host).
Proof.
  unfold load_nvml, load_events, located.
  destruct (platform host); unfold bind; rewrite !load_library_spec.
  - destruct (load host "nvidia-ml.dll") as [lib|]; cbn [is_some option_map snd].
    + reflexivity.
    + unfold bind. rewrite load_library_spec. unfold ret.
      destruct (load host _); cbn [option_map snd set_nvml_lib];
        rewrite ?app_nil_r; reflexivity.
  - unfold ret. destruct (load host _); reflexivity.
Qed.

Lemma initialize_not_located host this tr :
  located host = None ->
  initialize host this tr = Some ((false, set_nvml_lib this None), tr).
Proof.
  intros H. unfold initialize, bind. rewrite load_nvml_spec.
  unfold load_events. rewrite H. cbn. now rewrite app_nil_r.
Qed.

Lemma initialize_located host this tr path lib :
  located host = Some (path, lib) ->
  initialize host this tr
  = start (set_nvml_lib this (Some lib)) lib (tr ++ [EvLoad path]).
Proof.
  intros H. unfold initialize, bind. rewrite load_nvml_spec.
  unfold load_events. rewrite H. reflexivity.
Qed.

(** The enumeration lists all the entry points, and there are eleven. *)
Lemma required_symbols_complete sym : In sym required_symbols.
Proof. destruct sym; cbn; tauto. Qed.

Lemma required_symbols_eleven : List.length required_symbols = 11%nat.
Proof. reflexivity. Qed.

(** The test of lines 146-149 fires exactly when an entry point is
    missing from the library. *)
Lemma some_pointer_null_iff this lib :
  some_pointer_null (set_function_pointers this lib) = true
  <-> exists sym, resolves lib sym = false.
Proof.
  unfold some_pointer_null, set_function_pointers; cbn.
  split.
  - intros H.
    repeat (apply orb_true_iff in H; destruct H as [H|H]);
      apply negb_true_iff in H.
    + now exists Nvml.nvmlInit.
    + now exists Nvml.nvmlShutdown.
    + now exists Nvml.nvmlDeviceGetCount.
    + now exists Nvml.nvmlDeviceGetHandleByIndex.
    + now exists Nvml.nvmlDeviceGetName.
    + now exists Nvml.nvmlDeviceGetMemoryInfo.
    + now exists Nvml.nvmlDeviceGetUtilizationRates.
    + now exists Nvml.nvmlDeviceGetTemperature.
    + now exists Nvml.nvmlDeviceGetPowerUsage.
    + now exists Nvml.nvmlDeviceGetClockInfo.
    + now exists Nvml.nvmlSystemGetDriverVersion.
  - intros [sym H]. destruct sym; cbn in H; rewrite H; cbn;
      rewrite ?orb_true_r; reflexivity.
Qed.

Lemma start_missing this lib tr :
  (exists sym, resolves lib sym = false) ->
  start this lib tr = Some ((false, set_function_pointers this lib), tr).
Proof.
  intros H. apply (some_pointer_null_iff this) in H.
  unfold start. now rewrite H.
Qed.

Lemma all_resolved_library this lib :
  some_pointer_null (set_function_pointers this lib) = false ->
  exists api, lib = library_of api.
Proof.
  destruct lib as [[a|] [b|] [c|] [d|] [e|] [f|] [g|] [h|] [i|] [j|] [k|]];
    cbn; try discriminate.
  intros _. now exists (mkApi a b c d e f g h i j k).
Qed.

Lemma start_resolved this api tr :
  start this (library_of api) tr
  = let this1 := set_function_pointers this (library_of api) in
    if negb (api_nvmlInit api tt =? 0)
    then Some ((false, this1), tr ++ [EvCall Nvml.nvmlInit])
    else
      let '(rc, count) := api_nvmlDeviceGetCount api (device_count this) in
      if negb (rc =? 0)
      then Some ((false, set_device_count this1 count),
                 tr ++ [EvCall Nvml.nvmlInit; EvCall Nvml.nvmlDeviceGetCount;
                        EvCall Nvml.nvmlShutdown])
      else Some ((true,
                  set_is_initialized (set_device_count this1 count) true),
                 tr ++ [EvCall Nvml.nvmlInit;
                        EvCall Nvml.nvmlDeviceGetCount]).
Proof.
  unfold start. cbn -[Z.eqb]. run.
  destruct (api_nvmlInit api tt =? 0); cbn [negb]; [|reflexivity].
  destruct (api_nvmlDeviceGetCount api (device_count this)) as [rc count].
  destruct (rc =? 0); cbn [negb]; rewrite <- !app_assoc; reflexivity.
Qed.

Lemma cleanup_spec this tr :
  cleanup this tr
  = Some (mk None (nvmlInit this) (nvmlShutdown this)
            (nvmlDeviceGetCount this) (nvmlDeviceGetHandleByIndex this)
            (nvmlDeviceGetName this) (nvmlDeviceGetMemoryInfo this)
            (nvmlDeviceGetUtilizationRates this)
            (nvmlDeviceGetTemperature this) (nvmlDeviceGetPowerUsage this)
            (nvmlDeviceGetClockInfo this) (nvmlSystemGetDriverVersion this)
            false 0,
          tr ++ (if is_initialized this && is_some (nvmlShutdown this)
                 then [EvCall Nvml.nvmlShutdown] else [])
             ++ (if is_some (nvml_lib this) then [EvFree] else [])).
Proof.
  unfold cleanup.
  destruct this as [lib a b c d e f g h i j k ini dc]; cbn.
  destruct ini, b as [b|], lib as [lib|]; cbn; run;
    rewrite <- ?app_assoc, ?app_nil_r; reflexivity.
Qed.

Lemma cleanup_uninitialized this tr this' tr' :
  cleanup this tr = Some (this', tr') -> Uninitialized this'.
Proof.
  rewrite cleanup_spec. intros H. injection H as <- _.
  repeat split.
Qed.

(** The statements of a query, against a complete table: the end is
    reached exactly when the five core fetches succeed, and the record is
    then the specified one. *)
Lemma query_device_bound this api :
  bound_to this api ->
  forall i g tr, exists g' tr',
    query_device this i g tr = Some ((emitted api i, g'), tr')
    /\ (emitted api i = true -> g' = snapshot to_megabytes api i).
Proof.
  intros (Hi & Hs & Hc & Hh & Hn & Hm & Hu & Ht & Hp & Hk & Hd) i g tr.
  unfold query_device.
  rewrite Hh, Hn, Hm, Hu, Ht, Hp, Hk, Hd.
  unfold emitted, snapshot, handle_ok, name_ok, memory_ok, utilization_ok,
    temperature_ok, driver_ok, power_ok, clock_ok, device, succeeded,
    BUFFER_SIZE, to_watts.
  run.
  destruct (api_nvmlDeviceGetHandleByIndex api i) as [rc0 d]; cbn [fst snd].
  destruct (rc0 =? 0); cbn [negb andb];
    [|eexists _, _; split; [reflexivity|discriminate]].
  destruct (api_nvmlDeviceGetName api d 256) as [rc1 nm]; cbn [fst snd].
  destruct (rc1 =? 0); cbn [negb andb];
    [|eexists _, _; split; [reflexivity|discriminate]].
  destruct (api_nvmlSystemGetDriverVersion api 256) as [rc2 ver];
    cbn [fst snd].
  destruct (api_nvmlDeviceGetMemoryInfo api d) as [rc3 mem]; cbn [fst snd].
  destruct (rc3 =? 0); cbn [negb andb];
    [|eexists _, _; split; [reflexivity|discriminate]].
  destruct (api_nvmlDeviceGetUtilizationRates api d) as [rc4 ut];
    cbn [fst snd].
  destruct (rc4 =? 0); cbn [negb andb];
    [|eexists _, _; split; [reflexivity|discriminate]].
  destruct (api_nvmlDeviceGetTemperature api d 0) as [rc5 te]; cbn [fst snd].
  destruct (rc5 =? 0); cbn [negb andb];
    [|eexists _, _; split; [reflexivity|discriminate]].
  destruct (api_nvmlDeviceGetPowerUsage api d) as [rc6 pw]; cbn [fst snd].
  destruct (api_nvmlDeviceGetClockInfo api d 0) as [rc7 c0]; cbn [fst snd].
  destruct (api_nvmlDeviceGetClockInfo api d 1) as [rc8 c1]; cbn [fst snd].
  eexists _, _; split; [reflexivity|intros _].
  destruct (rc2 =? 0), (rc6 =? 0), (rc7 =? 0), (rc8 =? 0); reflexivity.
Qed.

(** On reaching [push_back] no member is left as declared. *)
Lemma query_device_overwrites this api i g1 g2 tr :
  bound_to this api ->
  emitted api i = true ->
  exists g' tr',
    query_device this i g1 tr = Some ((true, g'), tr')
    /\ query_device this i g2 tr = Some ((true, g'), tr').
Proof.
  intros Hb He.
  destruct (query_device_bound this api Hb i g1 tr) as (a & ta & E1 & F1).
  unfold query_device in *.
  destruct Hb as (Hi & Hs & Hc & Hh & Hn & Hm & Hu & Ht & Hp & Hk & Hd).
  rewrite Hh, Hn, Hm, Hu, Ht, Hp, Hk, Hd in *.
  revert E1. run.
  destruct (api_nvmlDeviceGetHandleByIndex api i) as [rc0 d].
  destruct (rc0 =? 0); cbn [negb]; [|rewrite He; discriminate].
  destruct (api_nvmlDeviceGetName api d BUFFER_SIZE) as [rc1 nm].
  destruct (rc1 =? 0); cbn [negb]; [|rewrite He; discriminate].
  destruct (api_nvmlSystemGetDriverVersion api BUFFER_SIZE) as [rc2 ver].
  destruct (api_nvmlDeviceGetMemoryInfo api d) as [rc3 mem].
  destruct (rc3 =? 0); cbn [negb]; [|rewrite He; discriminate].
  destruct (api_nvmlDeviceGetUtilizationRates api d) as [rc4 ut].
  destruct (rc4 =? 0); cbn [negb]; [|rewrite He; discriminate].
  destruct (api_nvmlDeviceGetTemperature api d 0) as [rc5 te].
  destruct (rc5 =? 0); cbn [negb]; [|rewrite He; discriminate].
  destruct (api_nvmlDeviceGetPowerUsage api d) as [rc6 pw].
  destruct (api_nvmlDeviceGetClockInfo api d 0) as [rc7 c0].
  destruct (api_nvmlDeviceGetClockInfo api d 1) as [rc8 c1].
  intros _. eexists _, _; split; [reflexivity|].
  destruct (rc2 =? 0), (rc6 =? 0), (rc7 =? 0), (rc8 =? 0); reflexivity.
Qed.

Lemma sweep_body_bound this api :
  bound_to this api ->
  forall i l tr, exists tr',
    sweep_body this i l tr
    = Some ((if emitted api i then l ++ [snapshot to_megabytes api i]
             else l), tr').
Proof.
  intros Hb i l tr. unfold sweep_body, bind.
  destruct (query_device_bound this api Hb i GPUInfo_declared tr)
    as (g' & tr' & E & F).
  rewrite E. destruct (emitted api i).
  - rewrite (F eq_refl). now exists tr'.
  - now exists tr'.
Qed.

Lemma for_loop_sweep this api :
  bound_to this api ->
  forall n i l tr, exists tr',
    for_loop n i (sweep_body this) l tr
    = Some (l ++ map (snapshot to_megabytes api)
                   (filter (emitted api) (indices_from n i)), tr').
Proof.
  intros Hb n. induction n as [|n IH]; intros i l tr.
  - exists tr. cbn. now rewrite app_nil_r.
  - cbn [for_loop indices_from filter]. unfold bind.
    destruct (sweep_body_bound this api Hb i l tr) as (tr1 & E).
    rewrite E.
    destruct (IH (i + 1)
                (if emitted api i then l ++ [snapshot to_megabytes api i]
                 else l) tr1) as (tr2 & E2).
    rewrite E2. exists tr2. f_equal. f_equal.
    destruct (emitted api i); [|reflexivity].
    cbn [map]. now rewrite <- app_assoc.
Qed.

Lemma getAllGPUInfo_guarded this l tr :
  ready this = false ->
  getAllGPUInfo this l tr = Some ((false, l), tr).
Proof.
  unfold ready, getAllGPUInfo. intros H.
  destruct (is_initialized this), (device_count this =? 0);
    try discriminate; reflexivity.
Qed.

Lemma getGPUInfo_guarded this g tr :
  ready this = false ->
  getGPUInfo this g tr = Some ((false, g), tr).
Proof.
  unfold ready, getGPUInfo. intros H.
  destruct (is_initialized this), (device_count this =? 0);
    try discriminate; reflexivity.
Qed.

Lemma getAllGPUInfo_ready this api l tr :
  bound_to this api ->
  ready this = true ->
  exists tr',
    getAllGPUInfo this l tr
    = Some ((negb (empty (l ++ records to_megabytes api (device_count this))),
             l ++ records to_megabytes api (device_count this)), tr').
Proof.
  intros Hb Hr. unfold getAllGPUInfo, ready in *.
  apply andb_true_iff in Hr. destruct Hr as [-> Hr].
  apply negb_true_iff in Hr. rewrite Hr. cbn [negb orb]. unfold bind.
  destruct (for_loop_sweep this api Hb (Z.to_nat (device_count this)) 0 l tr)
    as (tr' & E).
  rewrite E. now exists tr'.
Qed.

(** The Nvidia query in one equation: it never faults on a backend whose
    flag is backed by a complete table. *)
Lemma getAllGPUInfo_produced this api l tr :
  (is_initialized this = true -> bound_to this api) ->
  exists tr',
    getAllGPUInfo this l tr
    = Some ((ready this && negb (empty (l ++ produced this api)),
             l ++ produced this api), tr').
Proof.
  intros Hb. unfold produced. destruct (ready this) eqn:Hr.
  - assert (Hi : is_initialized this = true).
    { unfold ready in Hr. now apply andb_true_iff in Hr. }
    destruct (getAllGPUInfo_ready this api l tr (Hb Hi) Hr) as (tr' & E).
    exists tr'. now rewrite E.
  - exists tr. rewrite app_nil_r. now apply getAllGPUInfo_guarded.
Qed.

End NvidiaEquations.

Section Handles.

Import Spec.

Lemma open_handles_app tr1 tr2 :
  open_handles (tr1 ++ tr2) = open_handles tr1 + open_handles tr2.
Proof.
  unfold open_handles. rewrite !filter_app, !length_app. lia.
Qed.

Lemma open_handles_load path : open_handles [EvLoad path] = 1.
Proof. reflexivity. Qed.

Lemma open_handles_load_events host :
  open_handles (load_events host)
  = if Nvml.is_some (located host) then 1 else 0.
Proof.
  unfold load_events. destruct (located host) as [[path lib]|]; reflexivity.
Qed.

Lemma calls_app tr1 tr2 :
  filter is_call (tr1 ++ tr2) = filter is_call tr1 ++ filter is_call tr2.
Proof. apply filter_app. Qed.

End Handles.

Section Indices.

Import Spec.

(** The sweep visits exactly the indices below the device count, in
    strictly ascending order. *)
Lemma indices_from_spec n start i :
  In i (indices_from n start) <-> start <= i < start + Z.of_nat n.
Proof.
  revert start. induction n as [|n IH]; intros start.
  - cbn. lia.
  - cbn [indices_from In]. rewrite IH. lia.
Qed.

Lemma indices_spec dc i : In i (indices dc) <-> 0 <= i < dc.
Proof. unfold indices. rewrite indices_from_spec. lia. Qed.

Lemma indices_ascending dc : StronglySorted Z.lt (indices dc).
Proof.
  unfold indices. generalize (Z.to_nat dc) as n, 0 as start.
  induction n as [|n IH]; intros start; cbn [indices_from].
  - constructor.
  - constructor; [apply IH|].
    apply Forall_forall. intros i Hin.
    apply indices_from_spec in Hin. lia.
Qed.

Lemma StronglySorted_filter_lt (f : Z -> bool) (l : list Z) :
  StronglySorted Z.lt l -> StronglySorted Z.lt (filter f l).
Proof.
  induction 1 as [|i l Hs IH Hall]; cbn [filter]; [constructor|].
  destruct (f i); [|exact IH].
  constructor; [exact IH|].
  rewrite Forall_forall in *. intros j Hj.
  apply filter_In in Hj. apply Hall, Hj.
Qed.

End Indices.

Section NvidiaLifecycle.

Import Nvml NVIDIA_GPUMonitor Spec.

Lemma bound_to_library this api :
  bound_to (set_function_pointers this (library_of api)) api.
Proof. repeat split. Qed.

(** What [start] guarantees, whatever the library exports. *)
Lemma start_cases this lib tr :
  exists r this' calls,
    start this lib tr = Some ((r, this'), tr ++ calls)
    /\ nvml_lib this' = nvml_lib this
    /\ open_handles calls = 0
    /\ (r = true -> is_initialized this' = true /\ exists api, bound_to this' api)
    /\ (r = false -> is_initialized this' = is_initialized this)
    /\ (r = false -> device_count this' = device_count this
                     \/ In (EvCall Nvml.nvmlShutdown) calls).
Proof.
  destruct (some_pointer_null (set_function_pointers this lib)) eqn:Hn.
  - exists false, (set_function_pointers this lib), [].
    rewrite app_nil_r. unfold start. rewrite Hn.
    repeat split; try discriminate; auto.
  - destruct (all_resolved_library this lib Hn) as [api ->].
    rewrite start_resolved. cbv zeta.
    destruct (negb (api_nvmlInit api tt =? 0)).
    + eexists false, _, _. repeat split; try discriminate; auto.
    + destruct (api_nvmlDeviceGetCount api (device_count this)) as [rc count].
      destruct (negb (rc =? 0)).
      * eexists false, _, _. repeat split; try discriminate.
        intros _. right. cbn. tauto.
      * eexists true, _, _. repeat split; try discriminate.
        exists api. repeat split.
Qed.

(** What [initialize] guarantees on every machine and from every state:
    it returns, the handle member is what the loader found, the log gains
    one open library reference exactly when a library was found, success
    leaves a flagged backend with a complete table, and failure leaves the
    flag as it was. *)
Lemma initialize_cases host this tr :
  exists r this' tr',
    initialize host this tr = Some ((r, this'), tr')
    /\ nvml_lib this' = option_map snd (located host)
    /\ open_handles tr' = open_handles tr
                          + (if is_some (located host) then 1 else 0)
    /\ (r = true -> is_initialized this' = true /\ exists api, bound_to this' api)
    /\ (r = false -> is_initialized this' = is_initialized this).
Proof.
  destruct (located host) as [[path lib]|] eqn:Hl.
  - rewrite (initialize_located host this tr path lib Hl).
    destruct (start_cases (set_nvml_lib this (Some lib)) lib (tr ++ [EvLoad path]))
      as (r & this' & calls & E & Hlib & Hc & Ht & Hf & _).
    exists r, this', ((tr ++ [EvLoad path]) ++ calls).
    split; [exact E|]. split; [exact Hlib|].
    split; [|split; [exact Ht|exact Hf]].
    rewrite !open_handles_app, Hc, open_handles_load. cbn [is_some]. lia.
  - rewrite (initialize_not_located host this tr Hl).
    exists false, (set_nvml_lib this None), tr.
    repeat split; try discriminate. cbn [is_some]. lia.
Qed.

(** A backend that never initialized successfully has its flag down. *)
Lemma never_initialized_flag this :
  never_initialized this -> is_initialized this = false.
Proof.
  induction 1 as [|host this this' tr tr' _ IH E|this this' tr tr' _ IH E].
  - reflexivity.
  - destruct (initialize_cases host this tr)
      as (r & s & t & E' & _ & _ & _ & Hf).
    rewrite E in E'. injection E' as <- <- <-.
    now rewrite (Hf eq_refl).
  - apply cleanup_uninitialized in E. apply E.
Qed.

(** The destructor closes the handle a failed [initialize] left open. *)
Lemma destructor_spec this tr :
  exists calls,
    destructor this tr = Some (tt, tr ++ calls)
    /\ open_handles calls = (if is_some (nvml_lib this) then -1 else 0)
    /\ (is_initialized this = false -> filter is_call calls = []).
Proof.
  unfold destructor, bind. rewrite cleanup_spec. unfold ret.
  eexists. split; [reflexivity|].
  destruct (is_initialized this), (is_some (nvmlShutdown this)),
    (is_some (nvml_lib this)); cbn; repeat split; try discriminate; auto.
Qed.

End NvidiaLifecycle.

Section ManagerEquations.

Import Spec.

Lemma release_spec monitor tr :
  exists tr', GPUMonitorManager.release monitor tt tr = Some (tt, tr').
Proof.
  unfold GPUMonitorManager.release, bind.
  destruct monitor as [m|m|m]; cbn [IGPUMonitor.cleanup IGPUMonitor.delete].
  - unfold bind. rewrite cleanup_spec. unfold ret. cbv beta iota.
    cbn [IGPUMonitor.delete].
    unfold NVIDIA_GPUMonitor.destructor, bind. rewrite cleanup_spec.
    unfold ret. eexists. reflexivity.
  - eexists. reflexivity.
  - eexists. reflexivity.
Qed.

Lemma for_each_release monitors tr :
  exists tr', for_each monitors GPUMonitorManager.release tt tr = Some (tt, tr').
Proof.
  revert tr. induction monitors as [|monitor monitors IH]; intros tr.
  - now exists tr.
  - cbn [for_each]. unfold bind.
    destruct (release_spec monitor tr) as (tr1 & ->).
    apply IH.
Qed.

Lemma manager_cleanup_spec this tr :
  exists tr',
    GPUMonitorManager.cleanup this tr
    = Some (GPUMonitorManager.constructor, tr').
Proof.
  unfold GPUMonitorManager.cleanup, bind.
  destruct (for_each_release (GPUMonitorManager.gpu_monitors this) tr)
    as (tr' & ->).
  now exists tr'.
Qed.

(** One backend's contribution to the manager's sweep. *)
Lemma collect_spec monitor l tr :
  usable monitor ->
  exists new tr', GPUMonitorManager.collect monitor l tr = Some (l ++ new, tr').
Proof.
  intros Hu. unfold GPUMonitorManager.collect, bind.
  destruct monitor as [m|m|m]; cbn [IGPUMonitor.getAllGPUInfo].
  - cbn in Hu.
    destruct (NVIDIA_GPUMonitor.is_initialized m) eqn:Hi.
    + destruct (Hu eq_refl) as [api Hb].
      destruct (getAllGPUInfo_produced m api [] tr (fun _ => Hb)) as (tr' & ->).
      cbn [app].
      destruct (ready m && negb (empty (produced m api))).
      * now exists (produced m api), tr'.
      * exists [], tr'. now rewrite app_nil_r.
    + rewrite getAllGPUInfo_guarded by (unfold ready; now rewrite Hi).
      exists [], tr. now rewrite app_nil_r.
  - exists [], tr. cbn. now rewrite app_nil_r.
  - exists [], tr. cbn. now rewrite app_nil_r.
Qed.

Lemma for_each_collect monitors :
  Forall usable monitors ->
  forall l tr, exists new tr',
    for_each monitors GPUMonitorManager.collect l tr = Some (l ++ new, tr').
Proof.
  induction 1 as [|monitor monitors Hu _ IH]; intros l tr.
  - exists [], tr. cbn. now rewrite app_nil_r.
  - cbn [for_each]. unfold bind.
    destruct (collect_spec monitor l tr Hu) as (new1 & tr1 & ->).
    destruct (IH (l ++ new1) tr1) as (new2 & tr2 & ->).
    exists (new1 ++ new2), tr2. now rewrite app_assoc.
Qed.

Lemma manager_getAllGPUInfo_guarded this l tr :
  GPUMonitorManager.is_initialized this = false ->
  GPUMonitorManager.getAllGPUInfo this l tr = Some ((false, l), tr).
Proof.
  intros H. unfold GPUMonitorManager.getAllGPUInfo. now rewrite H.
Qed.

(** [GPUMonitorManager::initialize] in terms of what the Nvidia backend's
    own [initialize] returned on a fresh object. *)
Lemma manager_initialize_spec host this tr ok nv tr1 :
  NVIDIA_GPUMonitor.initialize host NVIDIA_GPUMonitor.constructor tr
    = Some ((ok, nv), tr1) ->
  exists tr',
    GPUMonitorManager.initialize host this tr
    = (let retained :=
         GPUMonitorManager.gpu_monitors this
         ++ (if ok then [IGPUMonitor.Nvidia nv] else []) in
       Some ((negb (empty retained),
              GPUMonitorManager.mk retained (negb (empty retained))), tr'))
    /\ (if ok then tr' = tr1
        else NVIDIA_GPUMonitor.destructor nv tr1 = Some (tt, tr')).
Proof.
  intros E. unfold GPUMonitorManager.initialize, bind. rewrite E.
  destruct ok.
  - exists tr1. split; [|reflexivity]. reflexivity.
  - cbn [IGPUMonitor.delete].
    destruct (destructor_spec nv tr1) as (calls & Ed & _).
    rewrite Ed. exists (tr1 ++ calls). rewrite app_nil_r.
    split; reflexivity.
Qed.

End ManagerEquations.

(* ================================================================== *)
(** ** Symbol resolution (C1) *)

Section SymbolResolution.

Import Nvml NVIDIA_GPUMonitor Spec.

Lemma unresolved_symbol lib :
  forallb (resolves lib) required_symbols = false ->
  exists sym, resolves lib sym = false.
Proof.
  intros H.
  destruct (existsb (fun sym => negb (resolves lib sym)) required_symbols) eqn:E.
  - apply existsb_exists in E. destruct E as (sym & _ & E).
    exists sym. now apply negb_true_iff.
  - exfalso. rewrite <- not_true_iff_false in H. apply H.
    apply forallb_forall. intros sym Hin.
    destruct (resolves lib sym) eqn:R; [reflexivity|].
    rewrite <- not_true_iff_false in E. exfalso. apply E.
    apply existsb_exists. exists sym. now rewrite R.
Qed.

(** C1, as the code has it.  When the library is found but one of the
    eleven entry points does not resolve, [initialize] returns false
    without calling into the library.  The pointers that did resolve stay
    in the object; on a backend whose flag was down they cannot be reached:
    [getGPUInfo] and [getAllGPUInfo] return false, leave their output as it
    was and make no call. *)
Theorem C1_partial_table_unusable host this tr path lib :
  is_initialized this = false ->
  located host = Some (path, lib) ->
  forallb (resolves lib) required_symbols = false ->
  exists this',
    initialize host this tr = Some ((false, this'), tr ++ [EvLoad path])
    /\ is_initialized this' = false
    /\ (forall gpu_info trq,
          getGPUInfo this' gpu_info trq = Some ((false, gpu_info), trq))
    /\ (forall gpu_info_list trq,
          getAllGPUInfo this' gpu_info_list trq
          = Some ((false, gpu_info_list), trq)).
Proof.
  intros Hflag Hloc Hmiss. apply unresolved_symbol in Hmiss.
  rewrite (initialize_located host this tr path lib Hloc).
  rewrite (start_missing _ lib _ Hmiss).
  eexists. split; [reflexivity|].
  assert (Hr : ready (set_function_pointers (set_nvml_lib this (Some lib)) lib)
               = false).
  { unfold ready. cbn. now rewrite Hflag. }
  split; [exact Hflag|]. split; intros.
  - now apply getGPUInfo_guarded.
  - now apply getAllGPUInfo_guarded.
Qed.

Lemma C1_partial_table_unusable_witness :
  let host := Samples.posix_host (Some Samples.library_ten_of_eleven) in
  is_initialized constructor = false
  /\ located host = Some ("libnvidia-ml.so.1"%string, Samples.library_ten_of_eleven)
  /\ forallb (resolves Samples.library_ten_of_eleven) required_symbols = false
  /\ exists this',
       initialize host constructor []
       = Some ((false, this'), [] ++ [EvLoad "libnvidia-ml.so.1"])
       /\ is_initialized this' = false
       /\ (forall gpu_info trq,
             getGPUInfo this' gpu_info trq = Some ((false, gpu_info), trq))
       /\ (forall gpu_info_list trq,
             getAllGPUInfo this' gpu_info_list trq
             = Some ((false, gpu_info_list), trq)).
Proof.
  intros host.
  split; [reflexivity|]. split; [reflexivity|]. split; [reflexivity|].
  apply (C1_partial_table_unusable host constructor [] "libnvidia-ml.so.1"
           Samples.library_ten_of_eleven); reflexivity.
Defined.

(** C1 as stated fails: with ten of the eleven entry points exported,
    [initialize] returns false and the ten resolved pointers are still in
    the object, next to the open library handle. *)
Lemma C1_partial_table_retained :
  exists this',
    initialize (Samples.posix_host (Some Samples.library_ten_of_eleven))
      constructor []
    = Some ((false, this'), [EvLoad "libnvidia-ml.so.1"])
    /\ table_discarded this' = false
    /\ is_some (nvmlInit this') = true
    /\ is_some (nvmlDeviceGetHandleByIndex this') = true
    /\ is_some (nvmlSystemGetDriverVersion this') = false
    /\ is_some (nvml_lib this') = true.
Proof.
  eexists. split; [reflexivity|]. repeat split.
Qed.

End SymbolResolution.

(* ================================================================== *)
(** ** The per-device sweep (C2, C3) *)

Section Sweep.

Import Nvml NVIDIA_GPUMonitor Spec.

Lemma map_filter_flat_map {A B : Type} (f : A -> B) (p : A -> bool)
    (l : list A) :
  map f (filter p l) = flat_map (fun a => if p a then [f a] else []) l.
Proof.
  induction l as [|a l IH]; [reflexivity|].
  cbn [filter flat_map]. destruct (p a); cbn [map app]; now rewrite IH.
Qed.

(** C2.  [getAllGPUInfo] on an initialised backend returns the supplied
    list followed by what each index below the device count contributes,
    in ascending order: exactly one record when handle enumeration, name,
    memory, utilization and temperature all succeed for that index, and
    nothing otherwise.  The driver version, the power and the two clocks
    never decide emission; each falls back to its own default ("Unknown",
    0.0, 0.0) when its own fetch fails.  The same holds of every single
    iteration of the sweep. *)
Theorem C2_record_emitted_iff_core_fetches_succeed this api l tr :
  bound_to this api ->
  is_initialized this = true ->
  let core i :=
    handle_ok api i = true /\ name_ok api i = true /\ memory_ok api i = true
    /\ utilization_ok api i = true /\ temperature_ok api i = true in
  exists r tr' (emitted_for : Z -> list GPUInfo),
    getAllGPUInfo this l tr
    = Some ((r, l ++ flat_map emitted_for (indices (device_count this))), tr')
    /\ forall i,
         let d := device api i in
         (core i ->
          exists g,
            emitted_for i = [g]
            /\ g = snapshot to_megabytes api i
            /\ driver_version g
               = (if driver_ok api
                  then snd (api_nvmlSystemGetDriverVersion api 256)
                  else "Unknown"%string)
            /\ power_usage g
               = (if power_ok api i
                  then to_watts (snd (api_nvmlDeviceGetPowerUsage api d))
                  else float_zero)
            /\ clock_core g
               = (if clock_ok api i 0
                  then float_of_uint (snd (api_nvmlDeviceGetClockInfo api d 0))
                  else float_zero)
            /\ clock_memory g
               = (if clock_ok api i 1
                  then float_of_uint (snd (api_nvmlDeviceGetClockInfo api d 1))
                  else float_zero)
            /\ forall l0 tr0, exists tr1,
                 sweep_body this i l0 tr0 = Some (l0 ++ [g], tr1))
         /\ (~ core i ->
             emitted_for i = []
             /\ forall l0 tr0, exists tr1,
                  sweep_body this i l0 tr0 = Some (l0, tr1)).
Proof.
  intros Hb Hi core.
  assert (Hc : forall i, emitted api i = true <-> core i).
  { intros i. unfold emitted, core. rewrite !andb_true_iff. tauto. }
  destruct (getAllGPUInfo_produced this api l tr (fun _ => Hb)) as (tr' & E).
  exists (ready this && negb (empty (l ++ produced this api))), tr',
    (fun i => if emitted api i then [snapshot to_megabytes api i] else []).
  split.
  - rewrite E. f_equal. f_equal. f_equal. f_equal.
    rewrite <- map_filter_flat_map. unfold produced, records.
    destruct (ready this) eqn:Hr; [reflexivity|].
    unfold ready in Hr. rewrite Hi in Hr. cbn [andb] in Hr.
    apply negb_false_iff, Z.eqb_eq in Hr. rewrite Hr. reflexivity.
  - intros i d. split.
    + intros H. apply Hc in H. rewrite H.
      exists (snapshot to_megabytes api i). repeat split.
      intros l0 tr0. destruct (sweep_body_bound this api Hb i l0 tr0) as (t & Es).
      exists t. now rewrite Es, H.
    + intros H. destruct (emitted api i) eqn:He.
      * exfalso. apply H, Hc. exact He.
      * split; [reflexivity|]. intros l0 tr0.
        destruct (sweep_body_bound this api Hb i l0 tr0) as (t & Es).
        exists t. now rewrite Es, He.
Qed.

Lemma C2_record_emitted_iff_core_fetches_succeed_witness :
  let this := Samples.ready_monitor Samples.api_degraded in
  bound_to this Samples.api_degraded
  /\ is_initialized this = true
  /\ driver_ok Samples.api_degraded = false
  /\ power_ok Samples.api_degraded 0 = false
  /\ clock_ok Samples.api_degraded 0 0 = true
  /\ clock_ok Samples.api_degraded 0 1 = false
  /\ exists r tr' g,
       getAllGPUInfo this [] [] = Some ((r, [g]), tr')
       /\ name g = "GPU 0"%string
       /\ driver_version g = "Unknown"%string
       /\ power_usage g = float_zero
       /\ clock_core g = float_of_uint 1500
       /\ clock_memory g = float_zero.
Proof.
  intros this.
  assert (Hb : bound_to this Samples.api_degraded) by repeat split.
  split; [exact Hb|]. repeat (split; [reflexivity|]).
  destruct (C2_record_emitted_iff_core_fetches_succeed this
              Samples.api_degraded [] [] Hb eq_refl)
    as (r & tr' & emitted_for & E & H).
  destruct (H 0) as (Hcore & _).
  destruct Hcore as (g & Eg & Hg & Hd & Hp & Hc0 & Hc1 & _);
    [repeat split|].
  exists r, tr', g. split.
  - rewrite E. change (indices (device_count this)) with [0].
    cbn [flat_map app]. now rewrite Eg.
  - split; [now rewrite Hg|]. split; [exact Hd|]. split; [exact Hp|].
    split; [exact Hc0|exact Hc1].
Defined.

Lemma filter_emitted api (l : list Z) :
  filter (emitted api) l
  = filter (other_core_ok api) (filter (handle_ok api) l).
Proof.
  induction l as [|i l IH]; [reflexivity|].
  cbn [filter]. unfold emitted at 1.
  destruct (handle_ok api i); cbn [andb filter].
  - unfold other_core_ok at 1. rewrite <- !andb_assoc.
    destruct (name_ok api i && (memory_ok api i
              && (utilization_ok api i && temperature_ok api i)));
      now rewrite IH.
  - exact IH.
Qed.

(** C3.  For every device count and every pattern of handle-enumeration
    failures, the sweep drops exactly the indices whose handle cannot be
    enumerated and goes on with all the remaining ones in ascending index
    order (each of them is emitted when its other core fetches succeed);
    with three devices, only index 1 failing and the other fetches
    succeeding, the result is the record of index 0 followed by the record
    of index 2. *)
Theorem C3_sweep_skips_failed_handles :
  (forall this api l tr,
     bound_to this api ->
     is_initialized this = true ->
     exists r tr',
       let remaining := filter (handle_ok api) (indices (device_count this)) in
       let l' :=
         l ++ map (snapshot to_megabytes api)
                (filter (other_core_ok api) remaining) in
       getAllGPUInfo this l tr = Some ((r, l'), tr')
       /\ StronglySorted Z.lt remaining
       /\ (forall i, In i remaining
                     <-> 0 <= i < device_count this /\ handle_ok api i = true))
  /\ (forall this api tr,
        bound_to this api ->
        is_initialized this = true ->
        device_count this = 3 ->
        handle_ok api 0 = true -> handle_ok api 1 = false ->
        handle_ok api 2 = true ->
        (forall i, i = 0 \/ i = 2 -> other_core_ok api i = true) ->
        exists tr',
          getAllGPUInfo this [] tr
          = Some ((true, [snapshot to_megabytes api 0;
                          snapshot to_megabytes api 2]), tr')).
Proof.
  assert (General : forall this api l tr,
     bound_to this api ->
     is_initialized this = true ->
     exists tr',
       let remaining := filter (handle_ok api) (indices (device_count this)) in
       let l' :=
         l ++ map (snapshot to_megabytes api)
                (filter (other_core_ok api) remaining) in
       getAllGPUInfo this l tr
       = Some ((ready this && negb (empty l'), l'), tr')).
  { intros this api l tr Hb Hi.
    destruct (getAllGPUInfo_produced this api l tr (fun _ => Hb)) as (tr' & E).
    exists tr'. cbv zeta. rewrite E. rewrite <- filter_emitted.
    unfold produced, records.
    destruct (ready this) eqn:Hr; [reflexivity|].
    unfold ready in Hr. rewrite Hi in Hr. cbn [andb] in Hr.
    apply negb_false_iff, Z.eqb_eq in Hr. rewrite Hr. reflexivity. }
  split.
  - intros this api l tr Hb Hi.
    destruct (General this api l tr Hb Hi) as (tr' & E).
    eexists _, tr'. cbv zeta. split; [exact E|]. split.
    + apply StronglySorted_filter_lt, indices_ascending.
    + intros i. rewrite filter_In, indices_spec. tauto.
  - intros this api tr Hb Hi Hdc H0 H1 H2 Hrest.
    destruct (General this api [] tr Hb Hi) as (tr' & E).
    exists tr'. rewrite E. unfold ready. rewrite Hi, Hdc.
    change (indices 3) with [0; 1; 2].
    cbn [filter]. rewrite H0, H1, H2. cbn [filter].
    rewrite !Hrest by auto. reflexivity.
Qed.

Lemma C3_sweep_skips_failed_handles_witness :
  let this := Samples.ready_monitor Samples.api_three in
  bound_to this Samples.api_three
  /\ is_initialized this = true
  /\ device_count this = 3
  /\ exists tr',
       getAllGPUInfo this [] []
       = Some ((true, [snapshot to_megabytes Samples.api_three 0;
                       snapshot to_megabytes Samples.api_three 2]), tr').
Proof.
  intros this.
  split; [repeat split|]. split; [reflexivity|]. split; [reflexivity|].
  apply (proj2 C3_sweep_skips_failed_handles this Samples.api_three []);
    try reflexivity.
  repeat split.
Defined.

End Sweep.

(* ================================================================== *)
(** ** Failed initialisation and cleanup (C4, C7) *)

Section Lifecycle.

Import Nvml NVIDIA_GPUMonitor Spec.

(** On an [Uninitialized] backend [initialize] behaves as on a freshly
    constructed one: same result, same calls, same handle, flag and
    count; when a library is found the two objects end up equal. *)
Lemma initialize_uninitialized host this tr :
  Uninitialized this ->
  exists r s1 s2 tr',
    initialize host this tr = Some ((r, s1), tr')
    /\ initialize host constructor tr = Some ((r, s2), tr')
    /\ nvml_lib s1 = nvml_lib s2
    /\ is_initialized s1 = is_initialized s2
    /\ device_count s1 = device_count s2
    /\ (located host <> None -> s1 = s2).
Proof.
  intros (Hlib & Hflag & Hcount).
  destruct (located host) as [[path lib]|] eqn:Hl.
  - rewrite !(initialize_located host _ tr path lib Hl).
    assert (Hsame : start (set_nvml_lib this (Some lib)) lib
                    = start (set_nvml_lib constructor (Some lib)) lib).
    { unfold start, set_function_pointers, set_nvml_lib.
      cbn [nvml_lib is_initialized device_count].
      now rewrite Hflag, Hcount. }
    rewrite Hsame.
    destruct (start_cases (set_nvml_lib constructor (Some lib)) lib
                (tr ++ [EvLoad path])) as (r & s & calls & E & _).
    exists r, s, s, ((tr ++ [EvLoad path]) ++ calls). rewrite E.
    repeat split.
  - rewrite !(initialize_not_located host _ tr Hl).
    exists false, (set_nvml_lib this None), (set_nvml_lib constructor None), tr.
    repeat split; cbn; auto. congruence.
Qed.

(** C4, as the code has it.  A failure of [initialize] after the library
    was loaded returns false and leaves the flag as it was, but the library
    reference it opened is still open and the handle is still in the
    object.  The following [cleanup] closes it and leaves the backend
    [Uninitialized]; from there a further [initialize] is an attempt
    independent of the failed one. *)
Theorem C4_failed_initialize_released_by_cleanup host this tr this' tr' :
  initialize host this tr = Some ((false, this'), tr') ->
  nvml_lib this' <> None ->
  is_initialized this' = is_initialized this
  /\ open_handles tr' = open_handles tr + 1
  /\ exists this'' tr'',
       cleanup this' tr' = Some (this'', tr'')
       /\ Uninitialized this''
       /\ open_handles tr'' = open_handles tr
       /\ forall host2, exists r s1 s2 trn,
            initialize host2 this'' tr'' = Some ((r, s1), trn)
            /\ initialize host2 constructor tr'' = Some ((r, s2), trn)
            /\ nvml_lib s1 = nvml_lib s2
            /\ is_initialized s1 = is_initialized s2
            /\ device_count s1 = device_count s2.
Proof.
  intros E Hloaded.
  destruct (initialize_cases host this tr)
    as (r & s & t & E' & Hlib & Hopen & _ & Hflag).
  rewrite E in E'. injection E' as <- <- <-.
  assert (Hsome : is_some (located host) = true).
  { rewrite Hlib in Hloaded. destruct (located host); [reflexivity|].
    now contradiction Hloaded. }
  rewrite Hsome in Hopen.
  split; [now apply Hflag|]. split; [exact Hopen|].
  rewrite cleanup_spec. eexists _, _. split; [reflexivity|].
  split; [repeat split|]. split.
  - rewrite !open_handles_app, Hopen.
    assert (Hh : is_some (nvml_lib this') = true).
    { destruct (nvml_lib this'); [reflexivity|now contradiction Hloaded]. }
    rewrite Hh.
    destruct (is_initialized this' && is_some (nvmlShutdown this'));
      cbn; lia.
  - intros host2.
    edestruct (initialize_uninitialized host2) as (r & s1 & s2 & trn & H);
      [|exists r, s1, s2, trn; repeat split; apply H].
    repeat split.
Qed.

Lemma C4_failed_initialize_released_by_cleanup_witness :
  let host := Samples.posix_host (Some Samples.library_ten_of_eleven) in
  let this' :=
    set_function_pointers
      (set_nvml_lib constructor (Some Samples.library_ten_of_eleven))
      Samples.library_ten_of_eleven in
  initialize host constructor [] = Some ((false, this'), [EvLoad "libnvidia-ml.so.1"])
  /\ nvml_lib this' <> None
  /\ open_handles [EvLoad "libnvidia-ml.so.1"] = open_handles [] + 1
  /\ exists this'' tr'',
       cleanup this' [EvLoad "libnvidia-ml.so.1"] = Some (this'', tr'')
       /\ Uninitialized this''
       /\ open_handles tr'' = open_handles [].
Proof.
  intros host this'.
  split; [reflexivity|]. split; [discriminate|].
  destruct (C4_failed_initialize_released_by_cleanup host constructor [] this'
              [EvLoad "libnvidia-ml.so.1"] eq_refl)
    as (_ & Hopen & this'' & tr'' & Ec & Hu & Hclosed & _); [discriminate|].
  split; [exact Hopen|].
  exists this'', tr''. repeat split; try apply Hu; assumption.
Defined.

(** C4 as stated fails: after the failed attempt the library reference is
    still open and the handle still in the object, and a second attempt on
    that object opens a second reference on top of the first. *)
Lemma C4_failed_initialize_keeps_handle :
  let host := Samples.posix_host (Some Samples.library_ten_of_eleven) in
  exists this' this'',
    initialize host constructor []
    = Some ((false, this'), [EvLoad "libnvidia-ml.so.1"])
    /\ is_some (nvml_lib this') = true
    /\ open_handles [EvLoad "libnvidia-ml.so.1"] = 1
    /\ this' <> constructor
    /\ initialize host this' [EvLoad "libnvidia-ml.so.1"]
       = Some ((false, this''),
               [EvLoad "libnvidia-ml.so.1"; EvLoad "libnvidia-ml.so.1"])
    /\ open_handles [EvLoad "libnvidia-ml.so.1"; EvLoad "libnvidia-ml.so.1"]
       = 2.
Proof.
  intros host. eexists _, _.
  split; [reflexivity|]. split; [reflexivity|]. split; [reflexivity|].
  split; [discriminate|]. split; reflexivity.
Qed.

(** C7.  [cleanup] on an Nvidia backend that never initialized
    successfully returns (no fault), calls through no function pointer and
    leaves the backend [Uninitialized]; on the AMD and Intel backends it
    returns with the flag down; the manager's [cleanup] on a manager that was
    never initialised returns and changes nothing; and after any first
    [cleanup] of the manager a second one returns and leaves the same empty,
    uninitialised manager without any further effect. *)
Theorem C7_cleanup_safe_and_idempotent :
  (forall this tr,
     never_initialized this ->
     exists this' tr',
       cleanup this tr = Some (this', tr')
       /\ Uninitialized this'
       /\ filter is_call tr' = filter is_call tr)
  /\ (forall this tr,
        AMD_GPUMonitor.cleanup this tr = Some (AMD_GPUMonitor.mk false, tr))
  /\ (forall this tr,
        Intel_GPUMonitor.cleanup this tr
        = Some (Intel_GPUMonitor.mk false, tr))
  /\ (forall tr,
        GPUMonitorManager.cleanup GPUMonitorManager.constructor tr
        = Some (GPUMonitorManager.constructor, tr))
  /\ (forall this tr,
        exists this1 tr1,
          GPUMonitorManager.cleanup this tr = Some (this1, tr1)
          /\ GPUMonitorManager.gpu_monitors this1 = []
          /\ GPUMonitorManager.is_initialized this1 = false
          /\ GPUMonitorManager.cleanup this1 tr1 = Some (this1, tr1)).
Proof.
  split; [|split; [reflexivity|split; [reflexivity|split]]].
  - intros this tr Hn. apply never_initialized_flag in Hn.
    rewrite cleanup_spec. eexists _, _. split; [reflexivity|].
    split; [repeat split|].
    rewrite Hn. cbn [andb]. rewrite !calls_app.
    destruct (is_some (nvml_lib this)); cbn; now rewrite !app_nil_r.
  - reflexivity.
  - intros this tr.
    destruct (manager_cleanup_spec this tr) as (tr1 & E).
    exists GPUMonitorManager.constructor, tr1. repeat split. exact E.
Qed.

Lemma C7_cleanup_safe_and_idempotent_witness :
  let host := Samples.posix_host (Some Samples.library_ten_of_eleven) in
  let this :=
    set_function_pointers
      (set_nvml_lib constructor (Some Samples.library_ten_of_eleven))
      Samples.library_ten_of_eleven in
  never_initialized this
  /\ exists this' tr',
       cleanup this [EvLoad "libnvidia-ml.so.1"] = Some (this', tr')
       /\ Uninitialized this'
       /\ filter is_call tr' = filter is_call [EvLoad "libnvidia-ml.so.1"].
Proof.
  intros host this.
  assert (Hn : never_initialized this).
  { apply (ni_initialize host constructor this [] [EvLoad "libnvidia-ml.so.1"]);
      [exact ni_constructor|reflexivity]. }
  split; [exact Hn|].
  exact (proj1 C7_cleanup_safe_and_idempotent this
           [EvLoad "libnvidia-ml.so.1"] Hn).
Defined.

End Lifecycle.

(* ================================================================== *)
(** ** What the Nvidia query returns (C5, C8, C9) *)

Section Records.

Import Nvml NVIDIA_GPUMonitor Spec.

(** C5, as the code has it.  The call returns the supplied list followed
    by the records of the indices whose core fetches succeeded, in
    ascending index order.  It returns false only if the call produced no
    record; when the supplied list is empty it returns false exactly when
    the call produced no record, and true otherwise. *)
Theorem C5_records_in_index_order this api l tr :
  (is_initialized this = true -> bound_to this api) ->
  exists r tr',
    getAllGPUInfo this l tr = Some ((r, l ++ produced this api), tr')
    /\ (ready this = true ->
        produced this api
        = map (snapshot to_megabytes api)
            (filter (emitted api) (indices (device_count this))))
    /\ (r = false -> produced this api = [])
    /\ (l = [] -> (r = false <-> produced this api = [])).
Proof.
  intros Hb.
  destruct (getAllGPUInfo_produced this api l tr Hb) as (tr' & E).
  eexists _, tr'. split; [exact E|]. split; [|split].
  - intros Hr. unfold produced. now rewrite Hr.
  - unfold produced. destruct (ready this); [|reflexivity].
    cbn [andb]. intros H. apply negb_false_iff in H.
    destruct l; [|discriminate]. cbn in H.
    destruct (records _ _ _); [reflexivity|discriminate].
  - intros ->. cbn [app]. unfold produced.
    destruct (ready this); cbn [andb]; [|tauto].
    destruct (records _ _ _); cbn; split; congruence.
Qed.

Lemma C5_records_in_index_order_witness :
  let this := Samples.ready_monitor Samples.api_three in
  (is_initialized this = true -> bound_to this Samples.api_three)
  /\ exists r tr',
       getAllGPUInfo this [] [] = Some ((r, [] ++ produced this Samples.api_three), tr')
       /\ List.length (produced this Samples.api_three) = 2%nat
       /\ r = true.
Proof.
  intros this.
  assert (Hb : is_initialized this = true -> bound_to this Samples.api_three)
    by (intros _; repeat split).
  split; [exact Hb|].
  destruct (C5_records_in_index_order this Samples.api_three [] [] Hb)
    as (r & tr' & E & _ & Hfalse & _).
  exists r, tr'. split; [exact E|]. split; [reflexivity|].
  destruct r; [reflexivity|].
  specialize (Hfalse eq_refl). discriminate Hfalse.
Defined.

(** C5 as stated fails: an initialised backend whose only device cannot be
    enumerated produces no record, yet the call returns true when the
    supplied list already held one. *)
Lemma C5_true_with_zero_records :
  let this := Samples.ready_monitor Samples.api_lost in
  initialize (Samples.posix_host (Some (library_of Samples.api_lost)))
    constructor []
  = Some ((true, this),
          [EvLoad "libnvidia-ml.so.1"; EvCall Nvml.nvmlInit;
           EvCall Nvml.nvmlDeviceGetCount])
  /\ produced this Samples.api_lost = []
  /\ getAllGPUInfo this [Samples.earlier_record] []
     = Some ((true, [Samples.earlier_record]),
             [EvCall Nvml.nvmlDeviceGetHandleByIndex]).
Proof.
  intros this. split; [reflexivity|]. split; reflexivity.
Qed.





(** Whole watts up to 16,777 W convert without rounding. *)
Lemma whole_watts_exact : forallb whole_watt_exact (indices 16778) = true.
Proof. vm_compute. reflexivity. Qed.



End Records.

(* ================================================================== *)
(** ** The manager (C6, C10) *)

Section Manager.

Import Spec.

(** The backends a manager retains stay usable across [initialize]. *)
Lemma manager_initialize_usable host this tr r this' tr' :
  Forall usable (GPUMonitorManager.gpu_monitors this) ->
  GPUMonitorManager.initialize host this tr = Some ((r, this'), tr') ->
  Forall usable (GPUMonitorManager.gpu_monitors this').
Proof.
  intros Hu E.
  destruct (initialize_cases host NVIDIA_GPUMonitor.constructor tr)
    as (ok & nv & tr1 & E1 & _ & _ & Ht & _).
  destruct (manager_initialize_spec host this tr ok nv tr1 E1) as (t & E2 & _).
  rewrite E in E2. cbv zeta in E2. injection E2 as -> -> ->.
  cbn [GPUMonitorManager.gpu_monitors].
  apply Forall_app. split; [exact Hu|].
  destruct ok; constructor; [|constructor].
  intros _. apply (Ht eq_refl).
Qed.

(** C6, as the code has it.  [GPUMonitorManager::initialize] runs the
    Nvidia backend's [initialize] on a fresh object, appends that backend
    to the retained ones exactly when it returned true and destroys it
    (closing the library it had opened) when it returned false; the AMD and
    Intel backends always return false and are never retained.  The call
    returns true exactly when the retained sequence is not empty.  On a
    manager that held no backend before the call, it therefore returns
    what the Nvidia backend returned; when that is false, a following
    [getAllGPUInfo] returns false and appends nothing. *)
Theorem C6_manager_retains_working_backends host this tr :
  exists ok nv tr1 this' tr',
    NVIDIA_GPUMonitor.initialize host NVIDIA_GPUMonitor.constructor tr
      = Some ((ok, nv), tr1)
    /\ (forall t, AMD_GPUMonitor.initialize AMD_GPUMonitor.constructor t
                  = Some ((false, AMD_GPUMonitor.constructor), t))
    /\ (forall t, Intel_GPUMonitor.initialize Intel_GPUMonitor.constructor t
                  = Some ((false, Intel_GPUMonitor.constructor), t))
    /\ GPUMonitorManager.initialize host this tr
       = Some ((negb (empty (GPUMonitorManager.gpu_monitors this')), this'),
               tr')
    /\ GPUMonitorManager.is_initialized this'
       = negb (empty (GPUMonitorManager.gpu_monitors this'))
    /\ GPUMonitorManager.gpu_monitors this'
       = GPUMonitorManager.gpu_monitors this
         ++ (if ok then [IGPUMonitor.Nvidia nv] else [])
    /\ (ok = true -> tr' = tr1)
    /\ (ok = false ->
        NVIDIA_GPUMonitor.destructor nv tr1 = Some (tt, tr')
        /\ open_handles tr' = open_handles tr)
    /\ (GPUMonitorManager.gpu_monitors this = [] ->
        negb (empty (GPUMonitorManager.gpu_monitors this')) = ok
        /\ (ok = false ->
            forall l trq,
              GPUMonitorManager.getAllGPUInfo this' l trq
              = Some ((false, l), trq))).
Proof.
  destruct (initialize_cases host NVIDIA_GPUMonitor.constructor tr)
    as (ok & nv & tr1 & E1 & Hlib & Hopen & _ & _).
  destruct (manager_initialize_spec host this tr ok nv tr1 E1)
    as (tr' & E2 & Htr).
  cbv zeta in E2.
  exists ok, nv, tr1,
    (GPUMonitorManager.mk
       (GPUMonitorManager.gpu_monitors this
        ++ (if ok then [IGPUMonitor.Nvidia nv] else []))
       (negb (empty (GPUMonitorManager.gpu_monitors this
                     ++ (if ok then [IGPUMonitor.Nvidia nv] else []))))),
    tr'.
  cbn [GPUMonitorManager.gpu_monitors GPUMonitorManager.is_initialized].
  split; [exact E1|]. split; [reflexivity|]. split; [reflexivity|].
  split; [exact E2|]. split; [reflexivity|]. split; [reflexivity|].
  split; [|split].
  - intros ->. exact Htr.
  - intros ->. split; [exact Htr|].
    destruct (destructor_spec nv tr1) as (calls & Ed & Hc & _).
    rewrite Ed in Htr. injection Htr as <-.
    rewrite open_handles_app, Hc, Hopen, Hlib.
    destruct (located host); cbn; lia.
  - cbn [GPUMonitorManager.gpu_monitors]. intros ->. cbn [app].
    split; [now destruct ok|].
    intros -> l trq. now apply manager_getAllGPUInfo_guarded.
Qed.

Lemma C6_manager_retains_working_backends_witness :
  let host := Samples.posix_host None in
  GPUMonitorManager.gpu_monitors GPUMonitorManager.constructor = []
  /\ exists this',
       GPUMonitorManager.initialize host GPUMonitorManager.constructor []
       = Some ((false, this'), [])
       /\ forall l trq,
            GPUMonitorManager.getAllGPUInfo this' l trq = Some ((false, l), trq).
Proof.
  intros host. split; [reflexivity|].
  destruct (C6_manager_retains_working_backends host
              GPUMonitorManager.constructor [])
    as (ok & nv & tr1 & this' & tr' & E1 & _ & _ & E2 & _ & _ & _ & _ & H).
  destruct (H eq_refl) as (_ & Hq).
  assert (Eok : ok = false).
  { assert (C : NVIDIA_GPUMonitor.initialize host
                  NVIDIA_GPUMonitor.constructor []
                = Some ((false, NVIDIA_GPUMonitor.constructor), []))
      by reflexivity.
    rewrite C in E1. now injection E1. }
  exists this'. split; [|exact (Hq Eok)].
  assert (C : GPUMonitorManager.initialize host
                GPUMonitorManager.constructor []
              = Some ((false, GPUMonitorManager.constructor), []))
    by reflexivity.
  rewrite C in E2 |- *. now injection E2 as _ <- _.
Defined.

(** C6 as stated fails on a manager that already holds a backend: with
    no driver on the machine no backend initialises, yet the call returns
    true and the following [getAllGPUInfo] returns the records of the
    backend retained earlier. *)
Lemma C6_true_with_zero_working_backends :
  let held :=
    GPUMonitorManager.mk
      [IGPUMonitor.Nvidia (Samples.ready_monitor Samples.api_two)] true in
  let tr1 := [EvLoad "libnvidia-ml.so.1"; EvCall Nvml.nvmlInit;
              EvCall Nvml.nvmlDeviceGetCount] in
  GPUMonitorManager.initialize
    (Samples.posix_host (Some (library_of Samples.api_two)))
    GPUMonitorManager.constructor []
  = Some ((true, held), tr1)
  /\ NVIDIA_GPUMonitor.initialize (Samples.posix_host None)
       NVIDIA_GPUMonitor.constructor tr1
     = Some ((false, NVIDIA_GPUMonitor.constructor), tr1)
  /\ GPUMonitorManager.initialize (Samples.posix_host None) held tr1
     = Some ((true, held), tr1)
  /\ exists g0 g1 tr',
       GPUMonitorManager.getAllGPUInfo held [] tr1 = Some ((true, [g0; g1]), tr').
Proof.
  intros held tr1. split; [reflexivity|]. split; [reflexivity|].
  split; [reflexivity|]. eexists _, _, _. reflexivity.
Qed.

(** C10, as the code has it.  Both calls keep the supplied records in
    place and put the new ones behind them.  Past the guard (the backend is
    initialised and counts a device; the manager is initialised) the
    boolean is the non-emptiness of the final list, hence true for every
    pre-populated list even when no record was added; before the guard the
    call returns false and leaves the list as it was, whatever it holds. *)
Theorem C10_lists_appended_result_from_final_list :
  (forall this api l tr,
     (NVIDIA_GPUMonitor.is_initialized this = true -> bound_to this api) ->
     exists r new tr',
       NVIDIA_GPUMonitor.getAllGPUInfo this l tr = Some ((r, l ++ new), tr')
       /\ (ready this = true -> r = negb (empty (l ++ new)))
       /\ (ready this = true -> l <> [] -> r = true)
       /\ (ready this = false -> r = false /\ new = [] /\ tr' = tr))
  /\ (forall this l tr,
        Forall usable (GPUMonitorManager.gpu_monitors this) ->
        exists r new tr',
          GPUMonitorManager.getAllGPUInfo this l tr = Some ((r, l ++ new), tr')
          /\ (GPUMonitorManager.is_initialized this = true ->
              r = negb (empty (l ++ new)))
          /\ (GPUMonitorManager.is_initialized this = true -> l <> [] ->
              r = true)
          /\ (GPUMonitorManager.is_initialized this = false ->
              r = false /\ new = [] /\ tr' = tr)).
Proof.
  split.
  - intros this api l tr Hb.
    destruct (ready this) eqn:Hr.
    + destruct (getAllGPUInfo_produced this api l tr Hb) as (tr' & E).
      rewrite Hr in E. cbn [andb] in E.
      eexists _, _, tr'. split; [exact E|].
      split; [reflexivity|]. split; [|discriminate].
      intros _ Hl. destruct l; [now contradiction Hl|reflexivity].
    + exists false, [], tr. rewrite app_nil_r.
      split; [now apply getAllGPUInfo_guarded|].
      repeat split; discriminate.
  - intros this l tr Hu.
    destruct (GPUMonitorManager.is_initialized this) eqn:Hi.
    + destruct (for_each_collect _ Hu l tr) as (new & tr' & E).
      unfold GPUMonitorManager.getAllGPUInfo, bind. rewrite Hi. cbn [negb].
      rewrite E. unfold ret.
      eexists _, new, tr'. split; [reflexivity|].
      split; [reflexivity|]. split; [|discriminate].
      intros _ Hl. destruct l; [now contradiction Hl|reflexivity].
    + exists false, [], tr. rewrite app_nil_r.
      split; [now apply manager_getAllGPUInfo_guarded|].
      repeat split; discriminate.
Qed.

Lemma C10_lists_appended_result_from_final_list_witness :
  let this := Samples.ready_monitor Samples.api_lost in
  let manager := GPUMonitorManager.mk [IGPUMonitor.Nvidia this] true in
  Forall usable (GPUMonitorManager.gpu_monitors manager)
  /\ GPUMonitorManager.is_initialized manager = true
  /\ [Samples.earlier_record] <> []
  /\ exists new tr',
       GPUMonitorManager.getAllGPUInfo manager [Samples.earlier_record] []
       = Some ((true, [Samples.earlier_record] ++ new), tr')
       /\ new = [].
Proof.
  intros this manager.
  assert (Hu : Forall usable (GPUMonitorManager.gpu_monitors manager)).
  { repeat constructor. intros _. exists Samples.api_lost. repeat split. }
  split; [exact Hu|]. split; [reflexivity|]. split; [discriminate|].
  destruct (proj2 C10_lists_appended_result_from_final_list manager
              [Samples.earlier_record] [] Hu)
    as (r & new & tr' & E & _ & Htrue & _).
  rewrite (Htrue eq_refl ltac:(discriminate)) in E.
  exists new, tr'. split; [exact E|].
  assert (C : GPUMonitorManager.getAllGPUInfo manager [Samples.earlier_record] []
              = Some ((true, [Samples.earlier_record]),
                      [EvCall Nvml.nvmlDeviceGetHandleByIndex]))
    by reflexivity.
  rewrite C in E. injection E as E _.
  destruct new; [reflexivity|discriminate E].
Defined.

(** C10 as stated fails: on a backend or a manager that is not
    initialised the call returns false although the final list is not
    empty. *)
Lemma C10_false_with_nonempty_final_list :
  NVIDIA_GPUMonitor.getAllGPUInfo NVIDIA_GPUMonitor.constructor
    [Samples.earlier_record] []
  = Some ((false, [Samples.earlier_record]), [])
  /\ GPUMonitorManager.getAllGPUInfo GPUMonitorManager.constructor
       [Samples.earlier_record] []
     = Some ((false, [Samples.earlier_record]), [])
  /\ negb (empty [Samples.earlier_record]) = true.
Proof. repeat split. Qed.

End Manager.

(* ================================================================== *)
(** ** The model at work on concrete machines *)

Section Examples.

Import Spec.

(** A Linux machine with a driver that counts three devices. *)
Example initialize_three :
  NVIDIA_GPUMonitor.initialize
    (Samples.posix_host (Some (library_of Samples.api_three)))
    NVIDIA_GPUMonitor.constructor []
  = Some ((true, Samples.ready_monitor Samples.api_three),
          [EvLoad "libnvidia-ml.so.1"; EvCall Nvml.nvmlInit;
           EvCall Nvml.nvmlDeviceGetCount]).
Proof. reflexivity. Qed.

(** A vendor-init failure: nothing is shut down or closed by
    [initialize]; the following [cleanup] closes the library. *)
Example initialize_init_fails :
  let host := Samples.posix_host (Some (library_of Samples.api_init_fails)) in
  match NVIDIA_GPUMonitor.initialize host NVIDIA_GPUMonitor.constructor [] with
  | Some ((ok, this), tr) =>
      ok = false
      /\ tr = [EvLoad "libnvidia-ml.so.1"; EvCall Nvml.nvmlInit]
      /\ option_map snd (NVIDIA_GPUMonitor.cleanup this tr)
         = Some [EvLoad "libnvidia-ml.so.1"; EvCall Nvml.nvmlInit; EvFree]
  | None => False
  end.
Proof. cbv zeta. vm_compute. repeat split. Qed.

(** A device-count failure: [initialize] shuts the vendor library down
    itself and leaves the closing to [cleanup]. *)
Example initialize_count_fails :
  let host := Samples.posix_host (Some (library_of Samples.api_count_fails)) in
  match NVIDIA_GPUMonitor.initialize host NVIDIA_GPUMonitor.constructor [] with
  | Some ((ok, this), tr) =>
      ok = false
      /\ tr = [EvLoad "libnvidia-ml.so.1"; EvCall Nvml.nvmlInit;
               EvCall Nvml.nvmlDeviceGetCount; EvCall Nvml.nvmlShutdown]
      /\ option_map snd (NVIDIA_GPUMonitor.cleanup this tr)
         = Some [EvLoad "libnvidia-ml.so.1"; EvCall Nvml.nvmlInit;
                 EvCall Nvml.nvmlDeviceGetCount; EvCall Nvml.nvmlShutdown;
                 EvFree]
  | None => False
  end.
Proof. cbv zeta. vm_compute. repeat split. Qed.

(** On Windows the fallback path is tried after the default name. *)
Example initialize_fallback_path :
  located (Samples.win32_host (Some (library_of Samples.api_three)))
  = Some ("C:\Windows\System32\nvidia-ml.dll"%string,
          library_of Samples.api_three).
Proof. reflexivity. Qed.

(** Index 1 is skipped: the records are those of "GPU 0" and "GPU 2". *)
Example sweep_three_names :
  option_map (fun out => (fst (fst out), map name (snd (fst out))))
    (NVIDIA_GPUMonitor.getAllGPUInfo
       (Samples.ready_monitor Samples.api_three) [] [])
  = Some (true, ["GPU 0"%string; "GPU 2"%string]).
Proof. reflexivity. Qed.

(** One working backend with two devices: the manager initialises, returns
    two records, and its [cleanup] shuts the library down and closes it. *)
Example manager_two_devices :
  let host :=
    Samples.posix_host
      (Some (library_of (Samples.api 2 (fun _ => 0) Samples.GiB 125000))) in
  match GPUMonitorManager.initialize host GPUMonitorManager.constructor [] with
  | Some ((ok, manager), tr) =>
      ok = true
      /\ match GPUMonitorManager.getAllGPUInfo manager [] tr with
         | Some ((found, records), tr') =>
             found = true
             /\ map name records = ["GPU 0"%string; "GPU 1"%string]
             /\ map memory_total records = [1024; 1024]
             /\ match GPUMonitorManager.cleanup manager tr' with
                | Some (manager', tr'') =>
                    manager' = GPUMonitorManager.constructor
                    /\ open_handles tr'' = 0
                    /\ last tr'' EvFree = EvFree
                | None => False
                end
         | None => False
         end
  | None => False
  end.
Proof. cbv zeta. vm_compute. repeat split. Qed.

End Examples.

(* ================================================================== *)
(** ** Complete tables *)

Section Tables.

Import Nvml NVIDIA_GPUMonitor Spec Expect.

Lemma api_of_library_of api : api_of (library_of api) = Some api.
Proof. destruct api. reflexivity. Qed.

Lemma api_of_some lib api : api_of lib = Some api -> lib = library_of api.
Proof.
  destruct lib as [[a|] [b|] [c|] [d|] [e|] [f|] [g|] [h|] [i|] [j|] [k|]];
    cbn; try discriminate.
  intros H. injection H as <-. reflexivity.
Qed.

Lemma api_of_none this lib :
  api_of lib = None <-> some_pointer_null (set_function_pointers this lib) = true.
Proof.
  destruct lib as [[a|] [b|] [c|] [d|] [e|] [f|] [g|] [h|] [i|] [j|] [k|]];
    cbn; split; intros H; try reflexivity; discriminate.
Qed.

Lemma table_bound this api : table this = Some api <-> bound_to this api.
Proof.
  unfold table, bound_to.
  destruct this as [lib [a|] [b|] [c|] [d|] [e|] [f|] [g|] [h|] [i|] [j|] [k|] ini dc];
    cbn; split; intros H; try discriminate;
    try (repeat match goal with H : _ /\ _ |- _ => destruct H end; discriminate).
  - injection H as <-. repeat split.
  - destruct H as (H1 & H2 & H3 & H4 & H5 & H6 & H7 & H8 & H9 & H10 & H11).
    injection H1 as ->. injection H2 as ->. injection H3 as ->.
    injection H4 as ->. injection H5 as ->. injection H6 as ->.
    injection H7 as ->. injection H8 as ->. injection H9 as ->.
    injection H10 as ->. injection H11 as ->. destruct api; reflexivity.
Qed.

End Tables.

(* ================================================================== *)
(** ** The library calls of the queries *)

Section Calls.

Import Nvml NVIDIA_GPUMonitor Spec Expect.

(** The calls one run of the query statements makes. *)
Lemma query_device_calls this api :
  bound_to this api ->
  forall i g tr, exists r,
    query_device this i g tr = Some (r, tr ++ device_calls api i).
Proof.
  intros (Hi & Hs & Hc & Hh & Hn & Hm & Hu & Ht & Hp & Hk & Hd) i g tr.
  unfold query_device.
  rewrite Hh, Hn, Hm, Hu, Ht, Hp, Hk, Hd.
  unfold device_calls, handle_ok, name_ok, memory_ok, utilization_ok,
    temperature_ok, device, succeeded, BUFFER_SIZE.
  run.
  destruct (api_nvmlDeviceGetHandleByIndex api i) as [rc0 d]; cbn [fst snd].
  destruct (rc0 =? 0); cbn [negb]; [|eexists; reflexivity].
  destruct (api_nvmlDeviceGetName api d 256) as [rc1 nm]; cbn [fst snd].
  destruct (rc1 =? 0); cbn [negb];
    [|eexists; rewrite <- !app_assoc; reflexivity].
  destruct (api_nvmlSystemGetDriverVersion api 256) as [rc2 ver].
  destruct (api_nvmlDeviceGetMemoryInfo api d) as [rc3 mem]; cbn [fst snd].
  destruct (rc3 =? 0); cbn [negb];
    [|eexists; rewrite <- !app_assoc; reflexivity].
  destruct (api_nvmlDeviceGetUtilizationRates api d) as [rc4 ut];
    cbn [fst snd].
  destruct (rc4 =? 0); cbn [negb];
    [|eexists; rewrite <- !app_assoc; reflexivity].
  destruct (api_nvmlDeviceGetTemperature api d 0) as [rc5 te]; cbn [fst snd].
  destruct (rc5 =? 0); cbn [negb];
    [|eexists; rewrite <- !app_assoc; reflexivity].
  destruct (api_nvmlDeviceGetPowerUsage api d) as [rc6 pw].
  destruct (api_nvmlDeviceGetClockInfo api d 0) as [rc7 c0].
  destruct (api_nvmlDeviceGetClockInfo api d 1) as [rc8 c1].
  eexists. rewrite <- !app_assoc. reflexivity.
Qed.

Lemma sweep_body_calls this api :
  bound_to this api ->
  forall i l tr,
    sweep_body this i l tr
    = Some ((if emitted api i then l ++ [snapshot to_megabytes api i] else l),
            tr ++ device_calls api i).
Proof.
  intros Hb i l tr.
  destruct (sweep_body_bound this api Hb i l tr) as (tr' & E).
  rewrite E. f_equal. f_equal.
  unfold sweep_body, bind in E.
  destruct (query_device_calls this api Hb i GPUInfo_declared tr) as (r & Eq).
  rewrite Eq in E. destruct r as [reached g].
  destruct reached; unfold ret in E; now injection E.
Qed.

Lemma for_loop_calls this api :
  bound_to this api ->
  forall n i l tr,
    for_loop n i (sweep_body this) l tr
    = Some (l ++ map (snapshot to_megabytes api)
                   (filter (emitted api) (indices_from n i)),
            tr ++ flat_map (device_calls api) (indices_from n i)).
Proof.
  intros Hb n. induction n as [|n IH]; intros i l tr.
  - cbn. now rewrite !app_nil_r.
  - cbn [for_loop indices_from filter flat_map]. unfold bind.
    rewrite (sweep_body_calls this api Hb). rewrite IH.
    rewrite <- !app_assoc. f_equal. f_equal.
    destruct (emitted api i); [|reflexivity].
    cbn [map]. now rewrite <- app_assoc.
Qed.

(** [getAllGPUInfo] of the Nvidia backend in one equation, log included. *)
Lemma getAllGPUInfo_exact this api l tr :
  (is_initialized this = true -> bound_to this api) ->
  getAllGPUInfo this l tr
  = Some ((ready this && negb (empty (l ++ produced this api)),
           l ++ produced this api), tr ++ sweep_calls this api).
Proof.
  intros Hb. unfold produced, sweep_calls. destruct (ready this) eqn:Hr.
  - assert (Hi : is_initialized this = true).
    { unfold ready in Hr. now apply andb_true_iff in Hr. }
    unfold getAllGPUInfo. unfold ready in Hr.
    apply andb_true_iff in Hr. destruct Hr as [-> Hr].
    apply negb_true_iff in Hr. rewrite Hr. cbn [negb orb andb]. unfold bind.
    unfold indices, records, indices.
    rewrite (for_loop_calls this api (Hb Hi)). reflexivity.
  - rewrite !app_nil_r. now apply getAllGPUInfo_guarded.
Qed.

Lemma device_calls_are_calls api i :
  filter is_call (device_calls api i) = device_calls api i
  /\ open_handles (device_calls api i) = 0
  /\ filter is_handle_call (device_calls api i)
     = [EvCall Nvml.nvmlDeviceGetHandleByIndex]
  /\ (1 <= List.length (device_calls api i) <= 9)%nat.
Proof.
  unfold device_calls.
  destruct (handle_ok api i), (name_ok api i), (memory_ok api i),
    (utilization_ok api i), (temperature_ok api i); cbn; repeat split; lia.
Qed.

Lemma open_handles_flat_map {A} (f : A -> Log) (l : list A) :
  (forall a, open_handles (f a) = 0) -> open_handles (flat_map f l) = 0.
Proof.
  intros H. induction l as [|a l IH]; [reflexivity|].
  cbn [flat_map]. rewrite open_handles_app, H, IH. reflexivity.
Qed.

Lemma sweep_calls_open this api : open_handles (sweep_calls this api) = 0.
Proof.
  unfold sweep_calls. destruct (ready this); [|reflexivity].
  apply open_handles_flat_map. intros i. apply device_calls_are_calls.
Qed.

End Calls.

(* ================================================================== *)
(** ** Bringing the Nvidia backend up and down (X1-X4) *)

Section NvidiaInitialize.

Import Nvml NVIDIA_GPUMonitor Spec Expect.

Lemma library_of_inj a b : library_of a = library_of b -> a = b.
Proof.
  intros H. apply (f_equal api_of) in H.
  rewrite !api_of_library_of in H. now injection H.
Qed.

(** [initialize] in one equation when the machine offers a working
    driver, and its failure otherwise. *)
Lemma initialize_available host this tr :
  match available (device_count this) host with
  | Some (path, lib, api, count) =>
      located host = Some (path, lib)
      /\ lib = library_of api
      /\ initialize host this tr
         = Some ((true, initialized this lib count),
                 tr ++ [EvLoad path; EvCall Nvml.nvmlInit;
                        EvCall Nvml.nvmlDeviceGetCount])
  | None =>
      exists this' tr', initialize host this tr = Some ((false, this'), tr')
  end.
Proof.
  unfold available.
  destruct (located host) as [[path lib]|] eqn:Hl.
  - rewrite (initialize_located host this tr path lib Hl).
    destruct (api_of lib) as [api|] eqn:Ha.
    + apply api_of_some in Ha. subst lib. rewrite start_resolved. cbv zeta.
      cbn [device_count set_nvml_lib].
      destruct (api_nvmlInit api tt =? 0); cbn [negb];
        [|eexists _, _; reflexivity].
      destruct (api_nvmlDeviceGetCount api (device_count this)) as [rc count].
      destruct (rc =? 0); cbn [negb]; [|eexists _, _; reflexivity].
      split; [reflexivity|]. split; [reflexivity|].
      rewrite <- app_assoc. reflexivity.
    + apply (api_of_none (set_nvml_lib this (Some lib))) in Ha.
      unfold start. rewrite Ha. eexists _, _. reflexivity.
  - rewrite (initialize_not_located host this tr Hl). eexists _, _. reflexivity.
Qed.

(** The conditions of a successful [initialize], spelled out. *)
Lemma available_iff old host path lib api count :
  available old host = Some (path, lib, api, count)
  <-> located host = Some (path, lib) /\ lib = library_of api
      /\ api_nvmlInit api tt = 0
      /\ api_nvmlDeviceGetCount api old = (0, count).
Proof.
  unfold available. split.
  - destruct (located host) as [[p l]|]; [|discriminate].
    destruct (api_of l) as [a|] eqn:Ha; [|discriminate].
    apply api_of_some in Ha.
    destruct (api_nvmlInit a tt =? 0) eqn:Hi; [|discriminate].
    destruct (api_nvmlDeviceGetCount a old) as [rc c] eqn:Hc.
    destruct (rc =? 0) eqn:Hrc; [|discriminate].
    intros H. injection H as <- <- <- <-.
    apply Z.eqb_eq in Hi, Hrc. subst rc. auto.
  - intros (-> & -> & Hi & Hc).
    rewrite api_of_library_of, Hi, Hc. reflexivity.
Qed.

Lemma initialize_success host this tr this' tr' :
  initialize host this tr = Some ((true, this'), tr') ->
  exists path api,
    located host = Some (path, library_of api)
    /\ api_nvmlInit api tt = 0
    /\ fst (api_nvmlDeviceGetCount api (device_count this)) = 0
    /\ this' = initialized this (library_of api)
                 (snd (api_nvmlDeviceGetCount api (device_count this)))
    /\ tr' = tr ++ [EvLoad path; EvCall Nvml.nvmlInit;
                    EvCall Nvml.nvmlDeviceGetCount].
Proof.
  intros E. pose proof (initialize_available host this tr) as H.
  destruct (available (device_count this) host) as [[[[path lib] api] count]|]
    eqn:Ha.
  - apply available_iff in Ha. destruct Ha as (Hl & -> & Hi & Hc).
    destruct H as (_ & _ & E'). rewrite E in E'. injection E' as -> ->.
    exists path, api. rewrite Hc. auto.
  - destruct H as (s & t & E'). rewrite E in E'. discriminate.
Qed.

(** X1.  [initialize] returns true exactly when a candidate library loads,
    exports the eleven entry points, and [nvmlInit] and
    [nvmlDeviceGetCount] both answer 0.  The backend is then flagged, holds
    the handle and the complete table of that library and the count the
    library stored, and the log gained the load and those two calls, in
    that order. *)
Theorem X1_initialize_succeeds_iff host this tr :
  ((exists this' tr', initialize host this tr = Some ((true, this'), tr'))
   <-> (exists path api,
          located host = Some (path, library_of api)
          /\ api_nvmlInit api tt = 0
          /\ fst (api_nvmlDeviceGetCount api (device_count this)) = 0))
  /\ (forall this' tr',
        initialize host this tr = Some ((true, this'), tr') ->
        exists path api,
          located host = Some (path, library_of api)
          /\ nvml_lib this' = Some (library_of api)
          /\ bound_to this' api
          /\ is_initialized this' = true
          /\ device_count this'
             = snd (api_nvmlDeviceGetCount api (device_count this))
          /\ tr' = tr ++ [EvLoad path; EvCall Nvml.nvmlInit;
                          EvCall Nvml.nvmlDeviceGetCount]).
Proof.
  split; [split|].
  - intros (this' & tr' & E).
    destruct (initialize_success host this tr this' tr' E)
      as (path & api & Hl & Hi & Hc & _).
    now exists path, api.
  - intros (path & api & Hl & Hi & Hc).
    pose proof (initialize_available host this tr) as H.
    assert (Ha : available (device_count this) host
                 = Some (path, library_of api, api,
                         snd (api_nvmlDeviceGetCount api (device_count this)))).
    { apply available_iff. repeat split; auto.
      destruct (api_nvmlDeviceGetCount api (device_count this)) as [rc c].
      cbn in *. now subst rc. }
    rewrite Ha in H. destruct H as (_ & _ & E). eexists _, _. exact E.
  - intros this' tr' E.
    destruct (initialize_success host this tr this' tr' E)
      as (path & api & Hl & _ & _ & -> & ->).
    exists path, api. repeat split. exact Hl.
Qed.

(** What [start] adds to the log is calls only. *)
Lemma start_only_calls this lib tr :
  exists r this' calls,
    start this lib tr = Some ((r, this'), tr ++ calls)
    /\ filter is_load calls = [] /\ filter is_free calls = [].
Proof.
  destruct (some_pointer_null (set_function_pointers this lib)) eqn:Hn.
  - exists false, (set_function_pointers this lib), [].
    rewrite app_nil_r. unfold start. rewrite Hn. repeat split.
  - destruct (all_resolved_library this lib Hn) as [api ->].
    rewrite start_resolved. cbv zeta.
    destruct (negb (api_nvmlInit api tt =? 0)).
    + eexists false, _, _. repeat split.
    + destruct (api_nvmlDeviceGetCount api (device_count this)) as [rc count].
      destruct (negb (rc =? 0)); eexists _, _, _; repeat split.
Qed.

(** X2.  The loader tries [nvidia-ml.dll] and then the System32 path on
    Windows, and [libnvidia-ml.so.1] alone elsewhere.  After [initialize]
    the handle member is the first candidate that loaded, the log gained
    one load event, for that path, and none when nothing loaded; nothing was
    closed.  When no candidate loads the call returns false and leaves the
    log as it was; of the object it changes the handle member only, which
    it sets to null (a handle held before is dropped, not closed). *)
Theorem X2_loader_candidate_order host this tr :
  let candidate :=
    match platform host with
    | Win32 =>
        match load host "nvidia-ml.dll" with
        | Some lib => Some ("nvidia-ml.dll"%string, lib)
        | None =>
            match load host "C:\Windows\System32\nvidia-ml.dll" with
            | Some lib => Some ("C:\Windows\System32\nvidia-ml.dll"%string, lib)
            | None => None
            end
        end
    | Posix =>
        match load host "libnvidia-ml.so.1" with
        | Some lib => Some ("libnvidia-ml.so.1"%string, lib)
        | None => None
        end
    end in
  exists r this' tr',
    initialize host this tr = Some ((r, this'), tr')
    /\ nvml_lib this' = option_map snd candidate
    /\ filter is_load tr'
       = filter is_load tr
         ++ match candidate with
            | Some (path, _) => [EvLoad path]
            | None => []
            end
    /\ filter is_free tr' = filter is_free tr
    /\ (candidate = None ->
        r = false /\ tr' = tr /\ this' = set_nvml_lib this None).
Proof.
  intros candidate.
  assert (Hc : candidate = located host) by reflexivity.
  rewrite Hc. clear Hc candidate.
  destruct (located host) as [[path lib]|] eqn:Hl.
  - rewrite (initialize_located host this tr path lib Hl).
    destruct (start_only_calls (set_nvml_lib this (Some lib)) lib
                (tr ++ [EvLoad path])) as (r & this' & calls & E & Hld & Hfr).
    destruct (start_cases (set_nvml_lib this (Some lib)) lib
                (tr ++ [EvLoad path])) as (r2 & s2 & c2 & E2 & Hlib & _).
    rewrite E in E2. injection E2 as <- <- _.
    exists r, this', ((tr ++ [EvLoad path]) ++ calls).
    split; [exact E|]. split; [exact Hlib|].
    rewrite !filter_app, Hld, Hfr, !app_nil_r. cbn.
    rewrite ?app_nil_r. repeat split. all: discriminate.
  - rewrite (initialize_not_located host this tr Hl).
    exists false, (set_nvml_lib this None), tr.
    rewrite app_nil_r. repeat split.
Qed.

(** X3.  After a successful [initialize], whatever was logged since,
    [cleanup] calls [nvmlShutdown] once and then closes the library once,
    in that order, and leaves the backend [Uninitialized]; the library
    reference the [initialize] opened is closed again. *)
Theorem X3_initialize_then_cleanup host this tr this' tr1 :
  initialize host this tr = Some ((true, this'), tr1) ->
  forall tr2, exists this'',
    cleanup this' tr2
    = Some (this'', tr2 ++ [EvCall Nvml.nvmlShutdown; EvFree])
    /\ Uninitialized this''
    /\ open_handles (tr1 ++ [EvCall Nvml.nvmlShutdown; EvFree])
       = open_handles tr.
Proof.
  intros E tr2.
  destruct (initialize_success host this tr this' tr1 E)
    as (path & api & _ & _ & _ & -> & ->).
  rewrite cleanup_spec. eexists. split; [reflexivity|].
  split; [repeat split|].
  rewrite !open_handles_app. cbn. lia.
Qed.

(** X4.  In every state of the backend, a second [cleanup], or the
    destructor after a [cleanup], changes nothing and has no effect: the
    library is not closed twice and [nvmlShutdown] is not called twice. *)
Theorem X4_cleanup_twice this tr :
  exists this' tr',
    cleanup this tr = Some (this', tr')
    /\ cleanup this' tr' = Some (this', tr')
    /\ destructor this' tr' = Some (tt, tr').
Proof.
  rewrite cleanup_spec. eexists _, _. split; [reflexivity|].
  unfold destructor, bind. rewrite cleanup_spec. cbn.
  rewrite !app_nil_r. split; reflexivity.
Qed.

End NvidiaInitialize.

(* ================================================================== *)
(** ** The Nvidia queries (X5-X8) *)

Section NvidiaQueries.

Import Nvml NVIDIA_GPUMonitor Spec Expect.

Lemma indices_head dc :
  0 < dc -> exists rest, indices dc = 0 :: rest.
Proof.
  intros H. unfold indices.
  destruct (Z.to_nat dc) as [|n] eqn:E; [lia|].
  cbn. eexists. reflexivity.
Qed.

(** X5.  On an initialised backend with at least one device,
    [getGPUInfo] makes the calls of one sweep iteration at index 0 and
    returns true exactly when the core fetches of index 0 succeed; the
    record it fills is then the specified record of index 0, whatever the
    caller's record held, and it is the first record [getAllGPUInfo]
    returns on an empty list. *)
Theorem X5_getGPUInfo_is_first_record this api gpu_info tr :
  bound_to this api ->
  is_initialized this = true ->
  0 < device_count this ->
  exists gpu_info',
    getGPUInfo this gpu_info tr
    = Some ((emitted api 0, gpu_info'), tr ++ device_calls api 0)
    /\ (emitted api 0 = true ->
        gpu_info' = snapshot to_megabytes api 0
        /\ exists rest tr',
             getAllGPUInfo this [] tr = Some ((true, gpu_info' :: rest), tr')).
Proof.
  intros Hb Hi Hdc.
  assert (Hr : ready this = true).
  { unfold ready. rewrite Hi. cbn. apply negb_true_iff, Z.eqb_neq. lia. }
  unfold getGPUInfo. unfold ready in Hr. apply andb_true_iff in Hr.
  destruct Hr as [_ Hr]. apply negb_true_iff in Hr. rewrite Hi, Hr.
  cbn [negb orb].
  destruct (query_device_bound this api Hb 0 gpu_info tr) as (g' & tr' & E & F).
  destruct (query_device_calls this api Hb 0 gpu_info tr) as (r & Ec).
  rewrite E in Ec. injection Ec as <- ->.
  exists g'. split; [exact E|].
  intros He. split; [exact (F He)|].
  rewrite (F He).
  rewrite (getAllGPUInfo_exact this api [] tr (fun _ => Hb)).
  unfold produced, ready. rewrite Hi, Hr. cbn [negb andb app].
  unfold records. destruct (indices_head _ Hdc) as (rest & ->).
  cbn [filter]. rewrite He. cbn [map empty negb].
  eexists _, _. reflexivity.
Qed.

(** X6.  What a [getGPUInfo] that returns false leaves in the caller's
    record.  Temperature, power and the clocks are never touched.  The
    record is untouched when the backend is not ready or when the handle or
    the name cannot be fetched.  Once the name was fetched, name, vendor
    and driver version are overwritten even if the call then fails on the
    memory fetch, which leaves the memory members and the utilization as
    they were. *)
Theorem X6_getGPUInfo_failure_writes this api gpu_info tr :
  (is_initialized this = true -> bound_to this api) ->
  exists r gpu_info' tr',
    getGPUInfo this gpu_info tr = Some ((r, gpu_info'), tr')
    /\ (r = false ->
        temperature gpu_info' = temperature gpu_info
        /\ power_usage gpu_info' = power_usage gpu_info
        /\ clock_core gpu_info' = clock_core gpu_info
        /\ clock_memory gpu_info' = clock_memory gpu_info)
    /\ (ready this = false \/ handle_ok api 0 = false \/ name_ok api 0 = false ->
        r = false /\ gpu_info' = gpu_info)
    /\ (ready this = true -> handle_ok api 0 = true -> name_ok api 0 = true ->
        name gpu_info' = snd (api_nvmlDeviceGetName api (device api 0) 256)
        /\ vendor gpu_info' = "NVIDIA"%string
        /\ driver_version gpu_info'
           = (if driver_ok api
              then snd (api_nvmlSystemGetDriverVersion api 256)
              else "Unknown"%string)
        /\ (memory_ok api 0 = false ->
            r = false
            /\ memory_total gpu_info' = memory_total gpu_info
            /\ memory_used gpu_info' = memory_used gpu_info
            /\ memory_free gpu_info' = memory_free gpu_info
            /\ utilization gpu_info' = utilization gpu_info)).
Proof.
  intros Hb. destruct (ready this) eqn:Hr.
  - assert (Hi : is_initialized this = true).
    { unfold ready in Hr. now apply andb_true_iff in Hr. }
    unfold getGPUInfo. unfold ready in Hr. apply andb_true_iff in Hr.
    destruct Hr as [_ Hr]. apply negb_true_iff in Hr. rewrite Hi, Hr.
    cbn [negb orb].
    destruct (Hb Hi) as (_ & _ & _ & Hh & Hn & Hm & Hu & Ht & Hp & Hk & Hd).
    unfold query_device.
    rewrite Hh, Hn, Hm, Hu, Ht, Hp, Hk, Hd.
    unfold handle_ok, name_ok, memory_ok, driver_ok, device, succeeded,
      BUFFER_SIZE.
    run.
    destruct (api_nvmlDeviceGetHandleByIndex api 0) as [rc0 d]; cbn [fst snd].
    destruct (rc0 =? 0); cbn [negb].
    2:{ eexists _, _, _. split; [reflexivity|].
        repeat split; intros; try discriminate; auto. }
    destruct (api_nvmlDeviceGetName api d 256) as [rc1 nm]; cbn [fst snd].
    destruct (rc1 =? 0); cbn [negb].
    2:{ eexists _, _, _. split; [reflexivity|].
        repeat split; intros; try discriminate; auto. }
    destruct (api_nvmlSystemGetDriverVersion api 256) as [rc2 ver];
      cbn [fst snd].
    destruct (api_nvmlDeviceGetMemoryInfo api d) as [rc3 mem]; cbn [fst snd].
    destruct (rc3 =? 0); cbn [negb].
    2:{ eexists _, _, _. split; [reflexivity|].
        split; [|split].
        - intros _. destruct (rc2 =? 0); repeat split.
        - intros [H|[H|H]]; discriminate.
        - intros _ _ _. destruct (rc2 =? 0); repeat split. }
    destruct (api_nvmlDeviceGetUtilizationRates api d) as [rc4 ut].
    destruct (rc4 =? 0); cbn [negb].
    2:{ eexists _, _, _. split; [reflexivity|].
        split; [|split].
        - intros _. destruct (rc2 =? 0); repeat split.
        - intros [H|[H|H]]; discriminate.
        - intros _ _ _. destruct (rc2 =? 0); repeat split; discriminate. }
    destruct (api_nvmlDeviceGetTemperature api d 0) as [rc5 te].
    destruct (rc5 =? 0); cbn [negb].
    2:{ eexists _, _, _. split; [reflexivity|].
        split; [|split].
        - intros _. destruct (rc2 =? 0); repeat split.
        - intros [H|[H|H]]; discriminate.
        - intros _ _ _. destruct (rc2 =? 0); repeat split; discriminate. }
    destruct (api_nvmlDeviceGetPowerUsage api d) as [rc6 pw].
    destruct (api_nvmlDeviceGetClockInfo api d 0) as [rc7 c0].
    destruct (api_nvmlDeviceGetClockInfo api d 1) as [rc8 c1].
    eexists _, _, _. split; [reflexivity|].
    split; [discriminate|]. split.
    + intros [H|[H|H]]; discriminate.
    + intros _ _ _.
      destruct (rc2 =? 0), (rc6 =? 0), (rc7 =? 0), (rc8 =? 0);
        repeat split; discriminate.
  - rewrite getGPUInfo_guarded by exact Hr.
    eexists _, _, _. split; [reflexivity|].
    repeat split; intros; try discriminate; auto.
Qed.

Lemma flat_map_length_le {A B} (f : A -> list B) (l : list A) (k : nat) :
  (forall a, List.length (f a) <= k)%nat ->
  (List.length (flat_map f l) <= k * List.length l)%nat.
Proof.
  intros H. induction l as [|a l IH]; cbn [flat_map List.length]; [lia|].
  rewrite length_app. specialize (H a). lia.
Qed.

Lemma indices_from_length n i : List.length (indices_from n i) = n.
Proof.
  revert i. induction n as [|n IH]; intros i; cbn; [reflexivity|].
  now rewrite IH.
Qed.

Lemma handle_calls_flat_map api (l : list Z) :
  List.length (filter is_handle_call (flat_map (device_calls api) l))
  = List.length l.
Proof.
  induction l as [|i l IH]; [reflexivity|].
  cbn [flat_map]. rewrite filter_app, length_app, IH.
  destruct (device_calls_are_calls api i) as (_ & _ & -> & _). reflexivity.
Qed.

Lemma calls_flat_map api (l : list Z) :
  filter is_call (flat_map (device_calls api) l)
  = flat_map (device_calls api) l.
Proof.
  induction l as [|i l IH]; [reflexivity|].
  cbn [flat_map]. rewrite filter_app, IH.
  destruct (device_calls_are_calls api i) as (-> & _). reflexivity.
Qed.

Lemma device_calls_shape api i :
  exists rest,
    device_calls api i = EvCall Nvml.nvmlDeviceGetHandleByIndex :: rest
    /\ filter is_handle_call rest = []
    /\ (List.length rest <= 8)%nat
    /\ Forall (fun e => is_call e = true) rest
    /\ (handle_ok api i = false -> rest = [])
    /\ (emitted api i = true ->
        rest = [EvCall Nvml.nvmlDeviceGetName;
                EvCall Nvml.nvmlSystemGetDriverVersion;
                EvCall Nvml.nvmlDeviceGetMemoryInfo;
                EvCall Nvml.nvmlDeviceGetUtilizationRates;
                EvCall Nvml.nvmlDeviceGetTemperature;
                EvCall Nvml.nvmlDeviceGetPowerUsage;
                EvCall Nvml.nvmlDeviceGetClockInfo;
                EvCall Nvml.nvmlDeviceGetClockInfo]).
Proof.
  unfold device_calls, emitted.
  destruct (handle_ok api i), (name_ok api i), (memory_ok api i),
    (utilization_ok api i), (temperature_ok api i);
    eexists; (split; [reflexivity|]); cbn;
    repeat split; try lia; try discriminate; repeat constructor.
Qed.

(** X7.  The library calls of one [getAllGPUInfo] on an initialised
    backend are, for the indices below the device count in ascending
    order, one run of calls per index, decided by what the library answers
    for that index: first the one handle enumeration of the index, then
    nothing more when it fails, at most eight further calls otherwise, and
    the eight other fetches when the record is emitted.  A failure ends the
    run of its index only; the next index follows.  So there are as many
    handle enumerations as devices, at most nine calls per device, and
    nothing but library calls. *)
Theorem X7_sweep_tries_every_index_once this api l tr :
  bound_to this api ->
  ready this = true ->
  let calls := flat_map (device_calls api) (indices (device_count this)) in
  exists r out,
    getAllGPUInfo this l tr = Some ((r, out), tr ++ calls)
    /\ (forall i, exists rest,
          device_calls api i = EvCall Nvml.nvmlDeviceGetHandleByIndex :: rest
          /\ filter is_handle_call rest = []
          /\ (List.length rest <= 8)%nat
          /\ Forall (fun e => is_call e = true) rest
          /\ (handle_ok api i = false -> rest = [])
          /\ (emitted api i = true ->
              rest = [EvCall Nvml.nvmlDeviceGetName;
                      EvCall Nvml.nvmlSystemGetDriverVersion;
                      EvCall Nvml.nvmlDeviceGetMemoryInfo;
                      EvCall Nvml.nvmlDeviceGetUtilizationRates;
                      EvCall Nvml.nvmlDeviceGetTemperature;
                      EvCall Nvml.nvmlDeviceGetPowerUsage;
                      EvCall Nvml.nvmlDeviceGetClockInfo;
                      EvCall Nvml.nvmlDeviceGetClockInfo]))
    /\ List.length (filter is_handle_call calls)
       = Z.to_nat (device_count this)
    /\ (List.length calls <= 9 * Z.to_nat (device_count this))%nat
    /\ filter is_call calls = calls.
Proof.
  intros Hb Hr calls.
  rewrite (getAllGPUInfo_exact this api l tr (fun _ => Hb)).
  eexists _, _. split.
  { unfold sweep_calls. rewrite Hr. reflexivity. }
  split; [intros i; apply device_calls_shape|].
  unfold calls, indices.
  split; [|split].
  - now rewrite handle_calls_flat_map, indices_from_length.
  - rewrite <- (indices_from_length (Z.to_nat (device_count this)) 0) at 2.
    apply flat_map_length_le. intros i. apply device_calls_are_calls.
  - apply calls_flat_map.
Qed.

Lemma filter_length_le {A} (f : A -> bool) (l : list A) :
  (List.length (filter f l) <= List.length l)%nat.
Proof.
  induction l as [|a l IH]; cbn; [lia|]. destruct (f a); cbn; lia.
Qed.

(** X8.  [getAllGPUInfo] adds at most [device_count] records behind the
    supplied ones; every added record has the vendor "NVIDIA" and memory
    members within the range of [unsigned int]. *)
Theorem X8_records_well_formed this api l tr :
  (is_initialized this = true -> bound_to this api) ->
  exists r new tr',
    getAllGPUInfo this l tr = Some ((r, l ++ new), tr')
    /\ (List.length new <= Z.to_nat (device_count this))%nat
    /\ Forall
         (fun g =>
            vendor g = "NVIDIA"%string
            /\ 0 <= memory_total g < 2 ^ 32
            /\ 0 <= memory_used g < 2 ^ 32
            /\ 0 <= memory_free g < 2 ^ 32)
         new.
Proof.
  intros Hb. rewrite (getAllGPUInfo_exact this api l tr Hb).
  eexists _, _, _. split; [reflexivity|].
  unfold produced. destruct (ready this); [|split; [cbn; lia|constructor]].
  unfold records. split.
  - rewrite length_map.
    etransitivity; [apply filter_length_le|].
    unfold indices. now rewrite indices_from_length.
  - apply Forall_forall. intros g Hin. apply in_map_iff in Hin.
    destruct Hin as (i & <- & _).
    cbn [vendor memory_total memory_used memory_free snapshot].
    unfold to_megabytes, to_unsigned_int, UINT_MODULUS.
    repeat split; try apply Z.mod_pos_bound; reflexivity.
Qed.

End NvidiaQueries.

(* ================================================================== *)
(** ** The manager, log included (X9-X12) *)

Section ManagerExact.

Import Nvml Spec Expect.

Lemma working_usable monitor : working monitor -> usable monitor.
Proof.
  destruct monitor as [m|m|m]; cbn; [|tauto|tauto].
  intros (_ & H & _) _. exact H.
Qed.

Lemma Forall_working_usable monitors :
  Forall working monitors -> Forall usable monitors.
Proof. apply Forall_impl, working_usable. Qed.

(** One backend's contribution to the manager's sweep, log included. *)
Lemma collect_exact monitor l tr :
  usable monitor ->
  GPUMonitorManager.collect monitor l tr
  = Some (l ++ monitor_records monitor, tr ++ monitor_calls monitor).
Proof.
  intros Hu. unfold GPUMonitorManager.collect, bind.
  destruct monitor as [m|m|m];
    cbn [IGPUMonitor.getAllGPUInfo monitor_records monitor_calls].
  2:{ rewrite !app_nil_r. reflexivity. }
  2:{ rewrite !app_nil_r. reflexivity. }
  cbn in Hu.
  destruct (NVIDIA_GPUMonitor.is_initialized m) eqn:Hi.
  - destruct (Hu eq_refl) as [api Hb].
    rewrite (proj2 (table_bound m api) Hb).
    rewrite (getAllGPUInfo_exact m api [] tr (fun _ => Hb)). cbn [app].
    destruct (ready m && negb (empty (produced m api))) eqn:Hf;
      [reflexivity|].
    unfold ret. f_equal. f_equal.
    apply andb_false_iff in Hf. destruct Hf as [Hf|Hf].
    + unfold produced. now rewrite Hf, app_nil_r.
    + apply negb_false_iff in Hf.
      destruct (produced m api); [now rewrite app_nil_r|discriminate].
  - assert (Hr : ready m = false) by (unfold ready; now rewrite Hi).
    rewrite getAllGPUInfo_guarded by exact Hr. unfold ret.
    unfold produced, sweep_calls. rewrite Hr.
    destruct (table m); now rewrite !app_nil_r.
Qed.

Lemma for_each_collect_exact monitors :
  Forall usable monitors ->
  forall l tr,
    for_each monitors GPUMonitorManager.collect l tr
    = Some (l ++ flat_map monitor_records monitors,
            tr ++ flat_map monitor_calls monitors).
Proof.
  induction 1 as [|monitor monitors Hu _ IH]; intros l tr.
  - cbn. now rewrite !app_nil_r.
  - cbn [for_each flat_map]. unfold bind.
    rewrite (collect_exact monitor l tr Hu), IH.
    now rewrite <- !app_assoc.
Qed.

Lemma manager_getAllGPUInfo_exact this l tr :
  Forall usable (GPUMonitorManager.gpu_monitors this) ->
  GPUMonitorManager.is_initialized this = true ->
  GPUMonitorManager.getAllGPUInfo this l tr
  = (let out :=
       l ++ flat_map monitor_records (GPUMonitorManager.gpu_monitors this) in
     Some ((negb (empty out), out),
           tr ++ flat_map monitor_calls (GPUMonitorManager.gpu_monitors this))).
Proof.
  intros Hu Hi. unfold GPUMonitorManager.getAllGPUInfo, bind.
  rewrite Hi. cbn [negb]. now rewrite (for_each_collect_exact _ Hu).
Qed.

Lemma monitor_calls_open monitor : open_handles (monitor_calls monitor) = 0.
Proof.
  destruct monitor as [m|m|m]; cbn; [|reflexivity..].
  destruct (table m); [apply sweep_calls_open|reflexivity].
Qed.

(** [cleanup] then [delete] of one backend, log included. *)
Lemma release_exact monitor tr :
  GPUMonitorManager.release monitor tt tr
  = Some (tt, tr ++ release_events monitor).
Proof.
  unfold GPUMonitorManager.release, release_events, bind.
  destruct monitor as [m|m|m];
    cbn [IGPUMonitor.cleanup IGPUMonitor.delete shuts_down holds_library].
  - unfold bind. rewrite cleanup_spec. unfold ret. cbv beta iota.
    cbn [IGPUMonitor.delete].
    unfold NVIDIA_GPUMonitor.destructor, bind. rewrite cleanup_spec.
    cbn. now rewrite !app_nil_r.
  - cbn. now rewrite app_nil_r.
  - cbn. now rewrite app_nil_r.
Qed.

Lemma for_each_release_exact monitors tr :
  for_each monitors GPUMonitorManager.release tt tr
  = Some (tt, tr ++ flat_map release_events monitors).
Proof.
  revert tr. induction monitors as [|monitor monitors IH]; intros tr.
  - cbn. now rewrite app_nil_r.
  - cbn [for_each flat_map]. unfold bind.
    rewrite release_exact, IH. now rewrite <- app_assoc.
Qed.

Lemma manager_cleanup_exact this tr :
  GPUMonitorManager.cleanup this tr
  = Some (GPUMonitorManager.constructor,
          tr ++ flat_map release_events (GPUMonitorManager.gpu_monitors this)).
Proof.
  unfold GPUMonitorManager.cleanup, bind.
  now rewrite for_each_release_exact.
Qed.

(** A backend [initialize] just brought up is in working order. *)
Lemma initialized_working this lib api count :
  lib = library_of api ->
  working (IGPUMonitor.Nvidia (initialized this lib count)).
Proof.
  intros ->. cbn. split; [reflexivity|]. split; [|discriminate].
  exists api. repeat split.
Qed.

(** The manager's [initialize] on a machine with a working driver, and on
    a machine without. *)
Lemma manager_initialize_available host this tr :
  match available 0 host with
  | Some (path, lib, api, count) =>
      lib = library_of api
      /\ GPUMonitorManager.initialize host this tr
         = Some ((true,
                  GPUMonitorManager.mk
                    (GPUMonitorManager.gpu_monitors this
                     ++ [IGPUMonitor.Nvidia
                           (initialized NVIDIA_GPUMonitor.constructor lib
                              count)])
                    true),
                 tr ++ [EvLoad path; EvCall Nvml.nvmlInit;
                        EvCall Nvml.nvmlDeviceGetCount])
  | None =>
      exists tr',
        GPUMonitorManager.initialize host this tr
        = Some ((negb (empty (GPUMonitorManager.gpu_monitors this)),
                 GPUMonitorManager.mk (GPUMonitorManager.gpu_monitors this)
                   (negb (empty (GPUMonitorManager.gpu_monitors this)))),
                tr')
        /\ open_handles tr' = open_handles tr
  end.
Proof.
  pose proof (initialize_available host NVIDIA_GPUMonitor.constructor tr) as H.
  change (NVIDIA_GPUMonitor.device_count NVIDIA_GPUMonitor.constructor)
    with 0 in H.
  destruct (available 0 host) as [[[[path lib] api] count]|].
  - destruct H as (_ & Hlib & E). split; [exact Hlib|].
    destruct (manager_initialize_spec host this tr _ _ _ E) as (tr' & E2 & ->).
    rewrite E2. cbv zeta. f_equal. f_equal.
    assert (Hne : forall A (l : list A) (a : A), negb (empty (l ++ [a])) = true)
      by (intros A l a; now destruct l).
    now rewrite Hne.
  - destruct H as (nv & tr1 & E).
    destruct (manager_initialize_spec host this tr _ _ _ E) as (tr' & E2 & Ed).
    exists tr'. cbv zeta in E2. rewrite app_nil_r in E2.
    split; [exact E2|].
    destruct (initialize_cases host NVIDIA_GPUMonitor.constructor tr)
      as (r & s & t & E' & Hlib & Hopen & _).
    rewrite E in E'. injection E' as <- <- <-.
    destruct (destructor_spec nv tr1) as (calls & Ed' & Hc & _).
    rewrite Ed in Ed'. injection Ed' as ->.
    rewrite open_handles_app, Hc, Hopen, Hlib.
    destruct (located host); cbn; lia.
Qed.

(** What holds of every manager a program can get to. *)
Lemma reachable_invariant this :
  reachable this ->
  GPUMonitorManager.is_initialized this
  = negb (empty (GPUMonitorManager.gpu_monitors this))
  /\ Forall working (GPUMonitorManager.gpu_monitors this).
Proof.
  induction 1 as [|host this tr ok this' tr' _ IH E|this tr this' tr' _ IH E].
  - split; [reflexivity|constructor].
  - destruct IH as (_ & IH).
    pose proof (manager_initialize_available host this tr) as H.
    destruct (available 0 host) as [[[[path lib] api] count]|].
    + destruct H as (Hlib & E'). rewrite E in E'. injection E' as _ -> _.
      cbn. split; [now destruct (GPUMonitorManager.gpu_monitors this)|].
      apply Forall_app. split; [exact IH|].
      constructor; [|constructor]. now apply (initialized_working _ lib api).
    + destruct H as (t & E' & _). rewrite E in E'. injection E' as _ -> _.
      cbn. split; [reflexivity|exact IH].
  - rewrite manager_cleanup_exact in E. injection E as <- _.
    split; [reflexivity|constructor].
Qed.

Lemma Forall_flat_map_calls {A : Type} (f : A -> Log) (l : list A) :
  (forall a, Forall (fun e => is_call e = true) (f a)) ->
  Forall (fun e => is_call e = true) (flat_map f l).
Proof.
  intros H. induction l as [|a l IH]; [constructor|].
  cbn [flat_map]. apply Forall_app. split; [apply H|exact IH].
Qed.

Lemma device_calls_only_calls api i :
  Forall (fun e => is_call e = true) (device_calls api i).
Proof.
  unfold device_calls.
  destruct (handle_ok api i), (name_ok api i), (memory_ok api i),
    (utilization_ok api i), (temperature_ok api i); repeat constructor.
Qed.

Lemma monitor_calls_only_calls monitor :
  Forall (fun e => is_call e = true) (monitor_calls monitor).
Proof.
  destruct monitor as [m|m|m]; cbn; [|constructor..].
  destruct (table m) as [api|]; [|constructor].
  unfold sweep_calls. destruct (ready m); [|constructor].
  apply Forall_flat_map_calls, device_calls_only_calls.
Qed.

(** A log of calls holds no load and no close. *)
Lemma only_calls_no_load_no_free (calls : Log) :
  Forall (fun e => is_call e = true) calls ->
  filter is_load calls = [] /\ filter is_free calls = [].
Proof.
  induction 1 as [|e calls He _ (IH1 & IH2)]; [split; reflexivity|].
  destruct e; try discriminate He. cbn [filter is_load is_free].
  split; assumption.
Qed.

(** X9.  In every manager a program can get to, the flag says whether a
    backend is retained, every backend [getGPUMonitors] returns is an
    Nvidia backend in working order (its vendor name is "NVIDIA"), and
    [getAllGPUInfo] returns without a call through a null pointer, keeps
    the supplied records in front, adds only records of vendor "NVIDIA",
    and does nothing to the outside but call library entry points: its
    log holds no load and no close. *)
Theorem X9_reachable_manager_is_safe this :
  reachable this ->
  GPUMonitorManager.is_initialized this
  = negb (empty (GPUMonitorManager.getGPUMonitors this))
  /\ Forall working (GPUMonitorManager.getGPUMonitors this)
  /\ Forall (fun monitor => IGPUMonitor.getVendorName monitor = "NVIDIA"%string)
       (GPUMonitorManager.getGPUMonitors this)
  /\ forall l tr, exists r new calls,
       GPUMonitorManager.getAllGPUInfo this l tr
       = Some ((r, l ++ new), tr ++ calls)
       /\ open_handles calls = 0
       /\ Forall (fun e => is_call e = true) calls
       /\ filter is_load calls = []
       /\ filter is_free calls = []
       /\ Forall (fun g => vendor g = "NVIDIA"%string) new.
Proof.
  intros Hr. destruct (reachable_invariant this Hr) as (Hi & Hw).
  unfold GPUMonitorManager.getGPUMonitors.
  split; [exact Hi|]. split; [exact Hw|]. split.
  - eapply Forall_impl; [|exact Hw].
    intros [m|m|m]; cbn; tauto.
  - intros l tr.
    destruct (GPUMonitorManager.is_initialized this) eqn:Hini.
    + rewrite (manager_getAllGPUInfo_exact this l tr
                 (Forall_working_usable _ Hw) Hini).
      cbv zeta. eexists _, _, _. split; [reflexivity|].
      assert (Hcalls : Forall (fun e => is_call e = true)
                         (flat_map monitor_calls
                            (GPUMonitorManager.gpu_monitors this)))
        by apply Forall_flat_map_calls, monitor_calls_only_calls.
      split; [apply open_handles_flat_map, monitor_calls_open|].
      split; [exact Hcalls|].
      split; [apply (only_calls_no_load_no_free _ Hcalls)|].
      split; [apply (only_calls_no_load_no_free _ Hcalls)|].
      apply Forall_forall. intros g Hin. apply in_flat_map in Hin.
      destruct Hin as (monitor & _ & Hin).
      destruct monitor as [m|m|m]; cbn in Hin; try contradiction.
      destruct (table m) as [api|]; [|contradiction].
      unfold produced in Hin. destruct (ready m); [|contradiction].
      unfold records in Hin. apply in_map_iff in Hin.
      destruct Hin as (i & <- & _). reflexivity.
    + rewrite manager_getAllGPUInfo_guarded by exact Hini.
      exists false, [], []. rewrite !app_nil_r.
      split; [reflexivity|]. repeat split; constructor.
Qed.

(** X10.  On an initialised manager [getAllGPUInfo] returns the supplied
    list followed by the records of each retained backend, in the order
    the backends were retained, and is true exactly when that list is not
    empty; an Nvidia backend contributes the records of its own sweep, an
    AMD or Intel backend nothing. *)
Theorem X10_manager_concatenates_backends this l tr :
  Forall usable (GPUMonitorManager.gpu_monitors this) ->
  GPUMonitorManager.is_initialized this = true ->
  (exists tr',
     let out :=
       l ++ flat_map monitor_records (GPUMonitorManager.gpu_monitors this) in
     GPUMonitorManager.getAllGPUInfo this l tr
     = Some ((negb (empty out), out), tr'))
  /\ (forall m api,
        bound_to m api ->
        monitor_records (IGPUMonitor.Nvidia m) = produced m api)
  /\ (forall m, monitor_records (IGPUMonitor.AMD m) = [])
  /\ (forall m, monitor_records (IGPUMonitor.Intel m) = []).
Proof.
  intros Hu Hi. split; [|split; [|split; reflexivity]].
  - eexists. apply (manager_getAllGPUInfo_exact this l tr Hu Hi).
  - intros m api Hb. cbn. now rewrite (proj2 (table_bound m api) Hb).
Qed.

(** X11.  On a machine with a working driver, a second
    [GPUMonitorManager::initialize] without a [cleanup] in between also
    returns true and retains a second Nvidia backend on a second library
    reference: [getAllGPUInfo] then returns every record twice.  [cleanup]
    closes both references. *)
Theorem X11_initialize_twice_duplicates host path lib api count tr :
  available 0 host = Some (path, lib, api, count) ->
  let nv := initialized NVIDIA_GPUMonitor.constructor lib count in
  let twice :=
    GPUMonitorManager.mk [IGPUMonitor.Nvidia nv; IGPUMonitor.Nvidia nv] true in
  exists once tr1 tr2,
    GPUMonitorManager.initialize host GPUMonitorManager.constructor tr
    = Some ((true, once), tr1)
    /\ GPUMonitorManager.initialize host once tr1 = Some ((true, twice), tr2)
    /\ open_handles tr2 = open_handles tr + 2
    /\ (forall l trq, exists trq',
          let out := l ++ produced nv api ++ produced nv api in
          GPUMonitorManager.getAllGPUInfo twice l trq
          = Some ((negb (empty out), out), trq'))
    /\ (exists tr3,
          GPUMonitorManager.cleanup twice tr2
          = Some (GPUMonitorManager.constructor, tr3)
          /\ open_handles tr3 = open_handles tr).
Proof.
  intros Ha nv twice.
  pose proof (manager_initialize_available host
                GPUMonitorManager.constructor tr) as H1.
  rewrite Ha in H1. destruct H1 as (Hlib & E1).
  cbn [GPUMonitorManager.gpu_monitors GPUMonitorManager.constructor app] in E1.
  pose proof (manager_initialize_available host
                (GPUMonitorManager.mk [IGPUMonitor.Nvidia nv] true)
                (tr ++ [EvLoad path; EvCall Nvml.nvmlInit;
                        EvCall Nvml.nvmlDeviceGetCount])) as H2.
  rewrite Ha in H2. destruct H2 as (_ & E2).
  cbn [GPUMonitorManager.gpu_monitors app] in E2.
  eexists _, _, _. split; [exact E1|]. split; [exact E2|].
  split; [rewrite !open_handles_app; cbn; lia|]. split.
  - intros l trq. eexists.
    assert (Hw : Forall usable (GPUMonitorManager.gpu_monitors twice)).
    { apply Forall_working_usable.
      repeat constructor; try discriminate; exists api; subst lib;
        repeat split. }
    rewrite (manager_getAllGPUInfo_exact twice l trq Hw eq_refl).
    cbv zeta. cbn [GPUMonitorManager.gpu_monitors twice flat_map].
    assert (Hb : bound_to nv api) by (subst lib; repeat split).
    cbn [monitor_records]. rewrite (proj2 (table_bound nv api) Hb).
    rewrite app_nil_r. reflexivity.
  - rewrite manager_cleanup_exact. eexists. split; [reflexivity|].
    subst lib. rewrite !open_handles_app. cbn. lia.
Qed.

Lemma release_events_counts monitors :
  List.length (filter is_free (flat_map release_events monitors))
  = List.length (filter holds_library monitors)
  /\ List.length (filter is_shutdown_call (flat_map release_events monitors))
     = List.length (filter shuts_down monitors)
  /\ filter is_load (flat_map release_events monitors) = [].
Proof.
  induction monitors as [|monitor monitors (IH1 & IH2 & IH3)];
    [repeat split|].
  cbn [flat_map filter]. rewrite !filter_app, !length_app, IH1, IH2, IH3.
  unfold release_events.
  destruct (shuts_down monitor), (holds_library monitor); cbn;
    repeat split; lia.
Qed.

(** X12.  [GPUMonitorManager::cleanup], which runs [cleanup] and then the
    destructor on every backend, empties the manager in every state.  Its
    log is, for the retained backends in order, one run per backend, read
    off that backend's members: a call of [nvmlShutdown] when the flag is up
    and the [nvmlShutdown] pointer is set, then one close when the handle
    is not null, and nothing more (the destructor's second [cleanup] adds
    nothing).  A backend in working order gets exactly one [nvmlShutdown]
    followed by one close; an AMD or Intel backend nothing.  Nothing is
    loaded. *)
Theorem X12_manager_cleanup_releases_each_once this tr :
  let events :=
    flat_map release_events (GPUMonitorManager.gpu_monitors this) in
  GPUMonitorManager.cleanup this tr
  = Some (GPUMonitorManager.constructor, tr ++ events)
  /\ (forall m,
        release_events (IGPUMonitor.Nvidia m)
        = (if NVIDIA_GPUMonitor.is_initialized m
              && is_some (NVIDIA_GPUMonitor.nvmlShutdown m)
           then [EvCall Nvml.nvmlShutdown] else [])
          ++ (if is_some (NVIDIA_GPUMonitor.nvml_lib m) then [EvFree] else []))
  /\ (forall m, release_events (IGPUMonitor.AMD m) = [])
  /\ (forall m, release_events (IGPUMonitor.Intel m) = [])
  /\ (forall monitor,
        working monitor ->
        release_events monitor = [EvCall Nvml.nvmlShutdown; EvFree])
  /\ List.length (filter is_free events)
     = List.length
         (filter holds_library (GPUMonitorManager.gpu_monitors this))
  /\ List.length (filter is_shutdown_call events)
     = List.length (filter shuts_down (GPUMonitorManager.gpu_monitors this))
  /\ filter is_load events = [].
Proof.
  intros events. split; [apply manager_cleanup_exact|].
  split; [reflexivity|]. split; [reflexivity|]. split; [reflexivity|].
  split; [|apply release_events_counts].
  intros [m|m|m] Hw; cbn in Hw; try contradiction.
  destruct Hw as (Hi & (api & Hb) & Hlib).
  unfold release_events. cbn [shuts_down holds_library].
  destruct Hb as (_ & Hs & _). rewrite Hi, Hs.
  destruct (NVIDIA_GPUMonitor.nvml_lib m); [reflexivity|contradiction].
Qed.

End ManagerExact.

(* ================================================================== *)
(** ** The console displays (X13, X14) *)

Section Displays.

Import Nvml Spec Expect.

(** A loop of appending blocks writes the blocks one after the other. *)
Lemma fold_left_print (print : list Out -> GPUInfo -> list Out) :
  (forall cout g, print cout g = cout ++ print [] g) ->
  forall records cout,
    fold_left print records cout = cout ++ flat_map (print []) records.
Proof.
  intros Hp records. induction records as [|g records IH]; intros cout.
  - cbn. now rewrite app_nil_r.
  - cbn [fold_left flat_map]. rewrite IH, (Hp cout g).
    now rewrite <- app_assoc.
Qed.

(** Both displays, for any loop body that appends a block. *)
Lemma display_shown (print : list Out -> GPUInfo -> list Out) :
  (forall cout g, print cout g = cout ++ print [] g) ->
  forall host cout tr, exists tr',
    ConsoleUI.display print host cout tr = Some (cout ++ shown print host, tr')
    /\ open_handles tr' = open_handles tr.
Proof.
  intros Hp host cout tr. unfold ConsoleUI.display, shown.
  pose proof (manager_initialize_available host
                GPUMonitorManager.constructor tr) as H.
  destruct (available 0 host) as [[[[path lib] api] count]|].
  - destruct H as (Hlib & E). subst lib.
    cbn [GPUMonitorManager.gpu_monitors GPUMonitorManager.constructor app] in E.
    unfold bind at 1. rewrite E. cbv beta iota.
    set (nv := initialized NVIDIA_GPUMonitor.constructor (library_of api) count).
    set (manager := GPUMonitorManager.mk [IGPUMonitor.Nvidia nv] true).
    assert (Hb : bound_to nv api) by repeat split.
    assert (Hu : Forall usable (GPUMonitorManager.gpu_monitors manager)).
    { repeat constructor. intros _. now exists api. }
    unfold bind.
    rewrite (manager_getAllGPUInfo_exact manager [] _ Hu eq_refl).
    cbv zeta. cbn [GPUMonitorManager.gpu_monitors manager flat_map app].
    cbn [monitor_records monitor_calls].
    rewrite (proj2 (table_bound nv api) Hb). rewrite !app_nil_r.
    rewrite manager_cleanup_exact. unfold ret. cbv beta iota.
    cbn [GPUMonitorManager.gpu_monitors manager flat_map].
    unfold GPUMonitorManager.destructor, bind.
    rewrite manager_cleanup_exact. unfold ret.
    cbn [GPUMonitorManager.gpu_monitors GPUMonitorManager.constructor flat_map].
    eexists. split.
    + f_equal. f_equal.
      assert (Hprod : produced nv api
                      = if count =? 0 then []
                        else records NVIDIA_GPUMonitor.to_megabytes api count).
      { unfold produced, ready. cbn. now destruct (count =? 0). }
      rewrite Hprod.
      destruct (if count =? 0 then []
                else records NVIDIA_GPUMonitor.to_megabytes api count)
        as [|g rest]; cbn [empty negb]; [reflexivity|].
      apply (fold_left_print print Hp).
    + rewrite !open_handles_app, sweep_calls_open. cbn. lia.
  - destruct H as (tr' & E & Hopen).
    cbn [GPUMonitorManager.gpu_monitors GPUMonitorManager.constructor
         empty negb] in E.
    unfold bind at 1. rewrite E. cbv beta iota.
    unfold bind, ret. unfold GPUMonitorManager.destructor, bind.
    rewrite manager_cleanup_exact. unfold ret.
    cbn [GPUMonitorManager.gpu_monitors flat_map].
    eexists. split; [reflexivity|].
    now rewrite app_nil_r.
Qed.

(** X13.  On every machine [displayGPUInfo] returns, leaves no library
    open, and writes behind what [std::cout] already held: the message of a
    failed initialisation when the machine offers no working driver, the
    message of an empty result when the driver gives no record, and
    otherwise one block per record, in device order. *)
Theorem X13_displayGPUInfo host cout tr :
  exists tr',
    ConsoleUI.displayGPUInfo host cout tr
    = Some (cout ++ shown ConsoleUI.print_gpu_info host, tr')
    /\ open_handles tr' = open_handles tr.
Proof.
  apply display_shown. intros c g. reflexivity.
Qed.

(** X14.  The same for [displayAdvancedGPUInfo], with its own block per
    record. *)
Theorem X14_displayAdvancedGPUInfo host cout tr :
  exists tr',
    ConsoleUI.displayAdvancedGPUInfo host cout tr
    = Some (cout ++ shown ConsoleUI.print_advanced_gpu_info host, tr')
    /\ open_handles tr' = open_handles tr.
Proof.
  apply display_shown. intros c g. reflexivity.
Qed.

End Displays.

(* ================================================================== *)
(** ** Runs of a manager (X15) *)

Section ManagerRuns.

Import Nvml Spec Expect.

Lemma release_events_working monitors :
  Forall working monitors ->
  open_handles (flat_map release_events monitors)
  = - Z.of_nat (List.length monitors).
Proof.
  induction 1 as [|monitor monitors Hw _ IH]; [reflexivity|].
  cbn [flat_map List.length]. rewrite open_handles_app, IH.
  destruct monitor as [m|m|m]; cbn in Hw; try contradiction.
  destruct Hw as (Hi & (api & Hb) & Hlib).
  unfold release_events. cbn [shuts_down holds_library].
  destruct Hb as (_ & Hs & _). rewrite Hi, Hs.
  destruct (NVIDIA_GPUMonitor.nvml_lib m); [|contradiction].
  cbn [andb is_some app]. rewrite Nat2Z.inj_succ.
  change (open_handles [EvCall Nvml.nvmlShutdown; EvFree]) with (-1). lia.
Qed.

Lemma manager_run_invariant tr0 this tr :
  manager_run tr0 this tr ->
  Forall working (GPUMonitorManager.gpu_monitors this)
  /\ GPUMonitorManager.is_initialized this
     = negb (empty (GPUMonitorManager.gpu_monitors this))
  /\ open_handles tr
     = open_handles tr0
       + Z.of_nat (List.length (GPUMonitorManager.gpu_monitors this)).
Proof.
  induction 1 as [|host this tr ok this' tr' _ (Hw & Hi & Ho) E
                  |this tr l r out tr' _ (Hw & Hi & Ho) E
                  |this tr this' tr' _ (Hw & Hi & Ho) E].
  - cbn [GPUMonitorManager.gpu_monitors GPUMonitorManager.constructor
         GPUMonitorManager.is_initialized List.length].
    repeat split; [constructor|cbn; lia].
  - pose proof (manager_initialize_available host this tr) as H.
    destruct (available 0 host) as [[[[path lib] api] count]|].
    + destruct H as (Hlib & E'). rewrite E in E'. injection E' as _ -> ->.
      cbn [GPUMonitorManager.gpu_monitors GPUMonitorManager.is_initialized].
      split; [|split].
      * apply Forall_app. split; [exact Hw|].
        constructor; [|constructor]. now apply (initialized_working _ lib api).
      * now destruct (GPUMonitorManager.gpu_monitors this).
      * rewrite open_handles_app, length_app, Ho, Nat2Z.inj_add.
        change (open_handles [EvLoad path; EvCall Nvml.nvmlInit;
                              EvCall Nvml.nvmlDeviceGetCount]) with 1.
        cbn [List.length]. lia.
    + destruct H as (t & E' & Hopen). rewrite E in E'.
      injection E' as _ -> ->.
      cbn [GPUMonitorManager.gpu_monitors GPUMonitorManager.is_initialized].
      repeat split; [exact Hw|lia].
  - split; [exact Hw|]. split; [exact Hi|].
    destruct (GPUMonitorManager.is_initialized this) eqn:Hini.
    + rewrite (manager_getAllGPUInfo_exact this l tr
                 (Forall_working_usable _ Hw) Hini) in E.
      cbv zeta in E. injection E as _ _ <-.
      rewrite open_handles_app, (open_handles_flat_map _ _ monitor_calls_open).
      lia.
    + rewrite manager_getAllGPUInfo_guarded in E by exact Hini.
      injection E as _ _ <-. exact Ho.
  - rewrite manager_cleanup_exact in E. injection E as <- <-.
    cbn [GPUMonitorManager.gpu_monitors GPUMonitorManager.constructor
         GPUMonitorManager.is_initialized].
    repeat split; [constructor|].
    rewrite open_handles_app, (release_events_working _ Hw), Ho.
    cbn [List.length]. lia.
Qed.

(** X15.  Along every run of a manager (any order of [initialize] on any
    machines, [getAllGPUInfo] and [cleanup]) the number of library
    references opened and not yet closed is the number of retained
    backends; a [cleanup] at that point closes them all. *)
Theorem X15_manager_run_holds_one_library_per_backend tr0 this tr :
  manager_run tr0 this tr ->
  open_handles tr
  = open_handles tr0
    + Z.of_nat (List.length (GPUMonitorManager.gpu_monitors this))
  /\ (exists tr',
        GPUMonitorManager.cleanup this tr
        = Some (GPUMonitorManager.constructor, tr')
        /\ open_handles tr' = open_handles tr0).
Proof.
  intros Hrun.
  destruct (manager_run_invariant tr0 this tr Hrun) as (Hw & _ & Ho).
  split; [exact Ho|].
  rewrite manager_cleanup_exact. eexists. split; [reflexivity|].
  rewrite open_handles_app, (release_events_working _ Hw), Ho. lia.
Qed.

End ManagerRuns.

(* ================================================================== *)
(** ** The further results on concrete machines *)

Section Witnesses.

Import Nvml Spec Expect.

Lemma X3_initialize_then_cleanup_witness :
  let host := Samples.posix_host (Some (library_of Samples.api_two)) in
  let tr1 := [EvLoad "libnvidia-ml.so.1"; EvCall Nvml.nvmlInit;
              EvCall Nvml.nvmlDeviceGetCount] in
  NVIDIA_GPUMonitor.initialize host NVIDIA_GPUMonitor.constructor []
  = Some ((true, Samples.ready_monitor Samples.api_two), tr1)
  /\ exists this'',
       NVIDIA_GPUMonitor.cleanup (Samples.ready_monitor Samples.api_two) tr1
       = Some (this'', tr1 ++ [EvCall Nvml.nvmlShutdown; EvFree])
       /\ Uninitialized this''
       /\ open_handles (tr1 ++ [EvCall Nvml.nvmlShutdown; EvFree])
          = open_handles [].
Proof.
  intros host tr1. split; [reflexivity|].
  exact (X3_initialize_then_cleanup host NVIDIA_GPUMonitor.constructor []
           (Samples.ready_monitor Samples.api_two) tr1 eq_refl tr1).
Defined.

Lemma X5_getGPUInfo_is_first_record_witness :
  let this := Samples.ready_monitor Samples.api_two in
  bound_to this Samples.api_two
  /\ NVIDIA_GPUMonitor.is_initialized this = true
  /\ 0 < NVIDIA_GPUMonitor.device_count this
  /\ emitted Samples.api_two 0 = true
  /\ exists gpu_info',
       NVIDIA_GPUMonitor.getGPUInfo this Samples.earlier_record []
       = Some ((true, gpu_info'), [] ++ device_calls Samples.api_two 0)
       /\ gpu_info' = snapshot NVIDIA_GPUMonitor.to_megabytes Samples.api_two 0.
Proof.
  intros this.
  assert (Hb : bound_to this Samples.api_two) by repeat split.
  split; [exact Hb|]. split; [reflexivity|]. split; [reflexivity|].
  split; [reflexivity|].
  destruct (X5_getGPUInfo_is_first_record this Samples.api_two
              Samples.earlier_record [] Hb eq_refl eq_refl) as (g & E & H).
  exists g. split; [exact E|]. apply (H eq_refl).
Defined.

Lemma X6_getGPUInfo_failure_writes_witness :
  let this := Samples.ready_monitor Samples.api_memory_fails in
  (NVIDIA_GPUMonitor.is_initialized this = true
   -> bound_to this Samples.api_memory_fails)
  /\ ready this = true
  /\ handle_ok Samples.api_memory_fails 0 = true
  /\ name_ok Samples.api_memory_fails 0 = true
  /\ memory_ok Samples.api_memory_fails 0 = false
  /\ exists gpu_info' tr',
       NVIDIA_GPUMonitor.getGPUInfo this Samples.earlier_record []
       = Some ((false, gpu_info'), tr')
       /\ name gpu_info' = "GPU 0"%string
       /\ memory_total gpu_info' = memory_total Samples.earlier_record.
Proof.
  intros this.
  assert (Hb : NVIDIA_GPUMonitor.is_initialized this = true
               -> bound_to this Samples.api_memory_fails)
    by (intros _; repeat split).
  split; [exact Hb|]. repeat (split; [reflexivity|]).
  destruct (X6_getGPUInfo_failure_writes this Samples.api_memory_fails
              Samples.earlier_record [] Hb)
    as (r & g & tr' & E & _ & _ & H).
  destruct (H eq_refl eq_refl eq_refl) as (Hn & _ & _ & Hm).
  destruct (Hm eq_refl) as (-> & Ht & _).
  exists g, tr'. split; [exact E|]. split; [exact Hn|exact Ht].
Defined.

Lemma X7_sweep_tries_every_index_once_witness :
  let this := Samples.ready_monitor Samples.api_three in
  bound_to this Samples.api_three
  /\ ready this = true
  /\ exists r out calls,
       NVIDIA_GPUMonitor.getAllGPUInfo this [] [] = Some ((r, out), [] ++ calls)
       /\ List.length (filter is_handle_call calls) = 3%nat.
Proof.
  intros this.
  assert (Hb : bound_to this Samples.api_three) by repeat split.
  split; [exact Hb|]. split; [reflexivity|].
  destruct (X7_sweep_tries_every_index_once this Samples.api_three [] []
              Hb eq_refl) as (r & out & E & _ & H & _).
  exists r, out, (flat_map (device_calls Samples.api_three)
                    (indices (NVIDIA_GPUMonitor.device_count this))).
  split; [exact E|exact H].
Defined.

Lemma X8_records_well_formed_witness :
  let this := Samples.ready_monitor Samples.api_two in
  (NVIDIA_GPUMonitor.is_initialized this = true
   -> bound_to this Samples.api_two)
  /\ exists r new tr',
       NVIDIA_GPUMonitor.getAllGPUInfo this [] [] = Some ((r, [] ++ new), tr')
       /\ (List.length new <= 2)%nat
       /\ Forall (fun g => vendor g = "NVIDIA"%string) new.
Proof.
  intros this.
  assert (Hb : NVIDIA_GPUMonitor.is_initialized this = true
               -> bound_to this Samples.api_two)
    by (intros _; repeat split).
  split; [exact Hb|].
  destruct (X8_records_well_formed this Samples.api_two [] [] Hb)
    as (r & new & tr' & E & Hlen & Hall).
  exists r, new, tr'. split; [exact E|]. split; [exact Hlen|].
  eapply Forall_impl; [|exact Hall]. intros g H. apply H.
Defined.

Lemma two_device_manager_reachable :
  reachable
    (GPUMonitorManager.mk
       [IGPUMonitor.Nvidia (Samples.ready_monitor Samples.api_two)] true).
Proof.
  apply (reach_initialize
           (Samples.posix_host (Some (library_of Samples.api_two)))
           GPUMonitorManager.constructor [] true _
           [EvLoad "libnvidia-ml.so.1"; EvCall Nvml.nvmlInit;
            EvCall Nvml.nvmlDeviceGetCount]);
    [exact reach_constructor|reflexivity].
Defined.

Lemma X9_reachable_manager_is_safe_witness :
  let manager :=
    GPUMonitorManager.mk
      [IGPUMonitor.Nvidia (Samples.ready_monitor Samples.api_two)] true in
  reachable manager
  /\ Forall working (GPUMonitorManager.getGPUMonitors manager)
  /\ exists r new calls,
       GPUMonitorManager.getAllGPUInfo manager [] []
       = Some ((r, [] ++ new), [] ++ calls)
       /\ open_handles calls = 0.
Proof.
  intros manager. split; [exact two_device_manager_reachable|].
  destruct (X9_reachable_manager_is_safe manager two_device_manager_reachable)
    as (_ & Hw & _ & H).
  split; [exact Hw|].
  destruct (H [] []) as (r & new & calls & E & Ho & _).
  exists r, new, calls. split; [exact E|exact Ho].
Defined.

Lemma X10_manager_concatenates_backends_witness :
  let nv := Samples.ready_monitor Samples.api_two in
  let manager := GPUMonitorManager.mk [IGPUMonitor.Nvidia nv] true in
  Forall usable (GPUMonitorManager.gpu_monitors manager)
  /\ GPUMonitorManager.is_initialized manager = true
  /\ exists tr',
       GPUMonitorManager.getAllGPUInfo manager [Samples.earlier_record] []
       = Some ((true,
                Samples.earlier_record
                :: flat_map monitor_records [IGPUMonitor.Nvidia nv]), tr')
  /\ monitor_records (IGPUMonitor.Nvidia nv) = produced nv Samples.api_two.
Proof.
  intros nv manager.
  assert (Hu : Forall usable (GPUMonitorManager.gpu_monitors manager)).
  { repeat constructor. intros _. exists Samples.api_two. repeat split. }
  split; [exact Hu|]. split; [reflexivity|].
  destruct (X10_manager_concatenates_backends manager [Samples.earlier_record]
              [] Hu eq_refl) as ((tr' & E) & Hrec & _).
  exists tr'. split; [exact E|].
  apply Hrec. repeat split.
Defined.

Lemma X11_initialize_twice_duplicates_witness :
  let host := Samples.posix_host (Some (library_of Samples.api_two)) in
  let nv := Samples.ready_monitor Samples.api_two in
  let twice :=
    GPUMonitorManager.mk [IGPUMonitor.Nvidia nv; IGPUMonitor.Nvidia nv] true in
  available 0 host
  = Some ("libnvidia-ml.so.1"%string, library_of Samples.api_two,
          Samples.api_two, 2)
  /\ exists once tr1 tr2,
       GPUMonitorManager.initialize host GPUMonitorManager.constructor []
       = Some ((true, once), tr1)
       /\ GPUMonitorManager.initialize host once tr1 = Some ((true, twice), tr2)
       /\ exists trq',
            GPUMonitorManager.getAllGPUInfo twice [] []
            = Some ((true, produced nv Samples.api_two
                           ++ produced nv Samples.api_two), trq').
Proof.
  intros host nv twice. split; [reflexivity|].
  destruct (X11_initialize_twice_duplicates host "libnvidia-ml.so.1"
              (library_of Samples.api_two) Samples.api_two 2 [] eq_refl)
    as (once & tr1 & tr2 & E1 & E2 & _ & Hq & _).
  exists once, tr1, tr2. split; [exact E1|]. split; [exact E2|].
  destruct (Hq [] []) as (trq' & E). exists trq'. exact E.
Defined.

Lemma X15_manager_run_witness :
  let manager :=
    GPUMonitorManager.mk
      [IGPUMonitor.Nvidia (Samples.ready_monitor Samples.api_two)] true in
  let tr := [EvLoad "libnvidia-ml.so.1"; EvCall Nvml.nvmlInit;
             EvCall Nvml.nvmlDeviceGetCount] in
  manager_run [] manager tr
  /\ open_handles tr = open_handles [] + 1
  /\ exists tr',
       GPUMonitorManager.cleanup manager tr
       = Some (GPUMonitorManager.constructor, tr')
       /\ open_handles tr' = open_handles [].
Proof.
  intros manager tr.
  assert (Hrun : manager_run [] manager tr).
  { apply (run_initialize []
             (Samples.posix_host (Some (library_of Samples.api_two)))
             GPUMonitorManager.constructor [] true);
      [apply run_constructor|reflexivity]. }
  split; [exact Hrun|].
  exact (X15_manager_run_holds_one_library_per_backend [] manager tr Hrun).
Defined.

End Witnesses.
